(** * Session Saver: the snapshot / restore logic of [src/extension.ts]

    A shallow embedding of the extension's session serializer, storage
    listing, restore engine and commands, with the properties the
    specification states about them.

    Conventions.
    - A JavaScript [number] that holds an index, a column or a version is a
      [Z]; the values the extension computes with are small integers, for
      which JavaScript's subtraction and comparison are exact.
    - A JavaScript [Set<string>] is a [gset string], the [Map] of cursor
      positions a [gmap string _].
    - The host (VS Code, Node's [fs] and [path]) is not part of the
      repository.  Its state is the record [World]; what a command shows,
      asks, opens, closes or writes is recorded as a list of [Effect]s, in
      order, and the answers of the user are part of the world it starts
      in. *)

From Stdlib Require Import ZArith List String Ascii Bool Lia Permutation Sorted.
From Stdlib Require Import DecimalString OrderedTypeEx.
From stdpp Require Import gmap strings.
Import ListNotations.
Local Open Scope string_scope.
Local Open Scope Z_scope.
Local Open Scope list_scope.

(** * [Array.prototype.sort] *)

Module JsArray.
Section Sort.
Context {A : Type}.
Variable compareFn : A -> A -> Z.

(** [sort] with a comparator is stable (ECMAScript 2019): [x] ends up
    before [y] when [compareFn x y < 0], and in input order when the
    comparator answers [0].  The embedding sorts by insertion from the
    right, each element going in front of the first one that it does not
    have to follow. *)
Fixpoint insert (x : A) (l : list A) : list A :=
  match l with
  | [] => [x]
  | y :: l' => if compareFn x y <=? 0 then x :: y :: l' else y :: insert x l'
  end.

Fixpoint sort (l : list A) : list A :=
  match l with
  | [] => []
  | x :: l' => insert x (sort l')
  end.

Definition before (x y : A) : Prop := compareFn x y <= 0.

End Sort.
End JsArray.

(** * Data model (the interfaces at the top of [extension.ts]) *)

Record SessionFileRecord := {
  name : string;
  fullPath : string
}.

Record SavedCursorPosition := {
  line : Z;
  character : Z
}.

Record SavedTabState := {
  uri : string;
  groupIndex : Z;
  tabIndex : Z;
  viewColumn : option Z;
  isGroupActive : bool;
  isGlobalActive : bool;
  cursor : option SavedCursorPosition
}.

(** [SessionFileContent].  The snapshot builds it with typed descriptors;
    [readSessionFile] fills [tabs] with whatever the file's array holds
    (the cast [parsed.tabs as SavedTabState[]] checks nothing), hence the
    parameter. *)
Record SessionFileContent (T : Type) := {
  version : Z;
  tabs : list T
}.
Arguments version {T} _.
Arguments tabs {T} _.
Arguments Build_SessionFileContent {T} _ _.

Definition SESSION_FOLDER_NAME : string := "sessions".
Definition SESSION_FILE_VERSION : Z := 2.

Inductive SessionLocationSetting := workspace | global | custom.
Inductive SaveBehaviorSetting := ask | yes_save_and_continue | no_just_switch.
Inductive SaveBehaviorInternal := ask' | yes | no.

Record ResolveOptions := {
  promptUser : option bool;
  showWarning : option bool;
  ensureExists : option bool
}.

(** * JSON values *)

#[local] Set Warnings "-register-all".

Inductive json :=
| JNull
| JBool (b : bool)
| JNum (n : Z)
| JStr (s : string)
| JArr (items : list json)
| JObj (props : list (string * json)).

(** [parsed.key]: the property if the value is an object that has it,
    [undefined] ([None]) otherwise. *)
Fixpoint prop_lookup (key : string) (props : list (string * json)) : option json :=
  match props with
  | [] => None
  | (k, v) :: rest => if String.eqb k key then Some v else prop_lookup key rest
  end.

Definition get_prop (key : string) (v : json) : option json :=
  match v with
  | JObj props => prop_lookup key props
  | _ => None
  end.

(** [JSON.stringify] drops a property whose value is [undefined]. *)
Definition optional_prop (key : string) (v : option json) : list (string * json) :=
  match v with
  | Some j => [(key, j)]
  | None => []
  end.

Definition json_of_cursor (c : SavedCursorPosition) : json :=
  JObj [("line", JNum (line c)); ("character", JNum (character c))].

Definition json_of_tab (t : SavedTabState) : json :=
  JObj ([("uri", JStr (uri t));
         ("groupIndex", JNum (groupIndex t));
         ("tabIndex", JNum (tabIndex t))]
        ++ optional_prop "viewColumn" (option_map JNum (viewColumn t))
        ++ [("isGroupActive", JBool (isGroupActive t));
            ("isGlobalActive", JBool (isGlobalActive t))]
        ++ optional_prop "cursor" (option_map json_of_cursor (cursor t))).

Definition json_of_session (s : SessionFileContent SavedTabState) : json :=
  JObj [("version", JNum (version s)); ("tabs", JArr (map json_of_tab (tabs s)))].

(** Reading an array element at the type the cast claims for it. *)
Definition cursor_of_json (v : json) : option SavedCursorPosition :=
  match get_prop "line" v, get_prop "character" v with
  | Some (JNum l), Some (JNum c) => Some {| line := l; character := c |}
  | _, _ => None
  end.

(** An optional property: absent, or present with the declared type. *)
Definition optional_num (v : option json) : option (option Z) :=
  match v with
  | None => Some None
  | Some (JNum n) => Some (Some n)
  | Some _ => None
  end.

Definition optional_cursor (v : option json) : option (option SavedCursorPosition) :=
  match v with
  | None => Some None
  | Some c => option_map Some (cursor_of_json c)
  end.

Definition tab_of_json (v : json) : option SavedTabState :=
  match get_prop "uri" v, get_prop "groupIndex" v, get_prop "tabIndex" v,
        get_prop "isGroupActive" v, get_prop "isGlobalActive" v,
        optional_num (get_prop "viewColumn" v),
        optional_cursor (get_prop "cursor" v) with
  | Some (JStr u), Some (JNum g), Some (JNum t), Some (JBool ga), Some (JBool gl),
    Some col, Some cur =>
      Some {| uri := u; groupIndex := g; tabIndex := t; viewColumn := col;
              isGroupActive := ga; isGlobalActive := gl; cursor := cur |}
  | _, _, _, _, _, _, _ => None
  end.

Fixpoint tabs_of_json (items : list json) : option (list SavedTabState) :=
  match items with
  | [] => Some []
  | v :: rest =>
      match tab_of_json v, tabs_of_json rest with
      | Some t, Some ts => Some (t :: ts)
      | _, _ => None
      end
  end.


(** * Strings and paths (JavaScript's [String] methods, Node's [path]) *)

(** JavaScript truthiness of a [string | undefined]: [!s] holds for
    [undefined] and for the empty string. *)
Definition truthy (s : option string) : bool :=
  match s with
  | Some s' => negb (String.eqb s' "")
  | None => false
  end.

(** [s] minus the suffix [suffix], when [s] ends with it. *)
Fixpoint strip_suffix (suffix s : string) : option string :=
  if String.eqb s suffix then Some ""
  else match s with
       | EmptyString => None
       | String c rest => option_map (String c) (strip_suffix suffix rest)
       end.

Definition endsWith (s suffix : string) : bool :=
  match strip_suffix suffix s with
  | Some _ => true
  | None => false
  end.

(** [path.join(dir, file)] for a directory path and a name: POSIX
    separator; the two arguments are taken as already normalized. *)
Definition path_join (dir file : string) : string := dir +:+ "/" +:+ file.

(** A path cut at its last separator: [(directory, last component)]. *)
Fixpoint path_split (p : string) : option (string * string) :=
  match p with
  | EmptyString => None
  | String c rest =>
      match path_split rest with
      | Some (d, b) => Some (String c d, b)
      | None => if Ascii.eqb c "/" then Some ("", rest) else None
      end
  end.

Definition last_component (p : string) : string :=
  match path_split p with
  | Some (_, b) => b
  | None => p
  end.

(** [path.dirname]. *)
Definition path_dirname (p : string) : string :=
  match path_split p with
  | Some ("", _) => "/"
  | Some (d, _) => d
  | None => "."
  end.

(** [path.basename(p, ext)]: the last component, without [ext] when that
    is a proper suffix of it; Node answers the empty string when the whole
    argument is [ext]. *)
Definition path_basename (p ext : string) : string :=
  if String.eqb p ext then ""
  else let b := last_component p in
       match strip_suffix ext b with
       | Some "" => b
       | Some stem => stem
       | None => b
       end.

(** [s.replace(/[:.]/g, '-')]. *)
Fixpoint replace_colon_dot (s : string) : string :=
  match s with
  | EmptyString => EmptyString
  | String c rest =>
      String (if Ascii.eqb c ":" || Ascii.eqb c "." then "-"%char else c)
             (replace_colon_dot rest)
  end.

(** A number inside a template literal. *)
Definition show_nat (n : nat) : string :=
  DecimalString.NilZero.string_of_uint (Nat.to_uint n).

Fixpoint no_slash (s : string) : bool :=
  match s with
  | EmptyString => true
  | String c rest => negb (Ascii.eqb c "/") && no_slash rest
  end.


(** * The host: disk, configuration, editor *)

(** The text of a file, seen through [JSON.parse]: the value it parses to,
    or text on which [JSON.parse] throws. *)
Inductive FileText :=
| JsonText (value : json)
| OtherText (raw : string).

Inductive Node :=
| File (text : FileText)
| Directory.

Module vscode.

(** [\w], and the characters a scheme may go on with: the pattern
    [/^\w[\w\d+.-]*$/] of the constructor's check. *)
Definition word_char (c : ascii) : bool :=
  let n := nat_of_ascii c in
  (((48 <=? n) && (n <=? 57)) || ((65 <=? n) && (n <=? 90))
   || ((97 <=? n) && (n <=? 122)) || (n =? 95))%nat.

Definition scheme_char (c : ascii) : bool :=
  word_char c || Ascii.eqb c "+" || Ascii.eqb c "." || Ascii.eqb c "-".

Fixpoint all_chars (p : ascii -> bool) (s : string) : bool :=
  match s with
  | EmptyString => true
  | String c rest => p c && all_chars p rest
  end.

Definition legal_scheme (s : string) : bool :=
  match s with
  | EmptyString => false
  | String c rest => word_char c && all_chars scheme_char rest
  end.

Definition double_slash (path : string) : bool :=
  match path with
  | String "/" (String "/" _) => true
  | _ => false
  end.

(** The checks every [Uri] goes through when it is made
    ([_validateUri]): a scheme without illegal characters, and no path
    that begins with two slashes when there is no authority. *)
Definition validateUri (scheme path : string) : bool :=
  legal_scheme scheme && negb (double_slash path).

(** A [Uri], as far as the extension reads it: [scheme] and [fsPath].
    The embedding covers the URIs of local files and their like,
    [scheme://path]: no authority, query or fragment is told apart from
    the path, and no character is written as a percent escape.  A [Uri]
    object exists only when the checks of the constructor passed. *)
Record Uri := {
  scheme : string;
  fsPath : string;
  validated : validateUri scheme fsPath = true
}.

(** [new Uri(...)]: the object, or [None] when the constructor throws. *)
Definition make_checked (scheme path : string) (checked : bool)
  : validateUri scheme path = checked -> option Uri :=
  match checked with
  | true => fun H => Some {| scheme := scheme; fsPath := path; validated := H |}
  | false => fun _ => None
  end.

Definition make (scheme path : string) : option Uri :=
  make_checked scheme path (validateUri scheme path) eq_refl.

Definition toString (u : Uri) : string := scheme u +:+ "://" +:+ fsPath u.

(** The first group of the regular expression of [Uri.parse],
    [^(([^:/?#]+?):)?]: what stands before the first colon, when no [/],
    [?] or [#] comes before that colon. *)
Fixpoint split_scheme (s : string) : option (string * string) :=
  match s with
  | EmptyString => None
  | String c rest =>
      if Ascii.eqb c ":" then Some ("", rest)
      else if Ascii.eqb c "/" || Ascii.eqb c "?" || Ascii.eqb c "#" then None
      else match split_scheme rest with
           | Some (a, b) => Some (String c a, b)
           | None => None
           end
  end.

(** [Uri.parse(value)]: the scheme, [file] when the string has none, and
    the path after [//]; [None] when it throws, which it does when the
    constructor's checks fail. *)
Definition parse (value : string) : option Uri :=
  let '(scheme, rest) :=
    match split_scheme value with
    | Some (String c s, rest) => (String c s, rest)
    | _ => ("file", value)
    end in
  make scheme (match rest with
               | String "/" (String "/" path) => path
               | _ => rest
               end).

(** [tab.input]: the three shapes [getTabUri] looks for, and the rest
    (custom editors, notebooks, webviews, terminals). *)
Inductive TabInput :=
| TabInputText (uri : Uri)
| TabInputTextDiff (original modified : Uri)
| TabInputTextMerge (destination : option Uri)
| TabInputOther.

Record Tab := {
  label : string;
  input : option TabInput;
  isActive : bool
}.

(** [activeTab] points into [tabs]: a host object is identified by its
    place in [tabGroups.all], which is what [===] compares. *)
Record TabGroup := {
  viewColumn : Z;
  tabs : list Tab;
  activeTab : option nat
}.

Record TextDocument := {
  uri : Uri;
  isDirty : bool;
  isUntitled : bool;
  isClosed : bool;
  getText : FileText
}.

End vscode.

(** What a command does to the host besides changing [World]: messages,
    prompts, editor commands, and the [fs] calls that write. *)
Inductive Effect :=
| ShowInformationMessage (message : string)
| ShowWarningMessage (message : string)
| ShowModalWarning (message : string) (items : list string)
| ShowInputBox (prompt placeHolder : string)
| ShowQuickPick (items : list string) (placeHolder : string)
| ShowWorkspaceFolderPick (placeHolder : string)
| ShowOpenDialog (title openLabel : string)
| CloseTab (groupIndex tabIndex : nat)
| ExecuteCommand (command : string)
| OpenTextDocument (uri : vscode.Uri)
| ShowTextDocument (uri : vscode.Uri) (viewColumn : option Z) (preserveFocus : bool)
| SetSelection (uri : vscode.Uri) (position : SavedCursorPosition)
| SaveAll
| ConsoleError
| Mkdir (dirPath : string)
| WriteFile (filePath : string)
| Unlink (filePath : string)
| RefreshTree.

Record Configuration := {
  fileLocation : SessionLocationSetting;
  workspaceFolder : string;
  customFolder : string;
  saveBehaviorOnRestore : SaveBehaviorSetting
}.

Record World := {
  (** the disk: every path that exists, in the order [readdir] lists it *)
  disk : list (string * Node);
  (** the effective [sessionSaver] settings *)
  configuration : Configuration;
  (** [vscode.workspace.workspaceFolders], by [uri.fsPath] *)
  workspaceFolders : list string;
  (** [context.globalStorageUri.fsPath] *)
  globalStoragePath : string;
  (** [vscode.window.tabGroups.all] and the index of [activeTabGroup], as
      a command finds them: closing and showing tabs is recorded as
      effects, and no command reads the tabs again after it *)
  tabGroups : list vscode.TabGroup;
  activeTabGroup : option nat;
  (** [vscode.workspace.textDocuments] *)
  textDocuments : list vscode.TextDocument;
  (** documents [openTextDocument] rejects, by [uri.toString()] *)
  unopenable : gset string;
  (** the module-level [Map] of cursor positions *)
  lastKnownCursorPositions : gmap string SavedCursorPosition;
  (** what the user will answer to the prompts to come; [None] is a
      dismissed prompt *)
  answers : list (option string);
  (** [new Date().toISOString()] *)
  clock : string
}.

Definition with_disk (d : list (string * Node)) (w : World) : World :=
  {| disk := d; configuration := configuration w;
     workspaceFolders := workspaceFolders w; globalStoragePath := globalStoragePath w;
     tabGroups := tabGroups w; activeTabGroup := activeTabGroup w;
     textDocuments := textDocuments w; unopenable := unopenable w;
     lastKnownCursorPositions := lastKnownCursorPositions w;
     answers := answers w; clock := clock w |}.

Definition with_configuration (c : Configuration) (w : World) : World :=
  {| disk := disk w; configuration := c;
     workspaceFolders := workspaceFolders w; globalStoragePath := globalStoragePath w;
     tabGroups := tabGroups w; activeTabGroup := activeTabGroup w;
     textDocuments := textDocuments w; unopenable := unopenable w;
     lastKnownCursorPositions := lastKnownCursorPositions w;
     answers := answers w; clock := clock w |}.

Definition with_textDocuments (ds : list vscode.TextDocument) (w : World) : World :=
  {| disk := disk w; configuration := configuration w;
     workspaceFolders := workspaceFolders w; globalStoragePath := globalStoragePath w;
     tabGroups := tabGroups w; activeTabGroup := activeTabGroup w;
     textDocuments := ds; unopenable := unopenable w;
     lastKnownCursorPositions := lastKnownCursorPositions w;
     answers := answers w; clock := clock w |}.

Definition with_cursors (m : gmap string SavedCursorPosition) (w : World) : World :=
  {| disk := disk w; configuration := configuration w;
     workspaceFolders := workspaceFolders w; globalStoragePath := globalStoragePath w;
     tabGroups := tabGroups w; activeTabGroup := activeTabGroup w;
     textDocuments := textDocuments w; unopenable := unopenable w;
     lastKnownCursorPositions := m;
     answers := answers w; clock := clock w |}.

Definition with_answers (a : list (option string)) (w : World) : World :=
  {| disk := disk w; configuration := configuration w;
     workspaceFolders := workspaceFolders w; globalStoragePath := globalStoragePath w;
     tabGroups := tabGroups w; activeTabGroup := activeTabGroup w;
     textDocuments := textDocuments w; unopenable := unopenable w;
     lastKnownCursorPositions := lastKnownCursorPositions w;
     answers := a; clock := clock w |}.

(** * Asynchronous code: state, effects, rejection *)

Inductive Result (A : Type) :=
| Ok (value : A)
| Threw (code : string).
Arguments Ok {A} _.
Arguments Threw {A} _.

(** An [async] function: from the world it starts in to its result, the
    world it leaves and the effects it had, in order. *)
Definition M (A : Type) : Type := World -> Result A * World * list Effect.

Definition ret {A} (a : A) : M A := fun w => (Ok a, w, []).

Definition throw {A} (code : string) : M A := fun w => (Threw code, w, []).

Definition bind {A B} (m : M A) (k : A -> M B) : M B :=
  fun w =>
    match m w with
    | (Ok a, w1, t1) => let '(r, w2, t2) := k a w1 in (r, w2, t1 ++ t2)
    | (Threw code, w1, t1) => (Threw code, w1, t1)
    end.

(** [try { body } catch (err) { handler }]. *)
Definition try_catch {A} (body : M A) (handler : string -> M A) : M A :=
  fun w =>
    match body w with
    | (Ok a, w1, t1) => (Ok a, w1, t1)
    | (Threw code, w1, t1) => let '(r, w2, t2) := handler code w1 in (r, w2, t1 ++ t2)
    end.

Declare Scope async_scope.
Delimit Scope async_scope with async.
Notation "x <- m ;; k" := (bind m (fun x => k))
  (at level 100, m at next level, right associativity) : async_scope.
Notation "m ;; k" := (bind m (fun _ => k))
  (at level 100, right associativity) : async_scope.
Local Open Scope async_scope.

Definition result {A} (o : Result A * World * list Effect) : Result A := fst (fst o).
Definition final {A} (o : Result A * World * list Effect) : World := snd (fst o).
Definition effects {A} (o : Result A * World * list Effect) : list Effect := snd o.

Definition emit (e : Effect) : M unit := fun w => (Ok tt, w, [e]).
Definition get_world : M World := fun w => (Ok w, w, []).

(** A call that waits for the user: the effect, then the next answer; a
    prompt nobody answers is a dismissed one. *)
Definition prompt_user (e : Effect) : M (option string) :=
  fun w => (Ok (hd None (answers w)), with_answers (tl (answers w)) w, [e]).

(** ** Node's [fs] on the disk of the world *)

Fixpoint disk_lookup (p : string) (d : list (string * Node)) : option Node :=
  match d with
  | [] => None
  | (q, n) :: rest => if String.eqb q p then Some n else disk_lookup p rest
  end.

Definition disk_remove (p : string) (d : list (string * Node)) : list (string * Node) :=
  List.filter (fun '(q, _) => negb (String.eqb q p)) d.

(** Overwrite in place, or add at the end. *)
Fixpoint disk_write (p : string) (n : Node) (d : list (string * Node)) : list (string * Node) :=
  match d with
  | [] => [(p, n)]
  | (q, m) :: rest =>
      if String.eqb q p then (q, n) :: rest else (q, m) :: disk_write p n rest
  end.

(** The names [readdir] answers for [folder]. *)
Definition entry_name (folder : string) (p : string) : list string :=
  match path_split p with
  | Some (dir, b) => if String.eqb dir folder then [b] else []
  | None => []
  end.

Definition disk_names (folder : string) (d : list (string * Node)) : list string :=
  flat_map (fun '(p, _) => entry_name folder p) d.

(** [dirPath] and the directories above it, outermost first. *)
Fixpoint dir_chain (seen rest : string) : list string :=
  match rest with
  | EmptyString => if String.eqb seen "" then [] else [seen]
  | String c rest' =>
      (if Ascii.eqb c "/" && negb (String.eqb seen "") then [seen] else [])
      ++ dir_chain (seen +:+ String c "") rest'
  end.

Definition parent_exists (p : string) (d : list (string * Node)) : bool :=
  match path_split p with
  | Some ("", _) => true
  | Some (dir, _) =>
      match disk_lookup dir d with
      | Some Directory => true
      | _ => false
      end
  | None => true
  end.

Definition existsSync (p : string) (w : World) : bool :=
  match disk_lookup p (disk w) with
  | Some _ => true
  | None => false
  end.

Definition readFile (filePath : string) : M FileText :=
  fun w =>
    match disk_lookup filePath (disk w) with
    | Some (File text) => (Ok text, w, [])
    | Some Directory => (Threw "EISDIR", w, [])
    | None => (Threw "ENOENT", w, [])
    end.

Definition readdir (folder : string) : M (list string) :=
  fun w =>
    match disk_lookup folder (disk w) with
    | Some Directory => (Ok (disk_names folder (disk w)), w, [])
    | Some (File _) => (Threw "ENOTDIR", w, [])
    | None => (Threw "ENOENT", w, [])
    end.

Definition writeFile (filePath : string) (text : FileText) : M unit :=
  fun w =>
    match disk_lookup filePath (disk w) with
    | Some Directory => (Threw "EISDIR", w, [WriteFile filePath])
    | _ =>
        if parent_exists filePath (disk w)
        then (Ok tt, with_disk (disk_write filePath (File text) (disk w)) w,
              [WriteFile filePath])
        else (Threw "ENOENT", w, [WriteFile filePath])
    end.

Definition unlink (filePath : string) : M unit :=
  fun w =>
    match disk_lookup filePath (disk w) with
    | Some (File _) =>
        (Ok tt, with_disk (disk_remove filePath (disk w)) w, [Unlink filePath])
    | Some Directory => (Threw "EISDIR", w, [Unlink filePath])
    | None => (Threw "ENOENT", w, [Unlink filePath])
    end.

Definition add_directory (d : list (string * Node)) (p : string) : list (string * Node) :=
  match disk_lookup p d with
  | Some _ => d
  | None => d ++ [(p, Directory)]
  end.

Definition is_file (d : list (string * Node)) (p : string) : bool :=
  match disk_lookup p d with
  | Some (File _) => true
  | _ => false
  end.

(** [fs.promises.mkdir(dirPath, { recursive: true })]: [EEXIST] when
    [dirPath] is a regular file, [ENOTDIR] when a directory above it is
    one. *)
Definition mkdir_recursive (dirPath : string) : M unit :=
  fun w =>
    let chain := dir_chain "" dirPath in
    if is_file (disk w) dirPath then (Threw "EEXIST", w, [Mkdir dirPath])
    else if existsb (is_file (disk w)) chain then (Threw "ENOTDIR", w, [Mkdir dirPath])
    else (Ok tt, with_disk (fold_left add_directory chain (disk w)) w, [Mkdir dirPath]).

(** [JSON.parse(raw)]. *)
Definition JSON_parse (raw : FileText) : M json :=
  match raw with
  | JsonText v => ret v
  | OtherText _ => throw "SyntaxError"
  end.

(** [JSON.stringify(snapshot, null, 2)]. *)
Definition JSON_stringify (snapshot : SessionFileContent SavedTabState) : FileText :=
  JsonText (json_of_session snapshot).

(** ** The editor *)

Definition showInformationMessage (message : string) : M unit :=
  emit (ShowInformationMessage message).

Definition showWarningMessage (message : string) : M unit :=
  emit (ShowWarningMessage message).

Definition showModalWarning (message : string) (items : list string) : M (option string) :=
  prompt_user (ShowModalWarning message items).

Definition showInputBox (prompt placeHolder : string) : M (option string) :=
  prompt_user (ShowInputBox prompt placeHolder).

Definition showQuickPick (items : list string) (placeHolder : string) : M (option string) :=
  prompt_user (ShowQuickPick items placeHolder).

Definition document_path (doc : vscode.TextDocument) : string :=
  vscode.fsPath (vscode.uri doc).

Definition needs_saving (doc : vscode.TextDocument) : bool :=
  vscode.isDirty doc && negb (vscode.isUntitled doc).

Definition saved (doc : vscode.TextDocument) : vscode.TextDocument :=
  if needs_saving doc
  then {| vscode.uri := vscode.uri doc; vscode.isDirty := false;
          vscode.isUntitled := vscode.isUntitled doc;
          vscode.isClosed := vscode.isClosed doc;
          vscode.getText := vscode.getText doc |}
  else doc.

(** [vscode.workspace.saveAll()]: every dirty document that has a file is
    written to it. *)
Definition saveAll : M unit :=
  fun w =>
    let dirty := List.filter needs_saving (textDocuments w) in
    let d := fold_left (fun d doc => disk_write (document_path doc) (File (vscode.getText doc)) d)
                       dirty (disk w) in
    (Ok tt, with_textDocuments (map saved (textDocuments w)) (with_disk d w), [SaveAll]).

(** [sessionTreeProvider?.refresh()]. *)
Definition refresh : M unit := emit RefreshTree.

(** * The extension *)

(** A double quote, for the messages that quote a name. *)
Definition dquote : string := String (ascii_of_nat 34) EmptyString.
Definition quoted (s : string) : string := dquote +:+ s +:+ dquote.

Record Listing := {
  entries : list SessionFileRecord;
  folder : option string
}.

(** The elements of [collectTextTabs()]; [groupIndex] and [tabIndex] also
    stand for the identity of [tab]. *)
Module Collected.
Record t := {
  tab : vscode.Tab;
  uri : vscode.Uri;
  group : vscode.TabGroup;
  groupIndex : nat;
  tabIndex : nat
}.
End Collected.

(** [l.forEach((x, i) => ...)] collecting what each call pushes. *)
Fixpoint forEach_push {A B} (f : A -> nat -> list B) (i : nat) (l : list A) : list B :=
  match l with
  | [] => []
  | x :: rest => f x i ++ forEach_push f (S i) rest
  end.

(** The record [listSessions] makes of a directory entry. *)
Definition recordOf (folder file : string) : SessionFileRecord :=
  {| name := path_basename file ".json"; fullPath := path_join folder file |}.

Section Extension.

(** [a.localeCompare(b, undefined, { sensitivity: 'base' })]: the
    collation of the host. *)
Variable localeCompare : string -> string -> Z.

(** ** Configuration helpers *)

Definition getFileLocationSetting (w : World) : SessionLocationSetting :=
  fileLocation (configuration w).

Definition getAutoSaveBehavior (w : World) : SaveBehaviorInternal :=
  match saveBehaviorOnRestore (configuration w) with
  | yes_save_and_continue => yes
  | no_just_switch => no
  | ask => ask'
  end.

(** [updateConfigValue], for the two keys the modelled code writes. *)
Definition updateConfigValue (key value : string) : M unit :=
  fun w =>
    let c := configuration w in
    let c' :=
      if String.eqb key "workspaceFolder" then
        {| fileLocation := fileLocation c; workspaceFolder := value;
           customFolder := customFolder c;
           saveBehaviorOnRestore := saveBehaviorOnRestore c |}
      else if String.eqb key "customFolder" then
        {| fileLocation := fileLocation c; workspaceFolder := workspaceFolder c;
           customFolder := value;
           saveBehaviorOnRestore := saveBehaviorOnRestore c |}
      else c in
    (Ok tt, with_configuration c' w, []).

Definition ensureDirectory (dirPath : string) : M unit := mkdir_recursive dirPath.

(** The answer to the dialog is the chosen folder's [fsPath]. *)
Definition selectFolderDialog (title openLabel : string) : M (option string) :=
  prompt_user (ShowOpenDialog title openLabel).

Definition resolveWorkspaceBase (promptUser showWarning : bool) : M (option string) :=
  w <- get_world ;;
  let stored := workspaceFolder (configuration w) in
  if negb (String.eqb stored "") && existsSync stored w then ret (Some stored)
  else
    match workspaceFolders w with
    | [] =>
        (if showWarning
         then showWarningMessage
                "No workspace folder is open. Please open a workspace or change the storage location."
         else ret tt) ;;
        ret None
    | first :: others =>
        if (length others =? 0)%nat || negb promptUser then
          updateConfigValue "workspaceFolder" first ;;
          ret (Some first)
        else
          picked <- prompt_user (ShowWorkspaceFolderPick
                       "Select a workspace folder to store Session Saver files") ;;
          match picked with
          | None => ret None
          | Some p => updateConfigValue "workspaceFolder" p ;; ret (Some p)
          end
    end.

Definition resolveCustomBase (promptUser showWarning : bool) : M (option string) :=
  w <- get_world ;;
  let stored := customFolder (configuration w) in
  if negb (String.eqb stored "") && existsSync stored w then ret (Some stored)
  else if negb promptUser then
    (if showWarning
     then showWarningMessage
            "Custom session folder is not configured. Please set it via the Session Saver settings or command."
     else ret tt) ;;
    ret None
  else
    selected <- selectFolderDialog "Select a folder to store Session Saver files" "Use Folder" ;;
    if negb (truthy selected) then ret None
    else
      match selected with
      | Some s => updateConfigValue "customFolder" s ;; ret (Some s)
      | None => ret None
      end.

Definition resolveSessionDirectory (options : ResolveOptions) : M (option string) :=
  let promptUser := default true (promptUser options) in
  let showWarning := default true (showWarning options) in
  let ensureExists := default false (ensureExists options) in
  w <- get_world ;;
  let location := getFileLocationSetting w in
  basePath <- match location with
              | global => ret (Some (globalStoragePath w))
              | workspace => resolveWorkspaceBase promptUser showWarning
              | custom => resolveCustomBase promptUser showWarning
              end ;;
  if negb (truthy basePath) then ret None
  else
    match basePath with
    | None => ret None
    | Some base =>
        let sessionFolder :=
          match location with
          | workspace => path_join (path_join base ".vscode") SESSION_FOLDER_NAME
          | _ => path_join base SESSION_FOLDER_NAME
          end in
        (if ensureExists then ensureDirectory sessionFolder else ret tt) ;;
        ret (Some sessionFolder)
    end.

(** The [filter], [map] and [sort] of [listSessions]. *)
Definition sessionEntries (folder : string) (files : list string) : list SessionFileRecord :=
  JsArray.sort (fun a b => localeCompare (name a) (name b))
    (map (recordOf folder)
         (List.filter (fun file => endsWith file ".json") files)).

Definition listSessions (options : ResolveOptions) : M Listing :=
  folder <- resolveSessionDirectory options ;;
  w <- get_world ;;
  match folder with
  | Some f =>
      if negb (truthy folder) || negb (existsSync f w)
      then ret {| entries := []; folder := folder |}
      else
        files <- readdir f ;;
        ret {| entries := sessionEntries f files; folder := folder |}
  | None => ret {| entries := []; folder := folder |}
  end.

(** ** Cursor tracking *)

Definition recordCursorPosition (uri : vscode.Uri) (position : SavedCursorPosition) : M unit :=
  fun w =>
    (Ok tt,
     with_cursors (<[vscode.toString uri := position]> (lastKnownCursorPositions w)) w,
     []).

(** ** Session serializer *)

Definition getTabUri (tab : vscode.Tab) : option vscode.Uri :=
  match vscode.input tab with
  | None => None
  | Some (vscode.TabInputText uri) => Some uri
  | Some (vscode.TabInputTextDiff _ modified) => Some modified
  | Some (vscode.TabInputTextMerge destination) => destination
  | Some vscode.TabInputOther => None
  end.

(** What the inner callback of [collectTextTabs] pushes for one tab. *)
Definition pushTextTabs (group : vscode.TabGroup) (groupIndex : nat)
  : vscode.Tab -> nat -> list Collected.t :=
  fun tab tabIndex =>
    match getTabUri tab with
    | Some uri =>
        if String.eqb (vscode.scheme uri) "file"
        then [{| Collected.tab := tab; Collected.uri := uri; Collected.group := group;
                 Collected.groupIndex := groupIndex; Collected.tabIndex := tabIndex |}]
        else []
    | None => []
    end.

Definition collectTextTabs (w : World) : list Collected.t :=
  forEach_push
    (fun group groupIndex =>
       forEach_push (pushTextTabs group groupIndex) 0%nat (vscode.tabs group))
    0%nat (tabGroups w).

(** The place of [activeTabGroup.activeTab], when there is one. *)
Definition activeTabPlace (w : World) : option (nat * nat) :=
  match activeTabGroup w with
  | Some g =>
      match nth_error (tabGroups w) g with
      | Some activeGroup =>
          match vscode.activeTab activeGroup with
          | Some t => Some (g, t)
          | None => None
          end
      | None => None
      end
  | None => None
  end.

(** [activeGroup?.activeTab === tab]. *)
Definition isActiveTabOfActiveGroup (w : World) (c : Collected.t) : bool :=
  match activeTabPlace w with
  | Some (g, t) => Nat.eqb g (Collected.groupIndex c) && Nat.eqb t (Collected.tabIndex c)
  | None => false
  end.

Definition createSessionSnapshot (w : World) : SessionFileContent SavedTabState :=
  let tabs :=
    map (fun c =>
           let cursor := lastKnownCursorPositions w !! vscode.toString (Collected.uri c) in
           {| uri := vscode.toString (Collected.uri c);
              groupIndex := Z.of_nat (Collected.groupIndex c);
              tabIndex := Z.of_nat (Collected.tabIndex c);
              viewColumn := Some (vscode.viewColumn (Collected.group c));
              isGroupActive := vscode.isActive (Collected.tab c);
              isGlobalActive := isActiveTabOfActiveGroup w c;
              cursor := cursor |})
        (collectTextTabs w) in
  {| version := SESSION_FILE_VERSION; tabs := tabs |}.

(** [parsed && typeof parsed === 'object' && Array.isArray(parsed.tabs)]:
    the array, when the test passes. *)
Definition tabs_array (parsed : json) : option (list json) :=
  match get_prop "tabs" parsed with
  | Some (JArr items) => Some items
  | _ => None
  end.

Definition readSessionFile (filePath : string) : M (option (SessionFileContent json)) :=
  try_catch
    (raw <- readFile filePath ;;
     parsed <- JSON_parse raw ;;
     match tabs_array parsed with
     | Some items =>
         ret (Some {| version := match get_prop "version" parsed with
                                 | Some (JNum n) => n
                                 | _ => 1
                                 end;
                      tabs := items |})
     | None =>
         showWarningMessage ("Session file is invalid: " +:+ filePath) ;;
         ret None
     end)
    (fun code =>
       (if String.eqb code "ENOENT"
        then showWarningMessage ("Session file not found: " +:+ filePath)
        else showWarningMessage ("Failed to read session file: " +:+ filePath) ;;
             emit ConsoleError) ;;
       ret None).

(** ** Restore engine *)

(** [choice === item]. *)
Definition is_choice (choice : option string) (item : string) : bool :=
  match choice with
  | Some s => String.eqb s item
  | None => false
  end.

(** The comparator of [sortedTabs]. *)
Definition compareTabs (a b : SavedTabState) : Z :=
  if groupIndex a =? groupIndex b then
    if Bool.eqb (isGroupActive a) (isGroupActive b) then tabIndex a - tabIndex b
    else if isGroupActive a then 1 else -1
  else groupIndex a - groupIndex b.

Definition sortedTabs (sessionTabs : list SavedTabState) : list SavedTabState :=
  JsArray.sort compareTabs sessionTabs.

Definition closeTabQuestion (c : Collected.t) (entry : SessionFileRecord) : string :=
  "Tab " +:+ quoted (vscode.label (Collected.tab c))
  +:+ " is not part of the session " +:+ quoted (name entry)
  +:+ ". Close it to continue restoring?".

(** [vscode.window.tabGroups.close(tab)]. *)
Definition tabGroups_close (c : Collected.t) : M unit :=
  emit (CloseTab (Collected.groupIndex c) (Collected.tabIndex c)).

(** The loop over [currentTabs]; [false] when it left the function. *)
Fixpoint closeTabsOutsideSession (entry : SessionFileRecord) (sessionUris : gset string)
         (currentTabs : list Collected.t) : M bool :=
  match currentTabs with
  | [] => ret true
  | c :: rest =>
      if bool_decide (vscode.toString (Collected.uri c) ∈ sessionUris)
      then closeTabsOutsideSession entry sessionUris rest
      else
        choice <- showModalWarning (closeTabQuestion c entry)
                                   ["Close Tab"; "Cancel Restore"] ;;
        if negb (is_choice choice "Close Tab") then
          showInformationMessage "Session restore canceled." ;;
          ret false
        else
          tabGroups_close c ;;
          closeTabsOutsideSession entry sessionUris rest
  end.

Definition openTextDocument (uri : vscode.Uri) : M unit :=
  fun w =>
    if bool_decide (vscode.toString uri ∈ unopenable w)
    then (Threw "CodeExpectedError", w, [OpenTextDocument uri])
    else (Ok tt, w, [OpenTextDocument uri]).

Definition showTextDocument (uri : vscode.Uri) (viewColumn : option Z)
           (preserveFocus : bool) : M unit :=
  emit (ShowTextDocument uri viewColumn preserveFocus).

(** [vscode.Uri.parse(value)], which throws on a string it rejects. *)
Definition Uri_parse (value : string) : M vscode.Uri :=
  match vscode.parse value with
  | Some uri => ret uri
  | None => throw "UriError"
  end.

(** [new vscode.Position(line, character)], which throws on a negative
    line or character. *)
Definition new_Position (line character : Z) : M SavedCursorPosition :=
  if (line <? 0) || (character <? 0) then throw "illegalArgument"
  else ret {| line := line; character := character |}.

(** [if (cursor) { const position = new vscode.Position(...);
    editor.selection = ...; editor.revealRange(...);
    recordCursorPosition(uri, position); }]. *)
Definition applyCursor (uri : vscode.Uri) (cursor : option SavedCursorPosition) : M unit :=
  match cursor with
  | Some c =>
      position <- new_Position (line c) (character c) ;;
      emit (SetSelection uri position) ;;
      recordCursorPosition uri position
  | None => ret tt
  end.

(** The body of both [try] blocks of the replay: open the document, show
    it in its column, put the cursor back. *)
Definition openAndShow (uri : vscode.Uri) (tabState : SavedTabState) (preserveFocus : bool)
  : M unit :=
  openTextDocument uri ;;
  showTextDocument uri (viewColumn tabState) preserveFocus ;;
  applyCursor uri (cursor tabState).

(** One turn of the loop over [sortedTabs], up to the test of
    [isGlobalActive]: [Uri.parse] comes before the [try]. *)
Definition replayTab (tabState : SavedTabState) : M unit :=
  uri <- Uri_parse (uri tabState) ;;
  try_catch
    (openAndShow uri tabState true)
    (fun _ => showWarningMessage ("Failed to open file: " +:+ vscode.fsPath uri)).

(** The loop over [sortedTabs], threading [globalActive]. *)
Fixpoint replayTabs (tabStates : list SavedTabState) (globalActive : option SavedTabState)
  : M (option SavedTabState) :=
  match tabStates with
  | [] => ret globalActive
  | tabState :: rest =>
      replayTab tabState ;;
      replayTabs rest (if isGlobalActive tabState then Some tabState else globalActive)
  end.

Definition focusGlobalActive (globalActive : option SavedTabState) : M unit :=
  match globalActive with
  | Some tabState =>
      uri <- Uri_parse (uri tabState) ;;
      try_catch (openAndShow uri tabState false) (fun _ => emit ConsoleError)
  | None => ret tt
  end.

(** [restoreSessionFromEntry] once the session has tabs. *)
Definition restoreTabs (entry : SessionFileRecord) (sessionTabs : list SavedTabState) : M unit :=
  w <- get_world ;;
  let sessionUris : gset string := list_to_set (map uri sessionTabs) in
  let currentTabs := collectTextTabs w in
  continue <- closeTabsOutsideSession entry sessionUris currentTabs ;;
  if continue then
    emit (ExecuteCommand "workbench.action.closeAllEditors") ;;
    globalActive <- replayTabs (sortedTabs sessionTabs) None ;;
    focusGlobalActive globalActive ;;
    showInformationMessage ("Restored session " +:+ quoted (name entry) +:+ ".")
  else ret tt.

(** The array of the file is read at the type [SavedTabState[]]; an
    element of another shape is outside that type, and the embedding
    stops there with a rejection of its own. *)
Definition restoreSessionFromEntry (entry : SessionFileRecord) : M unit :=
  sessionData <- readSessionFile (fullPath entry) ;;
  match sessionData with
  | None => ret tt
  | Some data =>
      if (length (tabs data) =? 0)%nat then
        showWarningMessage
          ("Session " +:+ quoted (name entry) +:+ " does not contain any tabs.")
      else
        match tabs_of_json (tabs data) with
        | Some sessionTabs => restoreTabs entry sessionTabs
        | None => throw "not a SavedTabState"
        end
  end.

Definition pickSessionEntry (placeHolder : string) : M (option SessionFileRecord) :=
  listing <- listSessions {| promptUser := Some false; showWarning := Some true;
                             ensureExists := None |} ;;
  if (length (entries listing) =? 0)%nat then
    showWarningMessage "No sessions found." ;;
    ret None
  else
    selection <- showQuickPick (map name (entries listing)) placeHolder ;;
    ret (match selection with
         | Some picked => List.find (fun entry => String.eqb (name entry) picked)
                                    (entries listing)
         | None => None
         end).

Definition entryFromArgument (arg : option (SessionFileRecord + string))
  : M (option SessionFileRecord) :=
  w <- get_world ;;
  match arg with
  | None => ret None
  | Some (inl record) =>
      if existsSync (fullPath record) w then ret (Some record)
      else
        showWarningMessage ("Session file not found: " +:+ fullPath record) ;;
        ret None
  | Some (inr text) =>
      if String.eqb text "" then ret None
      else
        let normalized := if endsWith text ".json" then text else text +:+ ".json" in
        if existsSync normalized w
        then ret (Some {| name := path_basename normalized ".json";
                          fullPath := normalized |})
        else
          folder <- resolveSessionDirectory {| promptUser := Some false;
                                               showWarning := Some false;
                                               ensureExists := None |} ;;
          w' <- get_world ;;
          let candidate := path_join (default "" folder) normalized in
          if truthy folder && existsSync candidate w'
          then ret (Some {| name := path_basename candidate ".json";
                            fullPath := candidate |})
          else
            showWarningMessage "Session file not found." ;;
            ret None
  end.

(** [entryFromArgument(context, arg)], then the picker when that gave
    nothing: the opening of three commands. *)
Definition chooseEntry (arg : option (SessionFileRecord + string)) (placeHolder : string)
  : M (option SessionFileRecord) :=
  entry <- entryFromArgument arg ;;
  match entry with
  | Some _ => ret entry
  | None => pickSessionEntry placeHolder
  end.

(** ** Commands *)

(** The name a session gets when none is given: the ISO time with
    its colons and dots replaced by dashes, after [session-]. *)
Definition timestampedName (w : World) : string :=
  "session-" +:+ replace_colon_dot (clock w).

(** [if (!sessionName) { sessionName = ... }]. *)
Definition sessionNameOrTimestamp (sessionName : option string) (w : World) : string :=
  match sessionName with
  | Some s => if truthy sessionName then s else timestampedName w
  | None => timestampedName w
  end.

Definition savedMessage (sessionName : string) (snapshot : SessionFileContent SavedTabState)
  : string :=
  "Session " +:+ quoted sessionName +:+ " saved with "
  +:+ show_nat (length (tabs snapshot)) +:+ " tabs.".

(** [session-saver.saveSession]. *)
Definition saveSession : M unit :=
  answer <- showInputBox "Enter a name for this session"
                         "Leave empty to use a timestamped name" ;;
  w <- get_world ;;
  let sessionName := sessionNameOrTimestamp answer w in
  let snapshot := createSessionSnapshot w in
  if (length (tabs snapshot) =? 0)%nat then
    showInformationMessage "No supported tabs to save."
  else
    sessionFolder <- resolveSessionDirectory {| promptUser := Some true;
                                                showWarning := Some true;
                                                ensureExists := Some true |} ;;
    match sessionFolder with
    | Some f =>
        if negb (truthy sessionFolder) then ret tt
        else
          let filePath := path_join f (sessionName +:+ ".json") in
          writeFile filePath (JSON_stringify snapshot) ;;
          showInformationMessage (savedMessage sessionName snapshot) ;;
          refresh
    | None => ret tt
    end.

(** [session-saver.restoreSession]. *)
Definition restoreSession : M unit :=
  entry <- pickSessionEntry "Select a session to restore" ;;
  match entry with
  | Some e => restoreSessionFromEntry e
  | None => ret tt
  end.

Definition unsavedDocs (w : World) : list vscode.TextDocument :=
  List.filter (fun doc => vscode.isDirty doc && negb (vscode.isUntitled doc))
              (textDocuments w).

Definition unsavedQuestion (w : World) : Effect :=
  ShowQuickPick ["💾 Save and Continue"; "⚠️ Continue Without Saving"; "Cancel"]
                ("You have " +:+ show_nat (length (unsavedDocs w))
                 +:+ " unsaved file(s). What do you want to do?").

(** The prompt about unsaved files, shared by two commands; [false] when
    the user chose [Cancel]. *)
Definition confirmUnsaved : M bool :=
  w <- get_world ;;
  if (0 <? length (unsavedDocs w))%nat then
    saveConfirm <- prompt_user (unsavedQuestion w) ;;
    if is_choice saveConfirm "💾 Save and Continue" then saveAll ;; ret true
    else if is_choice saveConfirm "Cancel" then ret false
    else ret true
  else ret true.

(** The save branch of [restoreNamedSession] from the name prompt on. *)
Definition nameAndWrite (snapshot : SessionFileContent SavedTabState) : M bool :=
  answer <- showInputBox "Enter a name to save your current session"
                         "Leave empty to use a timestamped name" ;;
  w' <- get_world ;;
  let sessionName := sessionNameOrTimestamp answer w' in
  sessionFolder <- resolveSessionDirectory {| promptUser := Some true;
                                              showWarning := Some true;
                                              ensureExists := Some true |} ;;
  match sessionFolder with
  | Some f =>
      if negb (truthy sessionFolder) then ret false
      else
        let savePath := path_join f (sessionName +:+ ".json") in
        writeFile savePath (JSON_stringify snapshot) ;;
        showInformationMessage (savedMessage sessionName snapshot) ;;
        refresh ;;
        ret true
  | None => ret false
  end.

(** The save branch of [restoreNamedSession]; [false] when it left the
    command. *)
Definition saveBeforeSwitch : M bool :=
  proceed <- confirmUnsaved ;;
  if negb proceed then ret false
  else
    w <- get_world ;;
    let snapshot := createSessionSnapshot w in
    if (length (tabs snapshot) =? 0)%nat then
      showInformationMessage "No supported tabs to save." ;;
      ret false
    else nameAndWrite snapshot.

(** [session-saver.restoreNamedSession]. *)
Definition restoreNamedSession (arg : option (SessionFileRecord + string)) : M unit :=
  chosen <- chooseEntry arg "Select a session to restore" ;;
  match chosen with
  | None => ret tt
  | Some entry =>
      w <- get_world ;;
      let hasOpenFiles :=
        existsb (fun doc => negb (vscode.isUntitled doc) && negb (vscode.isClosed doc))
                (textDocuments w) in
      continue <-
        (if hasOpenFiles then
           finalChoice <-
             match getAutoSaveBehavior w with
             | yes => ret (Some "Yes — Save and Continue")
             | no => ret (Some "No — Just Switch")
             | ask' =>
                 showQuickPick ["Yes — Save and Continue"; "No — Just Switch"; "Cancel"]
                               "Save current open files as a session before switching?"
             end ;;
           if is_choice finalChoice "Cancel" || negb (truthy finalChoice) then ret false
           else if is_choice finalChoice "Yes — Save and Continue" then saveBeforeSwitch
           else ret true
         else ret true) ;;
      if continue then restoreSessionFromEntry entry else ret tt
  end.

(** [session-saver.deleteSession] from the confirmation on. *)
Definition deleteSessionEntry (entry : SessionFileRecord) : M unit :=
  confirm <- showModalWarning ("Delete session " +:+ quoted (name entry) +:+ "?")
                              ["Delete"] ;;
  if negb (is_choice confirm "Delete") then ret tt
  else
    w <- get_world ;;
    (if existsSync (fullPath entry) w then unlink (fullPath entry) else ret tt) ;;
    showInformationMessage ("Deleted session " +:+ quoted (name entry) +:+ ".") ;;
    refresh.

Definition deleteSession (arg : option (SessionFileRecord + string)) : M unit :=
  chosen <- chooseEntry arg "Select a session to delete" ;;
  match chosen with
  | Some entry => deleteSessionEntry entry
  | None => ret tt
  end.

(** [session-saver.overwriteSession] from the confirmation on. *)
Definition overwriteSessionEntry (entry : SessionFileRecord) : M unit :=
  confirm <- showModalWarning
    ("Overwrite session " +:+ quoted (name entry) +:+ " with currently open files?")
    ["Overwrite"] ;;
  if negb (is_choice confirm "Overwrite") then ret tt
  else
    proceed <- confirmUnsaved ;;
    if negb proceed then ret tt
    else
      w <- get_world ;;
      let snapshot := createSessionSnapshot w in
      if (length (tabs snapshot) =? 0)%nat then
        showInformationMessage "No supported tabs to save."
      else
        ensureDirectory (path_dirname (fullPath entry)) ;;
        writeFile (fullPath entry) (JSON_stringify snapshot) ;;
        showInformationMessage
          ("Session " +:+ quoted (name entry) +:+ " overwritten with "
           +:+ show_nat (length (tabs snapshot)) +:+ " tabs.") ;;
        refresh.

Definition overwriteSession (arg : option (SessionFileRecord + string)) : M unit :=
  chosen <- chooseEntry arg "Select a session to overwrite" ;;
  match chosen with
  | Some entry => overwriteSessionEntry entry
  | None => ret tt
  end.

End Extension.

(** * The rest of the extension *)

(** ** Where a setting is written *)

Module ConfigurationTarget.
Inductive t := Global | Workspace | WorkspaceFolder.
End ConfigurationTarget.

(** [getConfiguration().inspect(key)]: the value of a key in each scope
    that can define it, and its default. *)
Record Inspect (T : Type) := {
  defaultValue : option T;
  globalValue : option T;
  workspaceValue : option T;
  workspaceFolderValue : option T
}.
Arguments defaultValue {T} _.
Arguments globalValue {T} _.
Arguments workspaceValue {T} _.
Arguments workspaceFolderValue {T} _.
Arguments Build_Inspect {T} _ _ _ _.

Definition getConfigurationTarget {T} (inspect : option (Inspect T)) : ConfigurationTarget.t :=
  match inspect with
  | None => ConfigurationTarget.Global
  | Some i =>
      match workspaceFolderValue i with
      | Some _ => ConfigurationTarget.WorkspaceFolder
      | None =>
          match workspaceValue i with
          | Some _ => ConfigurationTarget.Workspace
          | None =>
              match globalValue i with
              | Some _ => ConfigurationTarget.Global
              | None => ConfigurationTarget.Global
              end
          end
      end
  end.

(** The host's side of a setting: [get] answers the value of the most
    specific scope that defines the key, [update] writes the scope it is
    told. *)
Definition config_get {T} (i : Inspect T) : option T :=
  match workspaceFolderValue i, workspaceValue i, globalValue i with
  | Some v, _, _ => Some v
  | None, Some v, _ => Some v
  | None, None, Some v => Some v
  | None, None, None => defaultValue i
  end.

Definition config_update {T} (value : T) (target : ConfigurationTarget.t) (i : Inspect T)
  : Inspect T :=
  match target with
  | ConfigurationTarget.Global =>
      {| defaultValue := defaultValue i; globalValue := Some value;
         workspaceValue := workspaceValue i;
         workspaceFolderValue := workspaceFolderValue i |}
  | ConfigurationTarget.Workspace =>
      {| defaultValue := defaultValue i; globalValue := globalValue i;
         workspaceValue := Some value;
         workspaceFolderValue := workspaceFolderValue i |}
  | ConfigurationTarget.WorkspaceFolder =>
      {| defaultValue := defaultValue i; globalValue := globalValue i;
         workspaceValue := workspaceValue i;
         workspaceFolderValue := Some value |}
  end.

(** [updateConfigValue(key, value)] on the scopes of one key. *)
Definition updateConfigValue_scoped {T} (value : T) (i : Inspect T) : Inspect T :=
  config_update value (getConfigurationTarget (Some i)) i.

(** [updateConfigValue('fileLocation', value)]: the function at the type
    of that setting. *)
Definition updateConfigValue_fileLocation (value : SessionLocationSetting) : M unit :=
  fun w =>
    let c := configuration w in
    (Ok tt,
     with_configuration {| fileLocation := value; workspaceFolder := workspaceFolder c;
                           customFolder := customFolder c;
                           saveBehaviorOnRestore := saveBehaviorOnRestore c |} w,
     []).

(** ** Cursor tracking *)

(** A [TextEditor], as far as the tracking reads it: [document.uri] and
    [selection.active]. *)
Record TextEditor := {
  document : vscode.Uri;
  selection_active : SavedCursorPosition
}.

(** [lastKnownCursorPositions.set(editor.document.uri.toString(), {...})]. *)
Definition setCursorOf (editor : TextEditor) (positions : gmap string SavedCursorPosition)
  : gmap string SavedCursorPosition :=
  <[vscode.toString (document editor) :=
      {| line := line (selection_active editor);
         character := character (selection_active editor) |}]> positions.

(** [seedVisibleEditors], on the editors [vscode.window.visibleTextEditors]
    holds at the time of the call. *)
Definition seedVisibleEditors (visibleTextEditors : list TextEditor) : M unit :=
  fun w =>
    (Ok tt,
     with_cursors (fold_left (fun positions editor => setCursorOf editor positions)
                             visibleTextEditors (lastKnownCursorPositions w)) w,
     []).

(** What the host tells the listeners [initializeCursorTracking]
    registers. *)
Inductive EditorEvent :=
| DidChangeTextEditorSelection (textEditor : TextEditor)
| DidChangeVisibleTextEditors (visibleTextEditors : list TextEditor)
| DidCloseTextDocument (doc : vscode.Uri).

Definition selectionListener (textEditor : TextEditor) : M unit :=
  fun w => (Ok tt, with_cursors (setCursorOf textEditor (lastKnownCursorPositions w)) w, []).

Definition visibleEditorsListener (visibleTextEditors : list TextEditor) : M unit :=
  seedVisibleEditors visibleTextEditors.

Definition closeDocListener (doc : vscode.Uri) : M unit :=
  fun w =>
    (Ok tt, with_cursors (delete (vscode.toString doc) (lastKnownCursorPositions w)) w, []).

(** [initializeCursorTracking]: the seeding it does at once, and the
    listener each later event reaches. *)
Definition initializeCursorTracking (visibleTextEditors : list TextEditor) : M unit :=
  seedVisibleEditors visibleTextEditors.

Definition cursorTracking (event : EditorEvent) : M unit :=
  match event with
  | DidChangeTextEditorSelection textEditor => selectionListener textEditor
  | DidChangeVisibleTextEditors visibleTextEditors => visibleEditorsListener visibleTextEditors
  | DidCloseTextDocument doc => closeDocListener doc
  end.

(** ** The commands about the storage *)

(** [await Promise.all(calls)] for calls that are all under way: each one
    runs to its end whatever becomes of the others, and the [await]
    rejects when one of them does.  The calls of the extension touch
    different paths, so the disk they leave does not depend on how the
    host interleaves them; the embedding runs them in the order of the
    array and answers the first rejection in that order. *)
Fixpoint Promise_all (calls : list (M unit)) : M unit :=
  match calls with
  | [] => ret tt
  | call :: rest =>
      fun w =>
        let '(r, w1, t1) := call w in
        let '(r', w2, t2) := Promise_all rest w1 in
        (match r with
         | Ok _ => r'
         | Threw code => Threw code
         end, w2, t1 ++ t2)
  end.

Definition deleteAllQuestion (files : list string) (folder : string) : string :=
  "Delete all " +:+ show_nat (length files) +:+ " session(s) in " +:+ folder +:+ "?".

(** [session-saver.deleteAllSessions]. *)
Definition deleteAllSessions : M unit :=
  folder <- resolveSessionDirectory {| promptUser := Some false; showWarning := Some true;
                                       ensureExists := None |} ;;
  w <- get_world ;;
  match folder with
  | Some f =>
      if negb (truthy folder) || negb (existsSync f w)
      then showInformationMessage "No session folder found."
      else
        names <- readdir f ;;
        let files := List.filter (fun file => endsWith file ".json") names in
        if (length files =? 0)%nat then showInformationMessage "No sessions to delete."
        else
          confirm <- showModalWarning (deleteAllQuestion files f) ["Delete All"] ;;
          if negb (is_choice confirm "Delete All") then ret tt
          else
            Promise_all (map (fun file => unlink (path_join f file)) files) ;;
            showInformationMessage
              ("Deleted " +:+ show_nat (length files) +:+ " session(s).") ;;
            refresh
  | None => showInformationMessage "No session folder found."
  end.

Module LocationOption.
Record t := {
  label : string;
  value : SessionLocationSetting;
  description : string
}.
End LocationOption.

Definition locationOptions : list LocationOption.t :=
  [{| LocationOption.label := "Workspace"; LocationOption.value := workspace;
      LocationOption.description := "Store sessions inside a workspace folder" |};
   {| LocationOption.label := "Global Storage"; LocationOption.value := global;
      LocationOption.description := "Store sessions inside VS Code global storage" |};
   {| LocationOption.label := "Custom Folder…"; LocationOption.value := custom;
      LocationOption.description := "Choose any folder on disk" |}].

(** The item of the quick pick the user chose, by its label. *)
Definition selectedOption (selection : option string) : option LocationOption.t :=
  match selection with
  | Some picked =>
      List.find (fun opt => String.eqb (LocationOption.label opt) picked) locationOptions
  | None => None
  end.

(** [session-saver.changeFileLocation].  Each branch answers whether the
    command goes on to the [refresh] after the branches.  The quick pick is
    recorded by the labels it offers and its place holder; the [picked]
    mark on the option of the current location and the descriptions only
    change how the list is drawn, and the option chosen is found again by
    its label, the three labels being different. *)
Definition changeFileLocation : M unit :=
  selection <- showQuickPick (map LocationOption.label locationOptions)
                             "Choose where Session Saver stores its files" ;;
  match selectedOption selection with
  | None => ret tt
  | Some opt =>
      proceed <-
        match LocationOption.value opt with
        | workspace =>
            folder <- resolveWorkspaceBase true true ;;
            match folder with
            | Some f =>
                if negb (truthy folder) then ret false
                else
                  updateConfigValue_fileLocation workspace ;;
                  showInformationMessage
                    ("Session storage set to workspace folder: " +:+ f) ;;
                  ret true
            | None => ret false
            end
        | global =>
            updateConfigValue_fileLocation global ;;
            showInformationMessage "Session storage set to global storage." ;;
            ret true
        | custom =>
            folder <- resolveCustomBase true true ;;
            match folder with
            | Some f =>
                if negb (truthy folder) then ret false
                else
                  updateConfigValue_fileLocation custom ;;
                  showInformationMessage
                    ("Session storage set to custom folder: " +:+ f) ;;
                  ret true
            | None => ret false
            end
        end ;;
      if proceed then refresh else ret tt
  end.

(** ** Sidebar view *)

(** [path.basename(p)]: the last component, separators at the end of [p]
    not counted. *)
Fixpoint strip_trailing_slashes (p : string) : string :=
  match p with
  | EmptyString => EmptyString
  | String c rest =>
      match strip_trailing_slashes rest with
      | EmptyString => if Ascii.eqb c "/" then EmptyString else String c EmptyString
      | rest' => String c rest'
      end
  end.

Definition path_basename_only (p : string) : string :=
  last_component (strip_trailing_slashes p).

(** An integer inside a template literal. *)
Definition show_Z (n : Z) : string :=
  DecimalString.NilZero.string_of_int (Z.to_int n).

Definition newline : string := String (ascii_of_nat 10) EmptyString.

Module SessionItemKind.
Inductive t := session | restore | delete | filesRoot | fileEntry | info | command.
End SessionItemKind.

Module TreeItemCollapsibleState.
Inductive t := Leaf | Collapsed | Expanded.
End TreeItemCollapsibleState.

(** What a tree item hands to its command: the record of a session, or
    the document to open. *)
Inductive CommandArgument :=
| EntryArgument (entry : SessionFileRecord)
| UriArgument (uri : vscode.Uri).

Module Command.
Record t := {
  command : string;
  title : string;
  arguments : list CommandArgument
}.
End Command.

Module SessionItem.
Record t := {
  label : string;
  collapsibleState : TreeItemCollapsibleState.t;
  kind : SessionItemKind.t;
  entry : option SessionFileRecord;
  fileEntryPath : option string;
  command : option Command.t;
  tooltip : option string;
  description : option string;
  contextValue : option string
}.

(** [new SessionItem(label, collapsibleState, kind, entry, fileEntryPath,
    command)]. *)
Definition new (label : string) (collapsibleState : TreeItemCollapsibleState.t)
           (kind : SessionItemKind.t) (entry : option SessionFileRecord)
           (fileEntryPath : option string) (command : option Command.t) : t :=
  {| label := label; collapsibleState := collapsibleState; kind := kind; entry := entry;
     fileEntryPath := fileEntryPath; command := command;
     tooltip := None; description := None; contextValue := None |}.

Definition with_tooltip (text : string) (item : t) : t :=
  {| label := label item; collapsibleState := collapsibleState item; kind := kind item;
     entry := entry item; fileEntryPath := fileEntryPath item; command := command item;
     tooltip := Some text; description := description item;
     contextValue := contextValue item |}.

Definition with_description (text : string) (item : t) : t :=
  {| label := label item; collapsibleState := collapsibleState item; kind := kind item;
     entry := entry item; fileEntryPath := fileEntryPath item; command := command item;
     tooltip := tooltip item; description := Some text;
     contextValue := contextValue item |}.

Definition with_contextValue (text : string) (item : t) : t :=
  {| label := label item; collapsibleState := collapsibleState item; kind := kind item;
     entry := entry item; fileEntryPath := fileEntryPath item; command := command item;
     tooltip := tooltip item; description := description item;
     contextValue := Some text |}.
End SessionItem.

Definition describeLocationLabel (w : World) : string :=
  let location := getFileLocationSetting w in
  let config := configuration w in
  match location with
  | global => "Global Storage"
  | workspace =>
      let stored := workspaceFolder config in
      if negb (String.eqb stored "") then "Workspace (" +:+ stored +:+ ")"
      else "Workspace (default)"
  | custom =>
      let custom := customFolder config in
      if negb (String.eqb custom "") then "Custom (" +:+ custom +:+ ")"
      else "Custom (not configured)"
  end.

Definition commandItem (label command title : string) : SessionItem.t :=
  SessionItem.new label TreeItemCollapsibleState.Leaf SessionItemKind.command None None
    (Some {| Command.command := command; Command.title := title;
             Command.arguments := [] |}).

Definition saveItem : SessionItem.t :=
  commandItem "💾 Save New Session" "session-saver.saveSession" "Save Session".

Definition changeLocationItem : SessionItem.t :=
  commandItem "⚙️ Change Session Location" "session-saver.changeFileLocation"
              "Change Session Location".

Definition deleteAllItem : SessionItem.t :=
  commandItem "🧹 Delete All Sessions" "session-saver.deleteAllSessions"
              "Delete All Sessions".

Definition locationItem (w : World) (results : Listing) : SessionItem.t :=
  SessionItem.with_tooltip
    (default "Storage directory is not available." (folder results))
    (SessionItem.new ("📁 Storage: " +:+ describeLocationLabel w)
                     TreeItemCollapsibleState.Leaf SessionItemKind.info None None None).

Definition headerItem : SessionItem.t :=
  SessionItem.new "───── Sessions ─────" TreeItemCollapsibleState.Leaf
                  SessionItemKind.info None None None.

Definition sessionItem (entry : SessionFileRecord) : SessionItem.t :=
  SessionItem.with_contextValue "session"
    (SessionItem.with_description (path_dirname (fullPath entry))
       (SessionItem.with_tooltip (fullPath entry)
          (SessionItem.new (name entry) TreeItemCollapsibleState.Collapsed
                           SessionItemKind.session (Some entry) None None))).

(** The three children of a session that run a command on it. *)
Definition actionItem (label : string) (kind : SessionItemKind.t) (command title : string)
           (entry : SessionFileRecord) : SessionItem.t :=
  SessionItem.new label TreeItemCollapsibleState.Leaf kind (Some entry) None
    (Some {| Command.command := command; Command.title := title;
             Command.arguments := [EntryArgument entry] |}).

Definition restoreItem : SessionFileRecord -> SessionItem.t :=
  actionItem "📂 Restore Session" SessionItemKind.restore
             "session-saver.restoreNamedSession" "Restore Session".

Definition overwriteItem : SessionFileRecord -> SessionItem.t :=
  actionItem "📝 Overwrite Session" SessionItemKind.restore
             "session-saver.overwriteSession" "Overwrite Session".

Definition deleteItem : SessionFileRecord -> SessionItem.t :=
  actionItem "❌ Delete Session" SessionItemKind.delete
             "session-saver.deleteSession" "Delete Session".

Definition filesRootItem (entry : SessionFileRecord) : SessionItem.t :=
  SessionItem.new "📄 View Files" TreeItemCollapsibleState.Collapsed
                  SessionItemKind.filesRoot (Some entry) None None.

Definition cursorText (cursor : option SavedCursorPosition) : string :=
  match cursor with
  | Some c => show_Z (line c + 1) +:+ ":" +:+ show_Z (character c + 1)
  | None => "N/A"
  end.

(** The item of one descriptor under [View Files], once [Uri.parse] has
    answered. *)
Definition fileItemFor (entry : SessionFileRecord) (tabState : SavedTabState)
           (uri : vscode.Uri) : SessionItem.t :=
  let filePath := vscode.fsPath uri in
  let fileLabel := path_basename_only filePath in
  let description :=
    "Group " +:+ show_Z (groupIndex tabState + 1)
    +:+ ", Tab " +:+ show_Z (tabIndex tabState + 1) in
  SessionItem.with_description description
    (SessionItem.with_tooltip
       (filePath +:+ newline +:+ "Cursor: " +:+ cursorText (cursor tabState))
       (SessionItem.new fileLabel TreeItemCollapsibleState.Leaf SessionItemKind.fileEntry
          (Some entry) (Some filePath)
          (Some {| Command.command := "vscode.open"; Command.title := "Open File";
                   Command.arguments := [UriArgument uri] |}))).

(** The callback of the [map] under [View Files]: it starts with
    [Uri.parse]. *)
Definition fileItem (entry : SessionFileRecord) (tabState : SavedTabState)
  : M SessionItem.t :=
  uri <- Uri_parse (uri tabState) ;;
  ret (fileItemFor entry tabState uri).

(** [array.map(callback)] for a callback that can throw: the first
    element it throws on ends the [map]. *)
Fixpoint Array_map {A B} (callback : A -> M B) (array : list A) : M (list B) :=
  match array with
  | [] => ret []
  | x :: rest =>
      y <- callback x ;;
      ys <- Array_map callback rest ;;
      ret (y :: ys)
  end.

Section Sidebar.

Variable localeCompare : string -> string -> Z.

(** [SessionProvider.getChildren].  As in [restoreSessionFromEntry], the
    array of the file is read at the type [SavedTabState[]]. *)
Definition getChildren (element : option SessionItem.t) : M (list SessionItem.t) :=
  match element with
  | None =>
      results <- listSessions localeCompare
                   {| promptUser := Some false; showWarning := Some false;
                      ensureExists := None |} ;;
      w <- get_world ;;
      ret ([saveItem; changeLocationItem; deleteAllItem; locationItem w results]
           ++ (if (0 <? length (entries results))%nat then [headerItem] else [])
           ++ map sessionItem (entries results))
  | Some element =>
      match SessionItem.kind element, SessionItem.entry element with
      | SessionItemKind.session, Some entry =>
          ret [restoreItem entry; overwriteItem entry; deleteItem entry; filesRootItem entry]
      | SessionItemKind.filesRoot, Some entry =>
          sessionData <- readSessionFile (fullPath entry) ;;
          match sessionData with
          | None => ret []
          | Some data =>
              match tabs_of_json (tabs data) with
              | Some tabStates => Array_map (fileItem entry) tabStates
              | None => throw "not a SavedTabState"
              end
          end
      | _, _ => ret []
      end
  end.

(** [SessionProvider.getTreeItem]. *)
Definition getTreeItem (element : SessionItem.t) : SessionItem.t := element.

(** [activate]: the commands it registers, each under its identifier.  A
    handler takes the first argument of the call, when there is one. *)
Definition activate : list (string * (option (SessionFileRecord + string) -> M unit)) :=
  [("session-saver.saveSession", fun _ => saveSession);
   ("session-saver.restoreSession", fun _ => restoreSession localeCompare);
   ("session-saver.restoreNamedSession", restoreNamedSession localeCompare);
   ("session-saver.deleteSession", deleteSession localeCompare);
   ("session-saver.overwriteSession", overwriteSession localeCompare);
   ("session-saver.changeFileLocation", fun _ => changeFileLocation);
   ("session-saver.deleteAllSessions", fun _ => deleteAllSessions)].

Fixpoint registered (command : string)
         (commands : list (string * (option (SessionFileRecord + string) -> M unit)))
  : option (option (SessionFileRecord + string) -> M unit) :=
  match commands with
  | [] => None
  | (id, handler) :: rest =>
      if String.eqb id command then Some handler else registered command rest
  end.

(** The argument a handler gets from the arguments of a tree item. *)
Definition firstArgument (arguments : list CommandArgument)
  : option (SessionFileRecord + string) :=
  match arguments with
  | EntryArgument entry :: _ => Some (inl entry)
  | _ => None
  end.

(** [vscode.commands.executeCommand] on the command of a tree item, for
    the commands of the extension. *)
Definition runItemCommand (c : Command.t) : option (M unit) :=
  match registered (Command.command c) activate with
  | Some handler => Some (handler (firstArgument (Command.arguments c)))
  | None => None
  end.

End Sidebar.

(** * The vocabulary of the specification *)

(** The replay order in the words of the specification: ascending
    [groupIndex]; within a group the tabs that are not the active one of
    their pane first; then ascending [tabIndex]. *)
Definition replays_before (a b : SavedTabState) : Prop :=
  groupIndex a < groupIndex b \/
  (groupIndex a = groupIndex b /\
   ((isGroupActive a = false /\ isGroupActive b = true) \/
    (isGroupActive a = isGroupActive b /\ tabIndex a <= tabIndex b))).

(** Descriptors the order does not tell apart. *)
Definition same_rank (d x : SavedTabState) : bool :=
  (groupIndex x =? groupIndex d)
  && Bool.eqb (isGroupActive x) (isGroupActive d)
  && (tabIndex x =? tabIndex d).

(** A descriptor moved to a place: the three fields the order reads. *)
Definition placed (g t : Z) (active : bool) (d : SavedTabState) : SavedTabState :=
  {| uri := uri d; groupIndex := g; tabIndex := t; viewColumn := viewColumn d;
     isGroupActive := active; isGlobalActive := isGlobalActive d; cursor := cursor d |}.

(** The documents a run asked the host to open, in order. *)
Definition opened_documents (evs : list Effect) : list vscode.Uri :=
  flat_map (fun e => match e with OpenTextDocument u => [u] | _ => [] end) evs.

(** The documents a run showed taking the focus, in order. *)
Definition focused_documents (evs : list Effect) : list (vscode.Uri * option Z) :=
  flat_map (fun e => match e with
                     | ShowTextDocument u col false => [(u, col)]
                     | _ => []
                     end) evs.

(** The last descriptor of a list marked [isGlobalActive]. *)
Definition last_global_active (tabStates : list SavedTabState) : option SavedTabState :=
  last (List.filter isGlobalActive tabStates).

(** An [fs] call of the extension that writes. *)
Definition writes_disk (e : Effect) : bool :=
  match e with
  | Mkdir _ | WriteFile _ | Unlink _ => true
  | _ => false
  end.

(** The open tabs the session does not name, in the order the restore
    meets them, and what closing one looks like. *)
Definition tabsOutsideSession (sessionUris : gset string) (currentTabs : list Collected.t)
  : list Collected.t :=
  List.filter (fun c => negb (bool_decide (vscode.toString (Collected.uri c) ∈ sessionUris)))
              currentTabs.

Definition closeTabPrompt (entry : SessionFileRecord) (c : Collected.t) : Effect :=
  ShowModalWarning (closeTabQuestion c entry) ["Close Tab"; "Cancel Restore"].

Definition promptedAndClosed (entry : SessionFileRecord) (c : Collected.t) : list Effect :=
  [closeTabPrompt entry c; CloseTab (Collected.groupIndex c) (Collected.tabIndex c)].

(** The file at [filePath] holds the session document as a save wrote
    it. *)
Definition stores (w : World) (filePath : string) (sd : SessionFileContent SavedTabState)
  : Prop :=
  disk_lookup filePath (disk w) = Some (File (JSON_stringify sd)).

(** The document of a descriptor: what [Uri.parse] makes of its [uri],
    when it does not throw. *)
Definition documentOf (tabState : SavedTabState) : option vscode.Uri :=
  vscode.parse (uri tabState).

(** [Uri.parse] takes the [uri] of the descriptor. *)
Definition parses (tabState : SavedTabState) : bool :=
  match documentOf tabState with
  | Some _ => true
  | None => false
  end.

(** The descriptors a replay gets to: those before the first one whose
    [uri] is rejected by [Uri.parse]. *)
Fixpoint replayable (tabStates : list SavedTabState) : list SavedTabState :=
  match tabStates with
  | [] => []
  | tabState :: rest => if parses tabState then tabState :: replayable rest else []
  end.

(** The collected tab sits at place [(g, t)] of [tabGroups.all]. *)
Definition at_place (g t : nat) (c : Collected.t) : bool :=
  Nat.eqb g (Collected.groupIndex c) && Nat.eqb t (Collected.tabIndex c).


(** ASCII case folding. *)
Definition lower (c : ascii) : ascii :=
  let n := nat_of_ascii c in
  if ((65 <=? n) && (n <=? 90))%nat then ascii_of_nat (n + 32) else c.

Fixpoint lowercase (s : string) : string :=
  match s with
  | EmptyString => EmptyString
  | String c rest => String (lower c) (lowercase rest)
  end.

(** What [listSessions] answers for a directory of the disk. *)
Definition listed (localeCompare : string -> string -> Z) (folder : string) (w : World)
  : list SessionFileRecord :=
  sessionEntries localeCompare folder (disk_names folder (disk w)).

(** What the user is told when the snapshot has no tab. *)
Definition nothingToSave : Effect := ShowInformationMessage "No supported tabs to save.".


(** ** Words for the rest of the extension *)

(** The value a scope holds for a key. *)
Definition scopeValue {T} (target : ConfigurationTarget.t) (i : Inspect T) : option T :=
  match target with
  | ConfigurationTarget.Global => globalValue i
  | ConfigurationTarget.Workspace => workspaceValue i
  | ConfigurationTarget.WorkspaceFolder => workspaceFolderValue i
  end.

(** A descriptor with another cursor. *)
Definition with_cursor (c : option SavedCursorPosition) (d : SavedTabState) : SavedTabState :=
  {| uri := uri d; groupIndex := groupIndex d; tabIndex := tabIndex d;
     viewColumn := viewColumn d; isGroupActive := isGroupActive d;
     isGlobalActive := isGlobalActive d; cursor := c |}.

(** The order of the places in [tabGroups.all]: by group, then by tab. *)
Definition place_before (a b : SavedTabState) : Prop :=
  groupIndex a < groupIndex b \/ (groupIndex a = groupIndex b /\ tabIndex a < tabIndex b).

(** The tab at place [(g, t)] of the arrangement, with the document
    [getTabUri] finds in it. *)
Definition tab_at (w : World) (g t : nat) (group : vscode.TabGroup) (tab : vscode.Tab)
           (u : vscode.Uri) : Prop :=
  nth_error (tabGroups w) g = Some group
  /\ nth_error (vscode.tabs group) t = Some tab
  /\ getTabUri tab = Some u.

(** The warnings of a run, in order. *)
Definition warnings (evs : list Effect) : list string :=
  flat_map (fun e => match e with ShowWarningMessage m => [m] | _ => [] end) evs.

(** The prompts of a run: every effect that waits for the user. *)
Definition is_prompt (e : Effect) : bool :=
  match e with
  | ShowModalWarning _ _ | ShowInputBox _ _ | ShowQuickPick _ _
  | ShowWorkspaceFolderPick _ | ShowOpenDialog _ _ => true
  | _ => false
  end.

(** The document [openTextDocument] would reject. *)
Definition cannot_open (w : World) (tabState : SavedTabState) : bool :=
  match documentOf tabState with
  | Some u => bool_decide (vscode.toString u ∈ unopenable w)
  | None => false
  end.

(** The cursor [new vscode.Position] throws on: a negative line or
    character. *)
Definition illegal_cursor (tabState : SavedTabState) : bool :=
  match cursor tabState with
  | Some c => (line c <? 0) || (character c <? 0)
  | None => false
  end.

(** The [try] block of the descriptor throws: the host rejects the
    document, or the cursor is no position. *)
Definition fails_to_show (w : World) (tabState : SavedTabState) : bool :=
  parses tabState && (cannot_open w tabState || illegal_cursor tabState).

Definition failedToOpen (tabState : SavedTabState) : string :=
  "Failed to open file: "
  +:+ match documentOf tabState with
      | Some u => vscode.fsPath u
      | None => ""
      end.

(** What showing one descriptor looks like: the call that opens its
    document and, when the host opens it, the call that shows it and the
    cursor put back, when that is a position. *)
Definition shownAs (w : World) (preserveFocus : bool) (tabState : SavedTabState)
  : list Effect :=
  match documentOf tabState with
  | Some u =>
      if cannot_open w tabState then [OpenTextDocument u]
      else [OpenTextDocument u; ShowTextDocument u (viewColumn tabState) preserveFocus]
           ++ match cursor tabState with
              | Some position =>
                  if illegal_cursor tabState then [] else [SetSelection u position]
              | None => []
              end
  | None => []
  end.

(** One step of the replay, and the step that gives the focus. *)
Definition replayed (w : World) (tabState : SavedTabState) : list Effect :=
  shownAs w true tabState
  ++ (if fails_to_show w tabState then [ShowWarningMessage (failedToOpen tabState)] else []).

Definition focusedAs (w : World) (globalActive : option SavedTabState) : list Effect :=
  match globalActive with
  | Some tabState =>
      shownAs w false tabState ++ (if fails_to_show w tabState then [ConsoleError] else [])
  | None => []
  end.


(** The order of the places, on the collected tabs. *)
Definition collected_before (a b : Collected.t) : Prop :=
  (Collected.groupIndex a < Collected.groupIndex b)%nat
  \/ (Collected.groupIndex a = Collected.groupIndex b
      /\ (Collected.tabIndex a < Collected.tabIndex b)%nat).

(** An effect that neither asks the user anything nor closes a tab. *)
Definition leaves_tabs_alone (e : Effect) : bool :=
  negb (is_prompt e) && match e with CloseTab _ _ => false | _ => true end.

(** The disk after [unlink] was called on a path: without it when it was
    a regular file, as before otherwise. *)
Definition unlinked (p : string) (d : list (string * Node)) : list (string * Node) :=
  if is_file d p then disk_remove p d else d.

(** The files [deleteAllSessions] goes for in a directory. *)
Definition sessionFiles (folder : string) (w : World) : list string :=
  List.filter (fun file => endsWith file ".json") (disk_names folder (disk w)).

(** The list [changeFileLocation] shows. *)
Definition locationPick : Effect :=
  ShowQuickPick (map LocationOption.label locationOptions)
                "Choose where Session Saver stores its files".

(** The session directory under a base folder, for a location. *)
Definition sessionFolderUnder (location : SessionLocationSetting) (base : string) : string :=
  match location with
  | workspace => path_join (path_join base ".vscode") SESSION_FOLDER_NAME
  | _ => path_join base SESSION_FOLDER_NAME
  end.

(** What choosing a tree item runs: the handler [activate] registered
    for its command, on its first argument. *)
Definition runTreeItem (localeCompare : string -> string -> Z) (item : SessionItem.t)
  : option (M unit) :=
  match SessionItem.command item with
  | Some c => runItemCommand localeCompare c
  | None => None
  end.

(** The sessions a list of tree items stands for, in order. *)
Definition sessionsShown (items : list SessionItem.t) : list SessionFileRecord :=
  flat_map (fun item => option_list (SessionItem.entry item)) items.

(** [hasOpenFiles] of [restoreNamedSession]. *)
Definition hasOpenFiles (w : World) : bool :=
  existsb (fun doc => negb (vscode.isUntitled doc) && negb (vscode.isClosed doc))
          (textDocuments w).

(** The question [restoreNamedSession] asks when the setting says
    [ask]. *)
Definition saveFirstQuestion : Effect :=
  ShowQuickPick ["Yes — Save and Continue"; "No — Just Switch"; "Cancel"]
                "Save current open files as a session before switching?".

(** What showing a descriptor does to the map of cursor positions: the
    position of the descriptor is recorded under its document, when the
    host opens it and the descriptor has a cursor that is a position. *)
Definition cursorPut (w : World) (tabState : SavedTabState)
           (positions : gmap string SavedCursorPosition)
  : gmap string SavedCursorPosition :=
  match documentOf tabState, cursor tabState with
  | Some u, Some position =>
      if fails_to_show w tabState then positions
      else <[vscode.toString u := position]> positions
  | _, _ => positions
  end.

(** The items of [View Files] for descriptors whose [uri] parses. *)
Definition fileItems (entry : SessionFileRecord) (tabStates : list SavedTabState)
  : list SessionItem.t :=
  flat_map (fun t => match documentOf t with
                     | Some u => [fileItemFor entry t u]
                     | None => []
                     end) tabStates.

(** * Sample runs *)

Module Sample.

(** A collation for the sample runs: byte order of the names in lower
    case. *)
Definition localeCompare (a b : string) : Z :=
  match String.compare (lowercase a) (lowercase b) with
  | Lt => -1
  | Eq => 0
  | Gt => 1
  end.

Definition root : vscode.Uri :=
  {| vscode.scheme := "file"; vscode.fsPath := "/"; vscode.validated := eq_refl |}.

(** The document of an absolute path of the samples. *)
Definition file_uri (p : string) : vscode.Uri :=
  default root (vscode.make "file" p).

Definition text_tab (p : string) (active : bool) : vscode.Tab :=
  {| vscode.label := last_component p;
     vscode.input := Some (vscode.TabInputText (file_uri p));
     vscode.isActive := active |}.

Definition settings : Configuration :=
  {| fileLocation := global; workspaceFolder := ""; customFolder := "";
     saveBehaviorOnRestore := ask |}.

Definition one_tab (u : string) : SavedTabState :=
  {| uri := u; groupIndex := 0; tabIndex := 0; viewColumn := Some 1;
     isGroupActive := true; isGlobalActive := true; cursor := None |}.

(** The three descriptors of the specification's example, two of them
    marked as the globally active one. *)
Definition three : list SavedTabState :=
  [{| uri := "file:///p/b.ts"; groupIndex := 0; tabIndex := 1; viewColumn := Some 1;
      isGroupActive := false; isGlobalActive := false; cursor := None |};
   {| uri := "file:///p/a.ts"; groupIndex := 0; tabIndex := 0; viewColumn := Some 1;
      isGroupActive := false; isGlobalActive := true;
      cursor := Some {| line := 4; character := 2 |} |};
   {| uri := "file:///p/d.ts"; groupIndex := 0; tabIndex := 0; viewColumn := Some 1;
      isGroupActive := true; isGlobalActive := true; cursor := None |}].

(** A file of the first format: the tabs and no version. *)
Definition old_format : json :=
  JObj [("tabs", JArr [json_of_tab (one_tab "file:///p/a.ts")])].

(** Two panes, three file tabs and a custom editor; four stored sessions,
    one of them not JSON. *)
Definition world : World :=
  {| disk := [("/g", Directory); ("/g/sessions", Directory);
              ("/g/sessions/gamma.json",
               File (JSON_stringify {| version := 2; tabs := three |}));
              ("/g/sessions/Beta.json",
               File (JsonText (json_of_session
                 {| version := 2; tabs := [one_tab "file:///p/a.ts"] |})));
              ("/g/sessions/alpha.json", File (OtherText "{"));
              ("/g/sessions/notes.txt", File (OtherText "hello"));
              ("/g/sessions/old.json", File (JsonText old_format))];
     configuration := settings;
     workspaceFolders := ["/p"];
     globalStoragePath := "/g";
     tabGroups :=
       [{| vscode.viewColumn := 1;
           vscode.tabs := [text_tab "/p/a.ts" false; text_tab "/p/b.ts" true];
           vscode.activeTab := Some 1%nat |};
        {| vscode.viewColumn := 2;
           vscode.tabs := [{| vscode.label := "preview";
                              vscode.input := Some vscode.TabInputOther;
                              vscode.isActive := false |};
                           text_tab "/p/c.ts" true];
           vscode.activeTab := Some 1%nat |}];
     activeTabGroup := Some 1%nat;
     textDocuments := [];
     unopenable := ∅;
     lastKnownCursorPositions := {[ "file:///p/b.ts" := {| line := 3; character := 7 |} ]};
     answers := [];
     clock := "2025-11-10T08:30:00.000Z" |}.

Definition gamma : SessionFileRecord :=
  {| name := "gamma"; fullPath := "/g/sessions/gamma.json" |}.

Definition gone : SessionFileRecord :=
  {| name := "gone"; fullPath := "/g/sessions/gone.json" |}.

Definition c_tab : Collected.t :=
  {| Collected.tab := text_tab "/p/c.ts" true; Collected.uri := file_uri "/p/c.ts";
     Collected.group :=
       {| vscode.viewColumn := 2;
          vscode.tabs := [{| vscode.label := "preview";
                             vscode.input := Some vscode.TabInputOther;
                             vscode.isActive := false |};
                          text_tab "/p/c.ts" true];
          vscode.activeTab := Some 1%nat |};
     Collected.groupIndex := 1; Collected.tabIndex := 1 |}.

(** A note open in a custom editor, with unsaved changes, and nothing
    else: no tab a session could hold. *)
Definition draft : vscode.TextDocument :=
  {| vscode.uri := file_uri "/p/notes.md"; vscode.isDirty := true;
     vscode.isUntitled := false; vscode.isClosed := false;
     vscode.getText := OtherText "new text" |}.

Definition world_without_text_tabs : World :=
  {| disk := [("/p", Directory); ("/p/notes.md", File (OtherText "old text"));
              ("/g", Directory); ("/g/sessions", Directory);
              ("/g/sessions/Beta.json",
               File (JsonText (json_of_session
                 {| version := 2; tabs := [one_tab "file:///p/a.ts"] |})))];
     configuration := settings;
     workspaceFolders := ["/p"];
     globalStoragePath := "/g";
     tabGroups :=
       [{| vscode.viewColumn := 1;
           vscode.tabs := [{| vscode.label := "notes.md";
                              vscode.input := Some vscode.TabInputOther;
                              vscode.isActive := true |}];
           vscode.activeTab := Some 0%nat |}];
     activeTabGroup := Some 0%nat;
     textDocuments := [draft];
     unopenable := ∅;
     lastKnownCursorPositions := ∅;
     answers := [Some "Overwrite"; Some "💾 Save and Continue"];
     clock := "2025-11-10T08:30:00.000Z" |}.

Definition beta : SessionFileRecord :=
  {| name := "Beta"; fullPath := "/g/sessions/Beta.json" |}.

(** The sample world with one more session, whose file has no tab. *)
Definition empty : SessionFileRecord :=
  {| name := "empty"; fullPath := "/g/sessions/empty.json" |}.

Definition world_with_empty_session : World :=
  with_disk (disk world
             ++ [("/g/sessions/empty.json",
                  File (JsonText (JObj [("version", JNum 2); ("tabs", JArr [])])))])
            world.

(** The sample world when the host cannot open [b.ts], the user closing
    the tabs he is asked about. *)
Definition world_without_b : World :=
  {| disk := disk world;
     configuration := configuration world;
     workspaceFolders := workspaceFolders world;
     globalStoragePath := globalStoragePath world;
     tabGroups := tabGroups world;
     activeTabGroup := activeTabGroup world;
     textDocuments := textDocuments world;
     unopenable := {[ "file:///p/b.ts" ]};
     lastKnownCursorPositions := lastKnownCursorPositions world;
     answers := [Some "Close Tab"];
     clock := clock world |}.

(** The sample world with the snapshot of its own tabs stored as the
    session [mine]. *)
Definition mine : SessionFileRecord :=
  {| name := "mine"; fullPath := "/g/sessions/mine.json" |}.

Definition world_with_own_snapshot : World :=
  with_disk (disk world
             ++ [("/g/sessions/mine.json",
                  File (JSON_stringify
                          {| version := 2;
                             tabs :=
                               [{| uri := "file:///p/a.ts"; groupIndex := 0; tabIndex := 0;
                                   viewColumn := Some 1; isGroupActive := false;
                                   isGlobalActive := false; cursor := None |};
                                {| uri := "file:///p/b.ts"; groupIndex := 0; tabIndex := 1;
                                   viewColumn := Some 1; isGroupActive := true;
                                   isGlobalActive := false;
                                   cursor := Some {| line := 3; character := 7 |} |};
                                {| uri := "file:///p/c.ts"; groupIndex := 1; tabIndex := 1;
                                   viewColumn := Some 2; isGroupActive := true;
                                   isGlobalActive := true; cursor := None |}] |}))])
            world.

(** The sample world with a directory among the sessions that is named
    like a session file, the user confirming what he is asked. *)
Definition world_with_json_directory : World :=
  with_disk (disk world ++ [("/g/sessions/archive.json", Directory)])
            (with_answers [Some "Delete All"] world).

Definition globalOption : LocationOption.t :=
  {| LocationOption.label := "Global Storage"; LocationOption.value := global;
     LocationOption.description := "Store sessions inside VS Code global storage" |}.

(** The sample world with a regular file where the session directory
    would be. *)
Definition world_with_sessions_file : World :=
  with_disk [("/g", Directory); ("/g/sessions", File (OtherText "notes"))] world.


(** A session as a hand could leave it: its first descriptor has a cursor
    before the first line, its second names a share with four slashes, a
    string [Uri.parse] throws on. *)
Definition edited : list SavedTabState :=
  [{| uri := "file:///p/a.ts"; groupIndex := 0; tabIndex := 0; viewColumn := Some 1;
      isGroupActive := true; isGlobalActive := false;
      cursor := Some {| line := -1; character := 0 |} |};
   {| uri := "file:////server/share/a.ts"; groupIndex := 1; tabIndex := 0;
      viewColumn := Some 2; isGroupActive := true; isGlobalActive := true;
      cursor := None |}].

Definition edited_session : SessionFileRecord :=
  {| name := "edited"; fullPath := "/g/sessions/edited.json" |}.

Definition world_with_edited_session : World :=
  with_disk (disk world
             ++ [("/g/sessions/edited.json",
                  File (JSON_stringify {| version := 2; tabs := edited |}))])
            (with_answers [Some "Close Tab"; Some "Close Tab"] world).

End Sample.

(** * Facts about the sort *)

Module JsArrayFacts.
Import JsArray.
Section Sort.
Context {A : Type}.
Variable compareFn : A -> A -> Z.

Local Abbreviation insert := (insert compareFn).
Local Abbreviation sort := (sort compareFn).
Local Abbreviation before := (before compareFn).

Lemma insert_perm x l : Permutation (x :: l) (insert x l).
Proof.
  induction l as [|y l IH]; simpl; [reflexivity|].
  destruct (compareFn x y <=? 0); [reflexivity|].
  rewrite perm_swap. now apply perm_skip.
Qed.

Lemma sort_perm l : Permutation l (sort l).
Proof.
  induction l as [|x l IH]; simpl; [constructor|].
  rewrite <- insert_perm. now apply perm_skip.
Qed.

(** A consistent comparator: a total preorder read off the sign. *)
Hypothesis before_total : forall x y, before x y \/ before y x.
Hypothesis before_trans : forall x y z, before x y -> before y z -> before x z.

Lemma insert_sorted x l :
  StronglySorted before l -> StronglySorted before (insert x l).
Proof.
  induction 1 as [|y l Hl IH Hy]; simpl.
  - repeat constructor.
  - destruct (Z.leb_spec (compareFn x y) 0) as [Hxy|Hxy].
    + constructor; [now constructor|].
      constructor; [exact Hxy|].
      eapply List.Forall_impl; [|exact Hy]. intros z Hz.
      now apply before_trans with y.
    + constructor; [exact IH|].
      assert (Hyx : before y x).
      { destruct (before_total x y) as [H|H]; [unfold before in H; lia|exact H]. }
      eapply Permutation_Forall; [apply insert_perm|].
      now constructor.
Qed.

Lemma sort_sorted l : StronglySorted before (sort l).
Proof.
  induction l as [|x l IH]; simpl; [constructor|now apply insert_sorted].
Qed.

(** Stability: the elements picked out by [p] keep their input order, as
    long as the comparator never puts one of them strictly after
    another (they are ties). *)
Lemma insert_filter (p : A -> bool) x l :
  (forall y, p x = true -> In y l -> p y = true -> before x y) ->
  List.filter p (insert x l) = List.filter p (x :: l).
Proof.
  induction l as [|y l IH]; intros Hp; simpl; [reflexivity|].
  destruct (Z.leb_spec (compareFn x y) 0) as [Hxy|Hxy]; [reflexivity|].
  simpl. rewrite IH by (intros z Hx Hz; apply Hp; [exact Hx|now right]).
  simpl. destruct (p x) eqn:Hx; [|reflexivity].
  destruct (p y) eqn:Hy; [|reflexivity].
  specialize (Hp y eq_refl (or_introl eq_refl) Hy). unfold before in Hp. lia.
Qed.

Lemma sort_stable (p : A -> bool) l :
  (forall x y, p x = true -> p y = true -> before x y) ->
  List.filter p (sort l) = List.filter p l.
Proof.
  intros Hp. induction l as [|x l IH]; simpl; [reflexivity|].
  rewrite insert_filter by (intros y Hx _ Hy; now apply Hp).
  simpl. now rewrite IH.
Qed.
(** A sorted list is determined by its runs of ties: two sorted lists
    with the same ties in the same order are equal.  So every stable sort
    by the comparator gives what [sort] gives. *)
Lemma sorted_stable_unique (tie : A -> A -> bool) :
  (forall x y, tie x y = true <-> before x y /\ before y x) ->
  forall l1 l2,
    StronglySorted before l1 -> StronglySorted before l2 ->
    (forall x, List.filter (tie x) l1 = List.filter (tie x) l2) ->
    l1 = l2.
Proof.
  intros Htie.
  assert (Hrefl : forall x, tie x x = true).
  { intros x. apply Htie. destruct (before_total x x); now split. }
  induction l1 as [|x l1 IH]; intros l2 S1 S2 H.
  - destruct l2 as [|y l2]; [reflexivity|].
    specialize (H y). simpl in H. rewrite Hrefl in H. discriminate.
  - destruct l2 as [|y l2].
    { specialize (H x). simpl in H. rewrite Hrefl in H. discriminate. }
    apply StronglySorted_inv in S1 as [S1 F1]. apply StronglySorted_inv in S2 as [S2 F2].
    assert (Hyx : before y x).
    { assert (Hin : In x (List.filter (tie x) (y :: l2))).
      { rewrite <- H. simpl. rewrite Hrefl. now left. }
      apply filter_In in Hin as [[->|Hin] _].
      - destruct (before_total x x); assumption.
      - rewrite List.Forall_forall in F2. now apply F2. }
    assert (Hxy : before x y).
    { assert (Hin : In y (List.filter (tie y) (x :: l1))).
      { rewrite H. simpl. rewrite Hrefl. now left. }
      apply filter_In in Hin as [[->|Hin] _].
      - destruct (before_total y y); assumption.
      - rewrite List.Forall_forall in F1. now apply F1. }
    assert (Hx := H x). simpl in Hx. rewrite Hrefl in Hx.
    rewrite (proj2 (Htie x y) (conj Hxy Hyx)) in Hx.
    injection Hx as <- Hx. f_equal. apply IH; try assumption.
    intros z. specialize (H z). simpl in H.
    destruct (tie z x); [now injection H|exact H].
Qed.

End Sort.
End JsArrayFacts.

(** * Facts about JSON values, strings and paths *)

Lemma tab_of_json_of_tab t : tab_of_json (json_of_tab t) = Some t.
Proof. destruct t as [u g ti [c|] ga gl [[l ch]|]]; reflexivity. Qed.

Lemma tabs_of_json_of_tabs ts : tabs_of_json (map json_of_tab ts) = Some ts.
Proof.
  induction ts as [|t ts IH]; simpl; [reflexivity|].
  now rewrite tab_of_json_of_tab, IH.
Qed.

Lemma strip_suffix_unfold suffix s :
  strip_suffix suffix s =
  if String.eqb s suffix then Some ""
  else match s with
       | EmptyString => None
       | String c rest => option_map (String c) (strip_suffix suffix rest)
       end.
Proof. destruct s; reflexivity. Qed.

Lemma strip_suffix_app suffix s stem :
  strip_suffix suffix s = Some stem -> s = stem +:+ suffix.
Proof.
  revert stem. induction s as [|c s IH]; intros stem; rewrite strip_suffix_unfold.
  - destruct (String.eqb_spec "" suffix) as [<-|_]; [|discriminate].
    now intros [= <-].
  - destruct (String.eqb_spec (String c s) suffix) as [<-|_].
    + now intros [= <-].
    + destruct (strip_suffix suffix s) as [stem'|]; [|discriminate].
      intros [= <-]. specialize (IH stem' eq_refl). now subst s.
Qed.

Lemma path_split_no_slash p : no_slash p = true -> path_split p = None.
Proof.
  induction p as [|c p IH]; simpl; [reflexivity|].
  intros [Hc Hp]%andb_prop. rewrite (IH Hp).
  now destruct (Ascii.eqb c "/").
Qed.

Lemma append_String c (a b : string) : String c a +:+ b = String c (a +:+ b).
Proof. reflexivity. Qed.

Lemma append_Empty (b : string) : "" +:+ b = b.
Proof. reflexivity. Qed.

Lemma path_split_join dir file :
  no_slash file = true -> path_split (path_join dir file) = Some (dir, file).
Proof.
  intros Hf. unfold path_join. induction dir as [|c dir IH].
  - rewrite append_Empty, append_String, append_Empty. simpl.
    now rewrite (path_split_no_slash _ Hf).
  - rewrite append_String. simpl. now rewrite IH.
Qed.

Lemma path_split_inv p d b :
  path_split p = Some (d, b) -> p = path_join d b /\ no_slash b = true.
Proof.
  revert d. induction p as [|c p IH]; intros d; simpl; [discriminate|].
  destruct (path_split p) as [[d' b']|] eqn:Hs.
  - intros [= <- <-]. destruct (IH d' eq_refl) as [-> Hb]. now split.
  - destruct (Ascii.eqb_spec c "/") as [->|_]; [|discriminate].
    intros [= <- <-]. split; [reflexivity|].
    clear IH. induction p as [|c p IH]; [reflexivity|]. simpl in *.
    destruct (path_split p) as [[? ?]|]; [discriminate|].
    destruct (Ascii.eqb c "/"); [discriminate|]. now apply IH.
Qed.

Lemma path_join_inj dir f1 f2 : path_join dir f1 = path_join dir f2 -> f1 = f2.
Proof.
  unfold path_join. induction dir as [|c dir IH].
  - rewrite !append_Empty, !append_String, !append_Empty. now intros [= ->].
  - rewrite !append_String. intros [= H]. now apply IH.
Qed.

(** A plain name that ends in [ext] is its [basename] followed by [ext]. *)
Lemma path_basename_ext file ext :
  no_slash file = true -> endsWith file ext = true ->
  path_basename file ext +:+ ext = file.
Proof.
  intros Hf He. unfold path_basename, endsWith, last_component in *.
  destruct (String.eqb_spec file ext) as [->|Hne]; [reflexivity|].
  rewrite (path_split_no_slash _ Hf).
  destruct (strip_suffix ext file) as [stem|] eqn:Hs; [|discriminate].
  apply strip_suffix_app in Hs. destruct stem; [|now symmetry].
  now elim Hne.
Qed.

(** * The replay order *)

Lemma compareTabs_before a b :
  JsArray.before compareTabs a b <-> replays_before a b.
Proof.
  unfold JsArray.before, compareTabs, replays_before.
  destruct (Z.eqb_spec (groupIndex a) (groupIndex b)) as [Hg|Hg].
  - destruct (isGroupActive a), (isGroupActive b); simpl; split; intros H;
      try lia; intuition (try lia; try discriminate).
  - split; intros H; [lia|]. destruct H as [H|[H _]]; lia.
Qed.

Lemma compareTabs_total a b :
  JsArray.before compareTabs a b \/ JsArray.before compareTabs b a.
Proof.
  unfold JsArray.before, compareTabs.
  rewrite (Z.eqb_sym (groupIndex b)).
  destruct (Z.eqb_spec (groupIndex a) (groupIndex b)) as [Hg|Hg]; [|lia].
  destruct (isGroupActive a), (isGroupActive b); simpl; lia.
Qed.

Lemma compareTabs_trans a b c :
  JsArray.before compareTabs a b -> JsArray.before compareTabs b c ->
  JsArray.before compareTabs a c.
Proof.
  unfold JsArray.before, compareTabs.
  destruct (Z.eqb_spec (groupIndex a) (groupIndex b)),
           (Z.eqb_spec (groupIndex b) (groupIndex c)),
           (Z.eqb_spec (groupIndex a) (groupIndex c));
    destruct (isGroupActive a), (isGroupActive b), (isGroupActive c); simpl; lia.
Qed.

Lemma same_rank_tie d x y :
  same_rank d x = true -> same_rank d y = true -> JsArray.before compareTabs x y.
Proof.
  unfold same_rank, JsArray.before, compareTabs.
  intros [[Hg1 Ha1]%andb_prop Ht1]%andb_prop [[Hg2 Ha2]%andb_prop Ht2]%andb_prop.
  apply Z.eqb_eq in Hg1, Hg2, Ht1, Ht2. apply Bool.eqb_prop in Ha1, Ha2.
  rewrite Hg1, Hg2, Ha1, Ha2, Ht1, Ht2, Z.eqb_refl, Bool.eqb_reflx. lia.
Qed.

Lemma same_rank_ties d x :
  same_rank d x = true <->
  JsArray.before compareTabs d x /\ JsArray.before compareTabs x d.
Proof.
  unfold same_rank, JsArray.before, compareTabs.
  rewrite !andb_true_iff, !Z.eqb_eq, Bool.eqb_true_iff.
  rewrite (Z.eqb_sym (groupIndex x)).
  destruct (Z.eqb_spec (groupIndex d) (groupIndex x)) as [Hg|Hg]; [|lia].
  destruct (isGroupActive d), (isGroupActive x); simpl;
    intuition (try lia; try congruence).
Qed.

Lemma StronglySorted_impl {A} (R S : A -> A -> Prop) l :
  (forall x y, R x y -> S x y) -> StronglySorted R l -> StronglySorted S l.
Proof.
  intros HRS H. induction H as [|x l Hl IH Hx]; constructor; [exact IH|].
  eapply List.Forall_impl; [|exact Hx]. intros y. apply HRS.
Qed.

Lemma sortedTabs_sorted sessionTabs :
  StronglySorted replays_before (sortedTabs sessionTabs).
Proof.
  apply (StronglySorted_impl (JsArray.before compareTabs)).
  - intros x y. apply compareTabs_before.
  - apply JsArrayFacts.sort_sorted; [apply compareTabs_total|apply compareTabs_trans].
Qed.

Lemma sortedTabs_unique sessionTabs order :
  StronglySorted replays_before order ->
  (forall d, List.filter (same_rank d) order = List.filter (same_rank d) sessionTabs) ->
  order = sortedTabs sessionTabs.
Proof.
  intros Hsorted Hties.
  apply (JsArrayFacts.sorted_stable_unique compareTabs compareTabs_total same_rank
           same_rank_ties).
  - apply (StronglySorted_impl replays_before); [|exact Hsorted].
    intros x y. apply compareTabs_before.
  - apply JsArrayFacts.sort_sorted; [apply compareTabs_total|apply compareTabs_trans].
  - intros d. rewrite Hties. symmetry.
    apply JsArrayFacts.sort_stable. apply same_rank_tie.
Qed.

(** * Running asynchronous code *)

Lemma bind_run {A B} (m : M A) (k : A -> M B) w a w1 t1 r w2 t2 :
  m w = (Ok a, w1, t1) -> k a w1 = (r, w2, t2) -> bind m k w = (r, w2, t1 ++ t2).
Proof. intros Hm Hk. unfold bind. now rewrite Hm, Hk. Qed.

Lemma with_answers_twice a b w : with_answers a (with_answers b w) = with_answers a w.
Proof. reflexivity. Qed.

Lemma opened_documents_app a b :
  opened_documents (a ++ b) = opened_documents a ++ opened_documents b.
Proof. apply flat_map_app. Qed.

Lemma focused_documents_app a b :
  focused_documents (a ++ b) = focused_documents a ++ focused_documents b.
Proof. apply flat_map_app. Qed.

(** * The restore engine, step by step *)

Lemma cursor_eta (p : SavedCursorPosition) :
  {| line := line p; character := character p |} = p.
Proof. now destruct p. Qed.

Lemma with_cursors_same w : with_cursors (lastKnownCursorPositions w) w = w.
Proof. now destruct w. Qed.

Lemma last_In {A} (l : list A) x : last l = Some x -> In x l.
Proof.
  induction l as [|y l IH]; [discriminate|]. rewrite last_cons.
  destruct (last l) as [z|]; intros [= <-]; [right; now apply IH|now left].
Qed.

Lemma last_nonempty {A} (l : list A) : l <> [] -> exists x, last l = Some x.
Proof.
  destruct l as [|y l]; [contradiction|]. intros _. rewrite last_cons.
  destruct (last l); eauto.
Qed.

Lemma parses_documentOf t : parses t = true <-> exists u, documentOf t = Some u.
Proof.
  unfold parses. destruct (documentOf t) as [u|]; split; try discriminate; eauto.
  now intros [u Hu].
Qed.

(** One turn of the replay loop: a [uri] that does not parse ends the
    restore there; otherwise the turn completes, whatever becomes of the
    document. *)
Lemma replayTab_run t w :
  replayTab t w =
  if parses t
  then (Ok tt, with_cursors (cursorPut w t (lastKnownCursorPositions w)) w, replayed w t)
  else (Threw "UriError", w, []).
Proof.
  unfold replayTab, Uri_parse, replayed, shownAs, cursorPut, fails_to_show, cannot_open,
    illegal_cursor, failedToOpen, parses, documentOf.
  destruct (vscode.parse (uri t)) as [u|]; [|reflexivity].
  unfold bind at 1, ret. cbv beta iota zeta.
  unfold try_catch, openAndShow, bind at 1, openTextDocument.
  destruct (bool_decide (vscode.toString u ∈ unopenable w)).
  { destruct (cursor t); cbn; now rewrite with_cursors_same. }
  cbv beta iota zeta. unfold bind at 1, showTextDocument, emit. cbv beta iota zeta.
  unfold applyCursor. destruct (cursor t) as [c|]; [|cbn; now rewrite with_cursors_same].
  unfold bind at 1, new_Position.
  destruct ((line c <? 0) || (character c <? 0)).
  { cbn. now rewrite with_cursors_same. }
  cbn. now rewrite cursor_eta.
Qed.

Lemma replayed_same_unopenable w w' t :
  unopenable w' = unopenable w -> replayed w' t = replayed w t.
Proof.
  intros H. unfold replayed, shownAs, fails_to_show, cannot_open. now rewrite H.
Qed.

Lemma cursorPut_same_unopenable w w' t positions :
  unopenable w' = unopenable w -> cursorPut w' t positions = cursorPut w t positions.
Proof.
  intros H. unfold cursorPut, fails_to_show, cannot_open. now rewrite H.
Qed.

Lemma last_global_active_cons t l :
  last_global_active (t :: l) =
  match last_global_active l with
  | Some x => Some x
  | None => if isGlobalActive t then Some t else None
  end.
Proof.
  unfold last_global_active. simpl.
  destruct (isGlobalActive t); [|now destruct (last _)].
  destruct (List.filter isGlobalActive l) as [|x l']; [reflexivity|].
  rewrite last_cons. now destruct (last (x :: l')).
Qed.

(** The loop over [sortedTabs]: it shows the descriptors in order up to
    the first one whose [uri] does not parse, and rejects there. *)
Lemma replayTabs_trace tabStates : forall globalActive w,
  replayTabs tabStates globalActive w =
  (if forallb parses tabStates
   then Ok (match last_global_active tabStates with
            | Some t => Some t
            | None => globalActive
            end)
   else Threw "UriError",
   with_cursors (fold_left (fun positions t => cursorPut w t positions)
                           (replayable tabStates) (lastKnownCursorPositions w)) w,
   flat_map (replayed w) (replayable tabStates)).
Proof.
  induction tabStates as [|t l IH]; intros ga w.
  - cbn. unfold ret. now rewrite with_cursors_same.
  - cbn [replayTabs forallb replayable]. unfold bind at 1. rewrite replayTab_run.
    destruct (parses t); [|cbn; now rewrite with_cursors_same].
    set (w1 := with_cursors (cursorPut w t (lastKnownCursorPositions w)) w).
    rewrite IH. cbn [andb flat_map fold_left].
    rewrite last_global_active_cons.
    assert (Hr : (if forallb parses l
                  then Ok (match last_global_active l with
                           | Some t0 => Some t0
                           | None => if isGlobalActive t then Some t else ga
                           end)
                  else Threw "UriError")
                 = (if forallb parses l
                    then Ok (match match last_global_active l with
                                   | Some x => Some x
                                   | None => if isGlobalActive t then Some t else None
                                   end with
                             | Some t0 => Some t0
                             | None => ga
                             end)
                    else Threw "UriError")).
    { destruct (forallb parses l); [|reflexivity].
      destruct (last_global_active l); [reflexivity|].
      now destruct (isGlobalActive t). }
    rewrite Hr.
    assert (Hc : forall positions,
               fold_left (fun positions t0 => cursorPut w1 t0 positions) (replayable l) positions
               = fold_left (fun positions t0 => cursorPut w t0 positions) (replayable l)
                           positions).
    { generalize (replayable l). intros r. induction r as [|x r IHr]; intros positions;
        [reflexivity|].
      cbn [fold_left]. now rewrite IHr, (cursorPut_same_unopenable w w1). }
    rewrite Hc.
    rewrite (flat_map_ext (replayed w1) (replayed w))
      by (intros t'; now apply replayed_same_unopenable).
    reflexivity.
Qed.

Lemma closeTabs_step_inside entry sessionUris c rest w :
  bool_decide (vscode.toString (Collected.uri c) ∈ sessionUris) = true ->
  closeTabsOutsideSession entry sessionUris (c :: rest) w =
  closeTabsOutsideSession entry sessionUris rest w.
Proof. intros H. simpl. now rewrite H. Qed.

Lemma closeTabs_step_outside entry sessionUris c rest w :
  bool_decide (vscode.toString (Collected.uri c) ∈ sessionUris) = false ->
  closeTabsOutsideSession entry sessionUris (c :: rest) w =
  if is_choice (hd None (answers w)) "Close Tab"
  then let '(r, w', evs) := closeTabsOutsideSession entry sessionUris rest
                              (with_answers (tl (answers w)) w) in
       (r, w', promptedAndClosed entry c ++ evs)
  else (Ok false, with_answers (tl (answers w)) w,
        [closeTabPrompt entry c; ShowInformationMessage "Session restore canceled."]).
Proof.
  intros H. simpl. rewrite H. unfold bind, showModalWarning, prompt_user. simpl.
  destruct (is_choice (hd None (answers w)) "Close Tab"); simpl; [|reflexivity].
  now destruct (closeTabsOutsideSession _ _ _ _) as [[r w'] evs].
Qed.

Lemma is_choice_Some choice item : is_choice choice item = true <-> choice = Some item.
Proof.
  destruct choice as [s|]; simpl; [|split; discriminate].
  rewrite String.eqb_eq. split; congruence.
Qed.

Lemma tabsOutsideSession_cons sessionUris c rest :
  tabsOutsideSession sessionUris (c :: rest) =
  if bool_decide (vscode.toString (Collected.uri c) ∈ sessionUris)
  then tabsOutsideSession sessionUris rest
  else c :: tabsOutsideSession sessionUris rest.
Proof. unfold tabsOutsideSession. simpl. now destruct (bool_decide _). Qed.

(** Every tab outside the session is asked about and closed, in order,
    as long as the user answers [Close Tab]. *)
Lemma closeTabs_all entry sessionUris currentTabs : forall w,
  let outside := tabsOutsideSession sessionUris currentTabs in
  firstn (length outside) (answers w) = repeat (Some "Close Tab") (length outside) ->
  closeTabsOutsideSession entry sessionUris currentTabs w =
  (Ok true, with_answers (skipn (length outside) (answers w)) w,
   flat_map (promptedAndClosed entry) outside).
Proof.
  induction currentTabs as [|c rest IH]; intros w; cbv zeta.
  - intros _. simpl. unfold ret. now destruct w.
  - rewrite tabsOutsideSession_cons.
    destruct (bool_decide (vscode.toString (Collected.uri c) ∈ sessionUris)) eqn:Hc.
    + intros H. rewrite closeTabs_step_inside by exact Hc. now apply IH.
    + intros H. rewrite closeTabs_step_outside by exact Hc.
      destruct (answers w) as [|a ans] eqn:Hans; [discriminate|].
      simpl in H. injection H as -> H.
      change (hd None (Some "Close Tab" :: ans)) with (Some "Close Tab").
      change (tl (Some "Close Tab" :: ans)) with ans.
      rewrite (IH (with_answers ans w)) by exact H. reflexivity.
Qed.

(** The first answer that is not [Close Tab] ends the restore there. *)
Lemma closeTabs_cancel entry sessionUris currentTabs : forall w k c,
  let outside := tabsOutsideSession sessionUris currentTabs in
  nth_error outside k = Some c ->
  firstn k (answers w) = repeat (Some "Close Tab") k ->
  nth k (answers w) None <> Some "Close Tab" ->
  closeTabsOutsideSession entry sessionUris currentTabs w =
  (Ok false, with_answers (skipn (S k) (answers w)) w,
   flat_map (promptedAndClosed entry) (firstn k outside)
   ++ [closeTabPrompt entry c; ShowInformationMessage "Session restore canceled."]).
Proof.
  induction currentTabs as [|c0 rest IH]; intros w k c; cbv zeta.
  - destruct k; discriminate.
  - rewrite tabsOutsideSession_cons.
    destruct (bool_decide (vscode.toString (Collected.uri c0) ∈ sessionUris)) eqn:Hc.
    + intros Hk Hfirst Hnth. rewrite closeTabs_step_inside by exact Hc. now apply IH.
    + intros Hk Hfirst Hnth. rewrite closeTabs_step_outside by exact Hc.
      destruct k as [|k].
      * injection Hk as <-.
        destruct (is_choice (hd None (answers w)) "Close Tab") eqn:Hch.
        -- apply is_choice_Some in Hch. destruct (answers w); simpl in *; congruence.
        -- destruct (answers w); reflexivity.
      * destruct (answers w) as [|a ans] eqn:Hans; [discriminate|].
        simpl in Hfirst, Hnth, Hk. injection Hfirst as -> Hfirst.
        change (hd None (Some "Close Tab" :: ans)) with (Some "Close Tab").
        change (tl (Some "Close Tab" :: ans)) with ans.
        rewrite (IH (with_answers ans w) k c Hk Hfirst Hnth). reflexivity.
Qed.

Lemma readSessionFile_stored w filePath sd :
  stores w filePath sd ->
  readSessionFile filePath w =
  (Ok (Some {| version := version sd; tabs := map json_of_tab (tabs sd) |}), w, []).
Proof.
  unfold stores, readSessionFile, try_catch, bind, readFile. intros ->. reflexivity.
Qed.

Lemma restoreSessionFromEntry_stored entry sd w :
  stores w (fullPath entry) sd -> tabs sd <> [] ->
  restoreSessionFromEntry entry w = restoreTabs entry (tabs sd) w.
Proof.
  intros Hs Hne. unfold restoreSessionFromEntry, bind.
  rewrite (readSessionFile_stored _ _ _ Hs). simpl.
  rewrite length_map. destruct (tabs sd) as [|t ts] eqn:Ht; [contradiction|]. simpl.
  rewrite tab_of_json_of_tab, tabs_of_json_of_tabs.
  now destruct (restoreTabs entry (t :: ts) w) as [[r w'] evs].
Qed.

Lemma restoreTabs_cancel entry sessionTabs w k c :
  let outside := tabsOutsideSession (list_to_set (map uri sessionTabs)) (collectTextTabs w) in
  nth_error outside k = Some c ->
  firstn k (answers w) = repeat (Some "Close Tab") k ->
  nth k (answers w) None <> Some "Close Tab" ->
  restoreTabs entry sessionTabs w =
  (Ok tt, with_answers (skipn (S k) (answers w)) w,
   flat_map (promptedAndClosed entry) (firstn k outside)
   ++ [closeTabPrompt entry c; ShowInformationMessage "Session restore canceled."]).
Proof.
  cbv zeta. intros Hk Hfirst Hnth. unfold restoreTabs, bind, get_world.
  rewrite (closeTabs_cancel _ _ _ _ _ _ Hk Hfirst Hnth). simpl.
  now rewrite app_nil_r.
Qed.

Lemma focusGlobalActive_run globalActive w :
  focusGlobalActive globalActive w =
  match globalActive with
  | Some t =>
      if parses t
      then (Ok tt, with_cursors (cursorPut w t (lastKnownCursorPositions w)) w,
            focusedAs w globalActive)
      else (Threw "UriError", w, [])
  | None => (Ok tt, w, [])
  end.
Proof.
  destruct globalActive as [t|]; [|reflexivity].
  unfold focusGlobalActive, Uri_parse, focusedAs, shownAs, cursorPut, fails_to_show,
    cannot_open, illegal_cursor, parses, documentOf.
  destruct (vscode.parse (uri t)) as [u|]; [|reflexivity].
  unfold bind at 1, ret. cbv beta iota zeta.
  unfold try_catch, openAndShow, bind at 1, openTextDocument.
  destruct (bool_decide (vscode.toString u ∈ unopenable w)).
  { destruct (cursor t); cbn; now rewrite with_cursors_same. }
  cbv beta iota zeta. unfold bind at 1, showTextDocument, emit. cbv beta iota zeta.
  unfold applyCursor. destruct (cursor t) as [c|]; [|cbn; now rewrite with_cursors_same].
  unfold bind at 1, new_Position.
  destruct ((line c <? 0) || (character c <? 0)).
  { cbn. now rewrite with_cursors_same. }
  cbn. now rewrite cursor_eta.
Qed.

Lemma last_global_active_parses l t :
  forallb parses l = true -> last_global_active l = Some t -> parses t = true.
Proof.
  intros Hall Hlast. apply last_In, filter_In in Hlast as [Hin _].
  rewrite forallb_forall in Hall. now apply Hall.
Qed.

(** The whole of a restore that is not cancelled: the tabs outside the
    session closed, the editors closed, the descriptors shown in replay
    order up to the first [uri] that does not parse; when every one
    parses, the focus given and the completion reported. *)
Lemma restoreTabs_trace entry sessionTabs w :
  let outside := tabsOutsideSession (list_to_set (map uri sessionTabs)) (collectTextTabs w) in
  let order := sortedTabs sessionTabs in
  firstn (length outside) (answers w) = repeat (Some "Close Tab") (length outside) ->
  restoreTabs entry sessionTabs w =
  (if forallb parses order then Ok tt else Threw "UriError",
   with_cursors
     (fold_left (fun positions t => cursorPut w t positions)
                (replayable order
                 ++ (if forallb parses order then option_list (last_global_active order)
                     else []))
                (lastKnownCursorPositions w))
     (with_answers (skipn (length outside) (answers w)) w),
   flat_map (promptedAndClosed entry) outside
   ++ ExecuteCommand "workbench.action.closeAllEditors"
      :: flat_map (replayed w) (replayable order)
      ++ (if forallb parses order
          then focusedAs w (last_global_active order)
               ++ [ShowInformationMessage
                     ("Restored session " +:+ quoted (name entry) +:+ ".")]
          else [])).
Proof.
  cbv zeta. intros Hall.
  set (outside := tabsOutsideSession _ _) in *.
  set (order := sortedTabs sessionTabs).
  set (w1 := with_answers (skipn (length outside) (answers w)) w).
  unfold restoreTabs, bind at 1, get_world. cbv beta iota zeta.
  unfold bind at 1. rewrite (closeTabs_all _ _ _ _ Hall). cbv beta iota zeta.
  fold outside. fold w1. fold order.
  unfold bind at 1, emit. cbv beta iota zeta.
  unfold bind at 1. rewrite replayTabs_trace.
  assert (Hr : forall t, replayed w1 t = replayed w t)
    by (intros t; now apply replayed_same_unopenable).
  assert (Hc : forall l positions,
             fold_left (fun positions t => cursorPut w1 t positions) l positions
             = fold_left (fun positions t => cursorPut w t positions) l positions).
  { induction l as [|x l IHl]; intros positions; [reflexivity|].
    cbn [fold_left]. now rewrite IHl, (cursorPut_same_unopenable w w1). }
  rewrite (flat_map_ext (replayed w1) (replayed w)) by exact Hr. rewrite Hc.
  change (lastKnownCursorPositions w1) with (lastKnownCursorPositions w).
  destruct (forallb parses order) eqn:Hparses.
  - set (w2 := with_cursors _ w1). cbv beta iota zeta.
    replace (match last_global_active order with
             | Some t => Some t
             | None => None
             end) with (last_global_active order)
      by now destruct (last_global_active _).
    unfold bind at 1. rewrite focusGlobalActive_run.
    rewrite fold_left_app.
    destruct (last_global_active order) as [t|] eqn:Hlast.
    + rewrite (last_global_active_parses order t Hparses Hlast).
      unfold focusedAs.
      assert (Hu : unopenable w2 = unopenable w) by reflexivity.
      rewrite (cursorPut_same_unopenable w w2 t _ Hu).
      replace (shownAs w2 false t) with (shownAs w false t)
        by (unfold shownAs, cannot_open; now rewrite Hu).
      replace (fails_to_show w2 t) with (fails_to_show w t)
        by (unfold fails_to_show, cannot_open; now rewrite Hu).
      reflexivity.
    + cbn. unfold w2. rewrite ?app_nil_r. reflexivity.
  - cbn. rewrite ?app_nil_r. reflexivity.
Qed.

Lemma opened_documents_closing entry outside :
  opened_documents (flat_map (promptedAndClosed entry) outside) = [].
Proof. induction outside as [|c l IH]; simpl; [reflexivity|exact IH]. Qed.

Lemma focused_documents_closing entry outside :
  focused_documents (flat_map (promptedAndClosed entry) outside) = [].
Proof. induction outside as [|c l IH]; simpl; [reflexivity|exact IH]. Qed.

Lemma In_closing e entry outside :
  In e (flat_map (promptedAndClosed entry) outside) ->
  exists c, e = closeTabPrompt entry c
            \/ e = CloseTab (Collected.groupIndex c) (Collected.tabIndex c).
Proof.
  intros [c [_ Hc]]%in_flat_map. exists c. simpl in Hc. intuition.
Qed.

Lemma tabsOutsideSession_In sessionTabs currentTabs c :
  In c (tabsOutsideSession (list_to_set (map uri sessionTabs)) currentTabs) <->
  In c currentTabs /\ ~ In (vscode.toString (Collected.uri c)) (map uri sessionTabs).
Proof.
  unfold tabsOutsideSession. rewrite filter_In, negb_true_iff, bool_decide_eq_false.
  now rewrite elem_of_list_to_set, list_elem_of_In.
Qed.

Lemma replayable_all l : forallb parses l = true -> replayable l = l.
Proof.
  induction l as [|t l IH]; [reflexivity|]. cbn.
  intros [Ht Hl]%andb_prop. now rewrite Ht, IH.
Qed.

Lemma replayable_parses l : forallb parses (replayable l) = true.
Proof.
  induction l as [|t l IH]; [reflexivity|]. cbn.
  destruct (parses t) eqn:Ht; [|reflexivity]. cbn. now rewrite Ht.
Qed.

Lemma forallb_Permutation {A} (p : A -> bool) l l' :
  Permutation l l' -> forallb p l = forallb p l'.
Proof.
  induction 1 as [|x l l' _ IH|x y l|l l' l'' _ IH1 _ IH2]; cbn.
  - reflexivity.
  - now rewrite IH.
  - now rewrite !andb_assoc, (andb_comm (p y)).
  - now rewrite IH1.
Qed.

Lemma sortedTabs_parses sessionTabs :
  forallb parses (sortedTabs sessionTabs) = forallb parses sessionTabs.
Proof. symmetry. apply forallb_Permutation, JsArrayFacts.sort_perm. Qed.

Lemma opened_shownAs w preserveFocus t :
  opened_documents (shownAs w preserveFocus t) = option_list (documentOf t).
Proof.
  unfold shownAs. destruct (documentOf t) as [u|]; [|reflexivity].
  destruct (cannot_open w t); [reflexivity|].
  destruct (cursor t); [|reflexivity]. now destruct (illegal_cursor t).
Qed.

Lemma opened_replayed w t :
  opened_documents (replayed w t) = option_list (documentOf t).
Proof.
  unfold replayed. rewrite opened_documents_app, opened_shownAs.
  destruct (fails_to_show w t); cbn; now rewrite app_nil_r.
Qed.

Lemma opened_replay w l :
  forallb parses l = true ->
  map Some (opened_documents (flat_map (replayed w) l)) = map documentOf l.
Proof.
  induction l as [|t l IH]; [reflexivity|]. cbn [forallb flat_map map].
  intros [Ht Hl]%andb_prop. rewrite opened_documents_app, map_app, opened_replayed, IH by exact Hl.
  apply parses_documentOf in Ht as [u ->]. reflexivity.
Qed.

Lemma opened_focusedAs w ga :
  opened_documents (focusedAs w ga)
  = match ga with Some t => option_list (documentOf t) | None => [] end.
Proof.
  destruct ga as [t|]; [|reflexivity]. unfold focusedAs.
  rewrite opened_documents_app, opened_shownAs.
  destruct (fails_to_show w t); cbn; now rewrite app_nil_r.
Qed.

Lemma focused_shownAs_replay w t : focused_documents (shownAs w true t) = [].
Proof.
  unfold shownAs. destruct (documentOf t) as [u|]; [|reflexivity].
  destruct (cannot_open w t); [reflexivity|].
  destruct (cursor t); [|reflexivity]. now destruct (illegal_cursor t).
Qed.

Lemma focused_replay w l : focused_documents (flat_map (replayed w) l) = [].
Proof.
  induction l as [|t l IH]; [reflexivity|]. cbn [flat_map].
  rewrite focused_documents_app, IH. unfold replayed.
  rewrite focused_documents_app, focused_shownAs_replay.
  now destruct (fails_to_show w t).
Qed.

(** C1.  The restore engine replays the tab descriptors of a session in
    the order of [sortedTabs]: a rearrangement of the session's
    descriptors, ascending in [groupIndex], within a group the pane-inactive
    descriptors before the pane-active one, within equal activity ascending
    in [tabIndex], descriptors that agree on all three in the order of the
    file; it is the only list with these properties.  A restore that is
    not cancelled asks the host to open the documents in exactly that order
    (and then once more the one that takes the focus) when [Uri.parse]
    takes the [uri] of every descriptor; when it rejects one, the restore
    has opened, in that order, the descriptors before the first such one,
    and rejects there.  For the three descriptors of the specification the
    order is: tab 0 inactive, tab 1 inactive, tab 0 active. *)
Theorem restore_replay_order (sessionTabs : list SavedTabState) :
  let order := sortedTabs sessionTabs in
  Permutation sessionTabs order
  /\ StronglySorted replays_before order
  /\ (forall d, List.filter (same_rank d) order = List.filter (same_rank d) sessionTabs)
  /\ (forall order',
        StronglySorted replays_before order' ->
        (forall d, List.filter (same_rank d) order'
                   = List.filter (same_rank d) sessionTabs) ->
        order' = order)
  /\ (forall entry v w,
        stores w (fullPath entry) {| version := v; tabs := sessionTabs |} ->
        sessionTabs <> [] ->
        (let outside := tabsOutsideSession (list_to_set (map uri sessionTabs))
                                           (collectTextTabs w) in
         firstn (length outside) (answers w)
         = repeat (Some "Close Tab") (length outside)) ->
        let run := restoreSessionFromEntry entry w in
        (forallb parses sessionTabs = true ->
         result run = Ok tt
         /\ map Some (opened_documents (effects run))
            = map documentOf (order ++ option_list (last_global_active order)))
        /\ (forallb parses sessionTabs = false ->
            result run = Threw "UriError"
            /\ map Some (opened_documents (effects run))
               = map documentOf (replayable order)))
  /\ (forall x1 x2 x3,
        sortedTabs [placed 0 1 false x1; placed 0 0 false x2; placed 0 0 true x3]
        = [placed 0 0 false x2; placed 0 1 false x1; placed 0 0 true x3]).
Proof.
  cbv zeta. split; [apply JsArrayFacts.sort_perm|].
  split; [apply sortedTabs_sorted|].
  split; [intros d; apply JsArrayFacts.sort_stable; apply same_rank_tie|].
  split; [apply sortedTabs_unique|].
  split; [|reflexivity].
  intros entry v w Hs Hne Hall.
  rewrite (restoreSessionFromEntry_stored entry _ w Hs Hne). cbn [tabs].
  rewrite (restoreTabs_trace entry sessionTabs w Hall), sortedTabs_parses.
  unfold result, effects. cbn [fst snd].
  rewrite opened_documents_app, opened_documents_closing. cbn [app].
  change (opened_documents (?e :: ?l)) with (opened_documents [e] ++ opened_documents l).
  cbn [opened_documents flat_map app].
  fold (opened_documents
          (flat_map (replayed w) (replayable (sortedTabs sessionTabs))
           ++ (if forallb parses sessionTabs
               then focusedAs w (last_global_active (sortedTabs sessionTabs))
                    ++ [ShowInformationMessage
                          ("Restored session " +:+ quoted (name entry) +:+ ".")]
               else []))).
  rewrite opened_documents_app, map_app, opened_replay by apply replayable_parses.
  split; intros Hp; rewrite Hp; (split; [reflexivity|]).
  - rewrite replayable_all by now rewrite sortedTabs_parses.
    rewrite opened_documents_app, opened_focusedAs, !map_app. cbn.
    rewrite app_nil_r. f_equal.
    destruct (last_global_active (sortedTabs sessionTabs)) as [t|] eqn:Hlast; [|reflexivity].
    assert (Ht : parses t = true).
    { apply (last_global_active_parses (sortedTabs sessionTabs)); [|exact Hlast].
      now rewrite sortedTabs_parses. }
    apply parses_documentOf in Ht as [u Hu]. cbn. now rewrite Hu.
  - cbn. now rewrite app_nil_r.
Qed.

(** C6.  The tabs the restore asks about are the open file-backed tabs
    whose URI the session does not name.  While the user answers
    [Close Tab], each of them is asked about with a modal choice between
    closing it and cancelling, and closed, in order, before anything else
    happens.  The first other answer ends the restore on the spot: it
    returns, having said that the restore was cancelled; its effects are the
    questions and closings so far, this last question and that message; no
    document was opened, the editors were not closed, no completion was
    reported, and the world is as before but for the answers used. *)
Theorem restore_asks_before_closing (entry : SessionFileRecord)
        (sd : SessionFileContent SavedTabState) (w : World) :
  stores w (fullPath entry) sd ->
  tabs sd <> [] ->
  let outside := tabsOutsideSession (list_to_set (map uri (tabs sd))) (collectTextTabs w) in
  let run := restoreSessionFromEntry entry w in
  (forall c, In c outside <->
             In c (collectTextTabs w)
             /\ ~ In (vscode.toString (Collected.uri c)) (map uri (tabs sd)))
  /\ (firstn (length outside) (answers w) = repeat (Some "Close Tab") (length outside) ->
      exists rest,
        effects run = flat_map (promptedAndClosed entry) outside
                      ++ ExecuteCommand "workbench.action.closeAllEditors" :: rest)
  /\ (forall k c,
        nth_error outside k = Some c ->
        firstn k (answers w) = repeat (Some "Close Tab") k ->
        nth k (answers w) None <> Some "Close Tab" ->
        result run = Ok tt
        /\ effects run =
           flat_map (promptedAndClosed entry) (firstn k outside)
           ++ [closeTabPrompt entry c; ShowInformationMessage "Session restore canceled."]
        /\ final run = with_answers (skipn (S k) (answers w)) w
        /\ opened_documents (effects run) = []
        /\ ~ In (ExecuteCommand "workbench.action.closeAllEditors") (effects run)
        /\ ~ In (ShowInformationMessage
                   ("Restored session " +:+ quoted (name entry) +:+ ".")) (effects run)).
Proof.
  intros Hs Hne. cbv zeta.
  rewrite (restoreSessionFromEntry_stored entry sd w Hs Hne).
  split; [intros c; apply tabsOutsideSession_In|].
  split.
  - intros Hall. rewrite (restoreTabs_trace entry (tabs sd) w Hall).
    eexists. reflexivity.
  - intros k c Hk Hfirst Hnth.
    rewrite (restoreTabs_cancel entry (tabs sd) w k c Hk Hfirst Hnth).
    unfold result, effects, final. simpl fst. simpl snd.
    repeat split.
    + rewrite opened_documents_app, opened_documents_closing. reflexivity.
    + intros [H|H]%in_app_or.
      * apply In_closing in H. destruct H as [c' [H|H]]; discriminate.
      * simpl in H. destruct H as [H|[H|[]]]; discriminate.
    + intros [H|H]%in_app_or.
      * apply In_closing in H. destruct H as [c' [H|H]]; discriminate.
      * simpl in H. destruct H as [H|[H|[]]]; [discriminate|].
        injection H as H. discriminate.
Qed.

(** * The snapshot *)

Lemma pushTextTabs_place group g tab t c :
  In c (pushTextTabs group g tab t) ->
  Collected.groupIndex c = g /\ Collected.tabIndex c = t.
Proof.
  unfold pushTextTabs. destruct (getTabUri tab) as [u|]; [|intros []].
  destruct (String.eqb _ _); [|intros []].
  intros [<-|[]]. now split.
Qed.

Lemma group_tabs_place group g tabs : forall i c,
  In c (forEach_push (pushTextTabs group g) i tabs) ->
  Collected.groupIndex c = g /\ (i <= Collected.tabIndex c)%nat.
Proof.
  induction tabs as [|tab rest IH]; intros i c; simpl; [intros []|].
  intros [H|H]%in_app_or.
  - apply pushTextTabs_place in H. lia.
  - apply IH in H. lia.
Qed.

Lemma filter_nothing {A} (p : A -> bool) l :
  (forall x, In x l -> p x = false) -> List.filter p l = [].
Proof.
  induction l as [|x l IH]; intros H; simpl; [reflexivity|].
  rewrite (H x (or_introl eq_refl)). apply IH. intros y Hy. apply H. now right.
Qed.

Lemma group_tabs_once group g g0 t0 tabs : forall i,
  (length (List.filter (at_place g0 t0) (forEach_push (pushTextTabs group g) i tabs)) <= 1)%nat.
Proof.
  induction tabs as [|tab rest IH]; intros i; simpl; [lia|].
  rewrite List.filter_app, length_app.
  destruct (Nat.eq_dec t0 i) as [->|Hne].
  - rewrite (filter_nothing _ (forEach_push _ (S i) rest)).
    + unfold pushTextTabs. destruct (getTabUri tab); [|simpl; lia].
      destruct (String.eqb _ _); simpl; [|lia].
      destruct (at_place _ _ _); simpl; lia.
    + intros c [_ Hc]%group_tabs_place. unfold at_place.
      destruct (Nat.eqb_spec i (Collected.tabIndex c)); [lia|apply andb_false_r].
  - rewrite (filter_nothing _ (pushTextTabs group g tab i)).
    + simpl. apply IH.
    + intros c [_ Hc]%pushTextTabs_place. unfold at_place.
      destruct (Nat.eqb_spec t0 (Collected.tabIndex c)); [lia|apply andb_false_r].
Qed.

Lemma groups_place (groups : list vscode.TabGroup) : forall j c,
  In c (forEach_push (fun group g => forEach_push (pushTextTabs group g) 0%nat
                                                  (vscode.tabs group)) j groups) ->
  (j <= Collected.groupIndex c)%nat.
Proof.
  induction groups as [|group rest IH]; intros j c; simpl; [intros []|].
  intros [H|H]%in_app_or.
  - apply group_tabs_place in H. lia.
  - apply IH in H. lia.
Qed.

Lemma groups_once g0 t0 (groups : list vscode.TabGroup) : forall j,
  (length (List.filter (at_place g0 t0)
             (forEach_push (fun group g => forEach_push (pushTextTabs group g) 0%nat
                                                        (vscode.tabs group)) j groups))
   <= 1)%nat.
Proof.
  induction groups as [|group rest IH]; intros j; simpl; [lia|].
  rewrite List.filter_app, length_app.
  destruct (Nat.eq_dec g0 j) as [->|Hne].
  - rewrite (filter_nothing _ (forEach_push _ (S j) rest)).
    + rewrite Nat.add_0_r. apply group_tabs_once.
    + intros c Hc%groups_place. unfold at_place.
      destruct (Nat.eqb_spec j (Collected.groupIndex c)); [lia|reflexivity].
  - rewrite (filter_nothing _ (forEach_push (pushTextTabs group j) 0%nat _)).
    + simpl. apply IH.
    + intros c [Hc _]%group_tabs_place. unfold at_place.
      destruct (Nat.eqb_spec g0 (Collected.groupIndex c)); [lia|reflexivity].
Qed.

Lemma collectTextTabs_once w g0 t0 :
  (length (List.filter (at_place g0 t0) (collectTextTabs w)) <= 1)%nat.
Proof. apply groups_once. Qed.

Lemma filter_map_length {A B} (f : A -> B) (p : B -> bool) l :
  length (List.filter p (map f l)) = length (List.filter (fun x => p (f x)) l).
Proof.
  induction l as [|x l IH]; simpl; [reflexivity|].
  destruct (p (f x)); simpl; now rewrite IH.
Qed.

(** * Loading a session file *)



(** C5.  When the file parses to a JSON object with a [tabs] array,
    [readSessionFile] answers a session document with those tabs, warns
    about nothing and changes nothing; its version is the [version] of the
    file when that is a number and [1] otherwise (absent, or of another
    type); and the restore goes on with the tabs whatever the version. *)
Theorem readSessionFile_version_default (filePath : string) (w : World)
        (props : list (string * json)) (items : list json) :
  disk_lookup filePath (disk w) = Some (File (JsonText (JObj props))) ->
  prop_lookup "tabs" props = Some (JArr items) ->
  let run := readSessionFile filePath w in
  effects run = []
  /\ final run = w
  /\ (exists data,
        result run = Ok (Some data)
        /\ tabs data = items
        /\ (forall n, prop_lookup "version" props = Some (JNum n) -> version data = n)
        /\ ((forall n, prop_lookup "version" props <> Some (JNum n)) -> version data = 1))
  /\ (forall entry sessionTabs,
        fullPath entry = filePath ->
        tabs_of_json items = Some sessionTabs ->
        sessionTabs <> [] ->
        restoreSessionFromEntry entry w = restoreTabs entry sessionTabs w).
Proof.
  intros Hd Ht. cbv zeta.
  assert (Hrun : readSessionFile filePath w =
                 (Ok (Some {| version := match prop_lookup "version" props with
                                         | Some (JNum n) => n
                                         | _ => 1
                                         end;
                              tabs := items |}), w, [])).
  { unfold readSessionFile, try_catch, bind, readFile. rewrite Hd. simpl.
    unfold tabs_array, get_prop. now rewrite Ht. }
  rewrite Hrun. repeat split.
  - eexists. split; [reflexivity|]. split; [reflexivity|]. simpl. split.
    + now intros n ->.
    + intros Hn. destruct (prop_lookup "version" props) as [[]|]; try reflexivity.
      now elim (Hn n).
  - intros entry sessionTabs <- Hsome Hne.
    unfold restoreSessionFromEntry, bind. rewrite Hrun. simpl.
    assert (Hlen : (length items =? 0)%nat = false).
    { destruct items; [|reflexivity]. simpl in Hsome. now injection Hsome as <-. }
    rewrite Hlen, Hsome.
    now destruct (restoreTabs entry sessionTabs w) as [[r w'] evs].
Qed.

(** * Listing and deleting sessions *)

Lemma sessionEntries_perm localeCompare folder files :
  Permutation
    (map (recordOf folder) (List.filter (fun file => endsWith file ".json") files))
    (sessionEntries localeCompare folder files).
Proof. apply JsArrayFacts.sort_perm. Qed.

Lemma sessionEntries_In localeCompare folder files e :
  In e (sessionEntries localeCompare folder files) <->
  exists file, In file files /\ endsWith file ".json" = true /\ e = recordOf folder file.
Proof.
  rewrite <- (Permutation_in' (eq_refl e) (sessionEntries_perm localeCompare folder files)).
  rewrite in_map_iff. split.
  - intros (file & <- & [Hin Hends]%filter_In). now exists file.
  - intros (file & Hin & Hends & ->). exists file. split; [reflexivity|].
    now apply filter_In.
Qed.

Lemma disk_names_In folder d file :
  In file (disk_names folder d) <->
  no_slash file = true /\ exists node, In (path_join folder file, node) d.
Proof.
  unfold disk_names. rewrite in_flat_map. split.
  - intros ([p node] & Hin & Hname). unfold entry_name in Hname.
    destruct (path_split p) as [[dir b]|] eqn:Hs; [|destruct Hname].
    destruct (String.eqb_spec dir folder) as [->|_]; [|destruct Hname].
    destruct Hname as [<-|[]]. apply path_split_inv in Hs as [-> Hb].
    split; [exact Hb|]. now exists node.
  - intros (Hfile & node & Hin). exists (path_join folder file, node).
    split; [exact Hin|]. unfold entry_name.
    rewrite (path_split_join _ _ Hfile), String.eqb_refl. now left.
Qed.

Lemma disk_remove_In p d q node :
  In (q, node) (disk_remove p d) <-> In (q, node) d /\ q <> p.
Proof.
  unfold disk_remove. rewrite filter_In, negb_true_iff, String.eqb_neq. reflexivity.
Qed.

Lemma disk_lookup_remove p d q :
  disk_lookup q (disk_remove p d) = if String.eqb q p then None else disk_lookup q d.
Proof.
  induction d as [|[r node] d IH]; simpl.
  - now destruct (String.eqb q p).
  - destruct (String.eqb_spec r p) as [->|Hrp]; simpl.
    + rewrite IH. rewrite (String.eqb_sym p q).
      now destruct (String.eqb_spec q p).
    + rewrite IH. destruct (String.eqb_spec r q) as [->|Hrq]; [|reflexivity].
      destruct (String.eqb_spec q p); [contradiction|reflexivity].
Qed.

Lemma disk_with_answers a w : disk (with_answers a w) = disk w.
Proof. reflexivity. Qed.

Lemma deleteSessionEntry_confirmed entry w :
  hd None (answers w) = Some "Delete" ->
  deleteSessionEntry entry w =
  let w1 := with_answers (tl (answers w)) w in
  let ask := ShowModalWarning ("Delete session " +:+ quoted (name entry) +:+ "?")
                              ["Delete"] in
  let told := [ShowInformationMessage ("Deleted session " +:+ quoted (name entry) +:+ ".");
               RefreshTree] in
  match disk_lookup (fullPath entry) (disk w) with
  | Some (File _) =>
      (Ok tt, with_disk (disk_remove (fullPath entry) (disk w)) w1,
       ask :: Unlink (fullPath entry) :: told)
  | Some Directory => (Threw "EISDIR", w1, [ask; Unlink (fullPath entry)])
  | None => (Ok tt, w1, ask :: told)
  end.
Proof.
  intros Hans.
  unfold deleteSessionEntry, bind, showModalWarning, prompt_user, get_world,
    showInformationMessage, refresh, emit, ret.
  rewrite Hans. simpl. unfold existsSync, unlink. rewrite !disk_with_answers.
  destruct (disk_lookup (fullPath entry) (disk w)) as [[text|]|] eqn:Hd;
    cbv beta; rewrite ?disk_with_answers, ?Hd; reflexivity.
Qed.

Lemma listSessions_directory localeCompare options w f w1 t1 :
  resolveSessionDirectory options w = (Ok (Some f), w1, t1) ->
  f <> "" ->
  disk_lookup f (disk w1) = Some Directory ->
  listSessions localeCompare options w =
  (Ok {| entries := listed localeCompare f w1; folder := Some f |}, w1, t1).
Proof.
  intros Hres Hf Hdir. unfold listSessions, bind, get_world, ret, readdir, existsSync.
  rewrite Hres. simpl. rewrite Hdir.
  destruct (String.eqb_spec f "") as [->|_]; [contradiction|]. simpl.
  rewrite ?Hdir. simpl. rewrite ?app_nil_r. reflexivity.
Qed.

Lemma listSessions_nothing localeCompare options w fo w1 t1 :
  resolveSessionDirectory options w = (Ok fo, w1, t1) ->
  truthy fo = false \/ (exists f, fo = Some f /\ existsSync f w1 = false) ->
  listSessions localeCompare options w = (Ok {| entries := []; folder := fo |}, w1, t1).
Proof.
  intros Hres Hno. unfold listSessions, bind, get_world, ret.
  rewrite Hres. simpl.
  destruct fo as [f|]; [|rewrite ?app_nil_r; reflexivity].
  destruct Hno as [Hno|(f' & [= <-] & Hno)]; rewrite Hno; simpl;
    rewrite ?orb_true_r; simpl; rewrite ?app_nil_r; reflexivity.
Qed.

(** C9.  For a session directory that resolves and is a directory of the
    disk, [listSessions] answers one record for each entry of the
    directory whose name ends in [.json] and no other, the name of a
    record being the file name without that ending and its path the file
    in the directory, sorted by the collation of the host on the names,
    which ignores case.  When the directory does not resolve or is not on
    the disk, it answers the empty list, not an error.  (The collation is
    taken to be a total preorder that ignores case.) *)
Theorem listSessions_lists_json_files (localeCompare : string -> string -> Z)
        (options : ResolveOptions) (w : World)
        (fo : option string) (w1 : World) (t1 : list Effect) :
  (forall a b, localeCompare a b <= 0 \/ localeCompare b a <= 0) ->
  (forall a b c, localeCompare a b <= 0 -> localeCompare b c <= 0 -> localeCompare a c <= 0) ->
  (forall a b, localeCompare a b = localeCompare (lowercase a) (lowercase b)) ->
  resolveSessionDirectory options w = (Ok fo, w1, t1) ->
  let run := listSessions localeCompare options w in
  (forall f, fo = Some f -> f <> "" -> disk_lookup f (disk w1) = Some Directory ->
     let names := disk_names f (disk w1) in
     run = (Ok {| entries := listed localeCompare f w1; folder := fo |}, w1, t1)
     /\ Permutation
          (map (recordOf f) (List.filter (fun file => endsWith file ".json") names))
          (listed localeCompare f w1)
     /\ (forall e, In e (listed localeCompare f w1) <->
                   exists file, In file names /\ endsWith file ".json" = true
                                /\ e = recordOf f file)
     /\ (forall file, In file names -> endsWith file ".json" = true ->
                      name (recordOf f file) +:+ ".json" = file
                      /\ fullPath (recordOf f file) = path_join f file)
     /\ StronglySorted
          (fun a b => localeCompare (lowercase (name a)) (lowercase (name b)) <= 0)
          (listed localeCompare f w1))
  /\ (truthy fo = false \/ (exists f, fo = Some f /\ existsSync f w1 = false) ->
      run = (Ok {| entries := []; folder := fo |}, w1, t1)).
Proof.
  intros Htotal Htrans Hcase Hres. cbv zeta. split.
  - intros f -> Hf Hdir.
    split; [now apply listSessions_directory|].
    split; [apply sessionEntries_perm|].
    split; [intros e; apply sessionEntries_In|].
    split.
    + intros file [Hslash _]%disk_names_In Hends. split; [|reflexivity].
      now apply path_basename_ext.
    + unfold listed, sessionEntries.
      assert (H := JsArrayFacts.sort_sorted
                     (fun a b => localeCompare (name a) (name b))
                     (fun a b => Htotal (name a) (name b))
                     (fun a b c => Htrans (name a) (name b) (name c))
                     (map (recordOf f)
                          (List.filter (fun file => endsWith file ".json")
                                       (disk_names f (disk w1))))).
      induction H as [|x l Hl IH Hx]; constructor; [exact IH|].
      eapply List.Forall_impl; [|exact Hx]. intros y Hy.
      unfold JsArray.before in Hy. now rewrite <- Hcase.
  - now apply listSessions_nothing.
Qed.

(** A command called with the record of a file that is on the disk (as
    the tree view calls it) goes straight to that entry. *)
Lemma chooseEntry_record localeCompare record placeHolder w :
  existsSync (fullPath record) w = true ->
  chooseEntry localeCompare (Some (inl record)) placeHolder w = (Ok (Some record), w, []).
Proof.
  intros Hex. unfold chooseEntry, entryFromArgument, bind, get_world.
  cbv beta iota zeta. now rewrite Hex.
Qed.

Lemma deleteSession_record localeCompare record w :
  existsSync (fullPath record) w = true ->
  deleteSession localeCompare (Some (inl record)) w = deleteSessionEntry record w.
Proof.
  intros Hex. unfold deleteSession, bind.
  rewrite (chooseEntry_record _ _ _ _ Hex).
  now destruct (deleteSessionEntry record w) as [[r w'] evs].
Qed.

Lemma overwriteSession_record localeCompare record w :
  existsSync (fullPath record) w = true ->
  overwriteSession localeCompare (Some (inl record)) w = overwriteSessionEntry record w.
Proof.
  intros Hex. unfold overwriteSession, bind.
  rewrite (chooseEntry_record _ _ _ _ Hex).
  now destruct (overwriteSessionEntry record w) as [[r w'] evs].
Qed.


(** C8.  When the user confirms the deletion of a listed session whose
    file is on the disk, [deleteSession] removes that path from the disk
    and nothing else: every other path keeps its content; the directory
    listed afterwards no longer has the name of the deleted session, still
    has every other record it had, and has no new one.  (The command
    called with the record, as the tree view calls it, is the run from the
    confirmation on.) *)
Theorem delete_removes_exactly_that_file (localeCompare : string -> string -> Z)
        (folder : string) (entry : SessionFileRecord) (w : World) :
  In entry (listed localeCompare folder w) ->
  is_file (disk w) (fullPath entry) = true ->
  hd None (answers w) = Some "Delete" ->
  let run := deleteSessionEntry entry w in
  deleteSession localeCompare (Some (inl entry)) w = run
  /\ result run = Ok tt
  /\ disk (final run) = disk_remove (fullPath entry) (disk w)
  /\ disk_lookup (fullPath entry) (disk (final run)) = None
  /\ (forall p, p <> fullPath entry ->
                disk_lookup p (disk (final run)) = disk_lookup p (disk w))
  /\ ~ In (name entry) (map name (listed localeCompare folder (final run)))
  /\ (forall e, In e (listed localeCompare folder w) -> name e <> name entry ->
                In e (listed localeCompare folder (final run)))
  /\ (forall e, In e (listed localeCompare folder (final run)) ->
                In e (listed localeCompare folder w)).
Proof.
  intros Hlisted Hfile Hans. cbv zeta.
  split.
  { apply deleteSession_record. unfold existsSync, is_file in *.
    now destruct (disk_lookup (fullPath entry) (disk w)). }
  rewrite (deleteSessionEntry_confirmed entry w Hans). cbv zeta.
  unfold is_file in Hfile.
  destruct (disk_lookup (fullPath entry) (disk w)) as [[text|]|]; try discriminate.
  unfold result, final. simpl fst. simpl snd.
  change (disk (with_disk ?d _)) with d.
  apply sessionEntries_In in Hlisted as (file & Hfin & Hends & ->).
  apply disk_names_In in Hfin as [Hslash [node Hnode]].
  assert (Hafter : forall e,
             In e (sessionEntries localeCompare folder
                     (disk_names folder (disk_remove (path_join folder file) (disk w)))) <->
             exists f, In f (disk_names folder (disk w)) /\ endsWith f ".json" = true
                       /\ e = recordOf folder f /\ f <> file).
  { intros e. rewrite sessionEntries_In. split.
    - intros (f & Hf & Hfe & ->). exists f.
      apply disk_names_In in Hf as [Hfs [n Hn]].
      apply disk_remove_In in Hn as [Hn Hne].
      repeat split; try assumption.
      + apply disk_names_In. split; [exact Hfs|now exists n].
      + intros ->. now apply Hne.
    - intros (f & Hf & Hfe & -> & Hne). exists f. split; [|now split].
      apply disk_names_In in Hf as [Hfs [n Hn]].
      apply disk_names_In. split; [exact Hfs|]. exists n.
      apply disk_remove_In. split; [exact Hn|].
      intros Heq. apply Hne. now apply path_join_inj in Heq. }
  repeat split.
  - rewrite disk_lookup_remove. now rewrite String.eqb_refl.
  - intros p Hp. rewrite disk_lookup_remove.
    destruct (String.eqb_spec p (fullPath (recordOf folder file)));
      [contradiction|reflexivity].
  - intros [e [Hname He]]%in_map_iff.
    unfold listed in He. simpl in He.
    apply Hafter in He as (f & Hf & Hfe & -> & Hne). apply Hne.
    apply disk_names_In in Hf as [Hfs _]. simpl in Hname.
    rewrite <- (path_basename_ext f ".json" Hfs Hfe),
            <- (path_basename_ext file ".json" Hslash Hends).
    now rewrite Hname.
  - intros e He Hne. unfold listed in *. simpl.
    apply sessionEntries_In in He as (f & Hf & Hfe & ->).
    apply Hafter. exists f. repeat split; try assumption.
    intros ->. now apply Hne.
  - intros e He. unfold listed in *. simpl in He.
    apply Hafter in He as (f & Hf & Hfe & -> & _).
    apply sessionEntries_In. now exists f.
Qed.

(** C10.  When the file of the chosen session is not on the disk as the
    user confirms, [deleteSession] does not reject and shows no error: it
    makes no [unlink] call, reports the session deleted, refreshes the
    tree, and leaves the disk as it was. *)
Theorem delete_of_missing_file_is_silent (entry : SessionFileRecord) (w : World) :
  existsSync (fullPath entry) w = false ->
  hd None (answers w) = Some "Delete" ->
  let run := deleteSessionEntry entry w in
  result run = Ok tt
  /\ effects run =
     [ShowModalWarning ("Delete session " +:+ quoted (name entry) +:+ "?") ["Delete"];
      ShowInformationMessage ("Deleted session " +:+ quoted (name entry) +:+ ".");
      RefreshTree]
  /\ (forall e, In e (effects run) -> writes_disk e = false)
  /\ disk (final run) = disk w.
Proof.
  intros Hmissing Hans. cbv zeta.
  rewrite (deleteSessionEntry_confirmed entry w Hans). cbv zeta.
  unfold existsSync in Hmissing.
  destruct (disk_lookup (fullPath entry) (disk w)); [discriminate|].
  unfold result, effects, final. simpl. repeat split.
  intros e [<-|[<-|[<-|[]]]]; reflexivity.
Qed.

(** * Saving *)

Lemma snapshot_with_answers a w :
  createSessionSnapshot (with_answers a w) = createSessionSnapshot w.
Proof. reflexivity. Qed.

Lemma snapshot_after_saveAll w :
  createSessionSnapshot (final (saveAll w)) = createSessionSnapshot w.
Proof. reflexivity. Qed.

Lemma is_choice_false choice item : is_choice choice item = false <-> choice <> Some item.
Proof.
  rewrite <- is_choice_Some. destruct (is_choice choice item); split; congruence.
Qed.

(** The three ways the prompt about unsaved files can go. *)
Lemma confirmUnsaved_cases w :
  let w0 := with_answers (tl (answers w)) w in
  (unsavedDocs w = [] /\ confirmUnsaved w = (Ok true, w, []))
  \/ (unsavedDocs w <> []
      /\ ((hd None (answers w) = Some "💾 Save and Continue"
           /\ confirmUnsaved w = (Ok true, final (saveAll w0), [unsavedQuestion w; SaveAll]))
          \/ (hd None (answers w) = Some "Cancel"
              /\ confirmUnsaved w = (Ok false, w0, [unsavedQuestion w]))
          \/ (hd None (answers w) <> Some "💾 Save and Continue"
              /\ hd None (answers w) <> Some "Cancel"
              /\ confirmUnsaved w = (Ok true, w0, [unsavedQuestion w])))).
Proof.
  cbv zeta. unfold confirmUnsaved, bind, get_world, prompt_user.
  destruct (unsavedDocs w) as [|doc docs] eqn:Hdocs; [left; now split|].
  right. split; [discriminate|].
  change ((0 <? length (doc :: docs))%nat) with true. cbv beta iota.
  destruct (is_choice (hd None (answers w)) "💾 Save and Continue") eqn:Hsave.
  - left. apply is_choice_Some in Hsave. now split.
  - right. destruct (is_choice (hd None (answers w)) "Cancel") eqn:Hcancel.
    + left. apply is_choice_Some in Hcancel. now split.
    + right. apply is_choice_false in Hsave, Hcancel. now repeat split.
Qed.




Lemma last_snoc_effect (evs : list Effect) e : last (evs ++ [e]) = Some e.
Proof. apply last_snoc. Qed.




Lemma sessionNameOrTimestamp_default a w :
  a = None \/ a = Some "" -> sessionNameOrTimestamp a w = timestampedName w.
Proof. now intros [->| ->]. Qed.

(** [saveSession] from the answer to the name prompt on. *)
Lemma saveSession_answered a rest w :
  saveSession (with_answers (a :: rest) w) =
  let w0 := with_answers rest w in
  let sessionName := sessionNameOrTimestamp a w in
  let snapshot := createSessionSnapshot w in
  let '(r, w', evs) :=
    (if (length (tabs snapshot) =? 0)%nat then
       showInformationMessage "No supported tabs to save."
     else
       sessionFolder <- resolveSessionDirectory {| promptUser := Some true;
                                                   showWarning := Some true;
                                                   ensureExists := Some true |} ;;
       match sessionFolder with
       | Some f =>
           if negb (truthy sessionFolder) then ret tt
           else
             writeFile (path_join f (sessionName +:+ ".json")) (JSON_stringify snapshot) ;;
             showInformationMessage (savedMessage sessionName snapshot) ;;
             refresh
       | None => ret tt
       end) w0 in
  (r, w',
   ShowInputBox "Enter a name for this session" "Leave empty to use a timestamped name"
   :: evs).
Proof.
  unfold saveSession, bind at 1 2, showInputBox, prompt_user, get_world.
  cbv beta iota zeta. simpl hd. simpl tl. rewrite with_answers_twice.
  change (sessionNameOrTimestamp a (with_answers rest w))
    with (sessionNameOrTimestamp a w).
  rewrite snapshot_with_answers.
  now destruct (_ (with_answers rest w)) as [[r w'] evs].
Qed.

Lemma saveBeforeSwitch_confirmed w proceed w1 evs :
  confirmUnsaved w = (Ok proceed, w1, evs) ->
  saveBeforeSwitch w =
  if proceed then
    if (length (tabs (createSessionSnapshot w1)) =? 0)%nat
    then (Ok false, w1, evs ++ [nothingToSave])
    else let '(r, w2, t2) := nameAndWrite (createSessionSnapshot w1) w1 in
         (r, w2, evs ++ t2)
  else (Ok false, w1, evs).
Proof.
  intros Hconfirm. unfold saveBeforeSwitch, bind at 1. rewrite Hconfirm.
  destruct proceed; cbv beta iota zeta delta [negb].
  - unfold bind at 1, get_world. cbv beta iota zeta.
    destruct (length (tabs (createSessionSnapshot w1)) =? 0)%nat; [reflexivity|].
    unfold nameAndWrite.
    now destruct (bind _ _ w1) as [[r w2] t2].
  - unfold ret. now rewrite app_nil_r.
Qed.

Lemma nameAndWrite_answered snapshot w :
  nameAndWrite snapshot w =
  let sessionName := sessionNameOrTimestamp (hd None (answers w)) w in
  let '(r, w', evs) :=
    (sessionFolder <- resolveSessionDirectory {| promptUser := Some true;
                                                 showWarning := Some true;
                                                 ensureExists := Some true |} ;;
     match sessionFolder with
     | Some f =>
         if negb (truthy sessionFolder) then ret false
         else
           writeFile (path_join f (sessionName +:+ ".json")) (JSON_stringify snapshot) ;;
           showInformationMessage (savedMessage sessionName snapshot) ;;
           refresh ;;
           ret true
     | None => ret false
     end) (with_answers (tl (answers w)) w) in
  (r, w',
   ShowInputBox "Enter a name to save your current session"
                "Leave empty to use a timestamped name"
   :: evs).
Proof.
  unfold nameAndWrite, bind at 1 2, showInputBox, prompt_user, get_world.
  cbv beta iota zeta.
  change (sessionNameOrTimestamp (hd None (answers w)) (with_answers _ w))
    with (sessionNameOrTimestamp (hd None (answers w)) w).
  now destruct (bind _ _ (with_answers (tl (answers w)) w)) as [[r w'] evs].
Qed.

Lemma nameAndWrite_default snapshot w :
  hd None (answers w) = None \/ hd None (answers w) = Some "" ->
  nameAndWrite snapshot w =
  nameAndWrite snapshot (with_answers (Some (timestampedName w) :: tl (answers w)) w).
Proof.
  intros Ha. rewrite !nameAndWrite_answered. cbv zeta.
  simpl hd. simpl tl. rewrite with_answers_twice.
  change (sessionNameOrTimestamp (Some (timestampedName w)) (with_answers _ w))
    with (timestampedName w).
  now rewrite (sessionNameOrTimestamp_default _ w Ha).
Qed.

(** * The sample collation is one *)

Lemma lower_lower c : lower (lower c) = lower c.
Proof. destruct c as [[] [] [] [] [] [] [] []]; reflexivity. Qed.

Lemma lowercase_lowercase s : lowercase (lowercase s) = lowercase s.
Proof. induction s as [|c s IH]; simpl; [reflexivity|]. now rewrite lower_lower, IH. Qed.

Lemma sample_collation_ignores_case a b :
  Sample.localeCompare a b = Sample.localeCompare (lowercase a) (lowercase b).
Proof. unfold Sample.localeCompare. now rewrite !lowercase_lowercase. Qed.

Lemma sample_collation_total a b :
  Sample.localeCompare a b <= 0 \/ Sample.localeCompare b a <= 0.
Proof.
  unfold Sample.localeCompare.
  rewrite (String.compare_antisym (lowercase b) (lowercase a)).
  destruct (String.compare (lowercase a) (lowercase b)); simpl; lia.
Qed.

Lemma sample_collation_trans a b c :
  Sample.localeCompare a b <= 0 -> Sample.localeCompare b c <= 0 ->
  Sample.localeCompare a c <= 0.
Proof.
  unfold Sample.localeCompare.
  destruct (String.compare (lowercase a) (lowercase b)) eqn:Hab; cbv iota; [| |lia];
    destruct (String.compare (lowercase b) (lowercase c)) eqn:Hbc; cbv iota;
    try lia; intros _ _.
  - apply String.compare_eq_iff in Hab, Hbc. rewrite Hab, Hbc.
    change String.compare with String_as_OT.cmp.
    rewrite (proj2 (String_as_OT.cmp_eq _ _) eq_refl). lia.
  - apply String.compare_eq_iff in Hab. rewrite Hab, Hbc. lia.
  - apply String.compare_eq_iff in Hbc. rewrite <- Hbc, Hab. lia.
  - apply String_as_OT.cmp_lt in Hab, Hbc.
    change String.compare with String_as_OT.cmp.
    rewrite (proj2 (String_as_OT.cmp_lt _ _) (String_as_OT.lt_trans _ _ _ Hab Hbc)). lia.
Qed.

(** * The theorems at the sample worlds *)

(** The session [gamma] restored in the sample world, the user closing
    the one tab outside it: the documents are opened in replay order, then
    the last marked one again. *)
Lemma restore_replay_order_witness :
  let w := with_answers [Some "Close Tab"] Sample.world in
  stores w (fullPath Sample.gamma) {| version := 2; tabs := Sample.three |}
  /\ Sample.three <> []
  /\ forallb parses Sample.three = true
  /\ result (restoreSessionFromEntry Sample.gamma w) = Ok tt
  /\ map Some (opened_documents (effects (restoreSessionFromEntry Sample.gamma w)))
     = map (fun p => Some (Sample.file_uri p)) ["/p/a.ts"; "/p/b.ts"; "/p/d.ts"; "/p/d.ts"].
Proof.
  cbv zeta. split; [reflexivity|]. split; [discriminate|]. split; [reflexivity|].
  destruct (proj1 (proj2 (proj2 (proj2 (proj2 (restore_replay_order Sample.three)))))
              Sample.gamma 2 (with_answers [Some "Close Tab"] Sample.world))
    as [Hparses _]; [reflexivity|discriminate|reflexivity|].
  destruct (Hparses eq_refl) as [Hr Ho]. split; [exact Hr|].
  rewrite Ho. reflexivity.
Defined.


Lemma readSessionFile_version_default_witness :
  disk_lookup "/g/sessions/old.json" (disk Sample.world)
  = Some (File (JsonText Sample.old_format))
  /\ get_prop "tabs" Sample.old_format
     = Some (JArr [json_of_tab (Sample.one_tab "file:///p/a.ts")])
  /\ exists data,
       result (readSessionFile "/g/sessions/old.json" Sample.world) = Ok (Some data)
       /\ version data = 1.
Proof.
  split; [reflexivity|]. split; [reflexivity|].
  destruct (readSessionFile_version_default "/g/sessions/old.json" Sample.world
              [("tabs", JArr [json_of_tab (Sample.one_tab "file:///p/a.ts")])]
              [json_of_tab (Sample.one_tab "file:///p/a.ts")]
              eq_refl eq_refl)
    as (_ & _ & (data & Hr & _ & _ & Hv) & _).
  exists data. split; [exact Hr|]. apply Hv. intros n Hn. discriminate Hn.
Defined.

Lemma restore_asks_before_closing_witness :
  let w := with_answers [Some "Cancel Restore"] Sample.world in
  stores w (fullPath Sample.gamma) {| version := 2; tabs := Sample.three |}
  /\ Sample.three <> []
  /\ effects (restoreSessionFromEntry Sample.gamma w)
     = [closeTabPrompt Sample.gamma Sample.c_tab;
        ShowInformationMessage "Session restore canceled."]
  /\ final (restoreSessionFromEntry Sample.gamma w) = Sample.world.
Proof.
  cbv zeta. split; [reflexivity|]. split; [discriminate|].
  destruct (restore_asks_before_closing Sample.gamma {| version := 2; tabs := Sample.three |}
              (with_answers [Some "Cancel Restore"] Sample.world) eq_refl)
    as (_ & _ & Hcancel); [discriminate|].
  destruct (Hcancel 0%nat Sample.c_tab) as (_ & He & Hw & _);
    [reflexivity|reflexivity|discriminate|].
  split; [exact He|exact Hw].
Defined.

Lemma delete_removes_exactly_that_file_witness :
  let w := with_answers [Some "Delete"] Sample.world in
  In Sample.beta (listed Sample.localeCompare "/g/sessions" w)
  /\ is_file (disk w) (fullPath Sample.beta) = true
  /\ hd None (answers w) = Some "Delete"
  /\ disk (final (deleteSessionEntry Sample.beta w))
     = disk_remove "/g/sessions/Beta.json" (disk Sample.world)
  /\ ~ In "Beta" (map name (listed Sample.localeCompare "/g/sessions"
                                   (final (deleteSessionEntry Sample.beta w)))).
Proof.
  cbv zeta.
  assert (Hin : In Sample.beta
                   (listed Sample.localeCompare "/g/sessions"
                           (with_answers [Some "Delete"] Sample.world))).
  { vm_compute. tauto. }
  split; [exact Hin|]. split; [reflexivity|]. split; [reflexivity|].
  destruct (delete_removes_exactly_that_file Sample.localeCompare "/g/sessions" Sample.beta
              (with_answers [Some "Delete"] Sample.world) Hin eq_refl eq_refl)
    as (_ & _ & Hd & _ & _ & Hname & _).
  split; [exact Hd|exact Hname].
Defined.

Lemma listSessions_lists_json_files_witness :
  let options := {| promptUser := Some false; showWarning := Some true;
                    ensureExists := None |} in
  resolveSessionDirectory options Sample.world = (Ok (Some "/g/sessions"), Sample.world, [])
  /\ disk_lookup "/g/sessions" (disk Sample.world) = Some Directory
  /\ result (listSessions Sample.localeCompare options Sample.world)
     = Ok {| entries := listed Sample.localeCompare "/g/sessions" Sample.world;
             folder := Some "/g/sessions" |}
  /\ map name (listed Sample.localeCompare "/g/sessions" Sample.world)
     = ["alpha"; "Beta"; "gamma"; "old"].
Proof.
  cbv zeta. split; [reflexivity|]. split; [reflexivity|].
  destruct (listSessions_lists_json_files Sample.localeCompare
              {| promptUser := Some false; showWarning := Some true; ensureExists := None |}
              Sample.world (Some "/g/sessions") Sample.world []
              sample_collation_total sample_collation_trans sample_collation_ignores_case
              eq_refl) as [Hdir _].
  destruct (Hdir "/g/sessions" eq_refl) as (Hrun & _); [discriminate|reflexivity|].
  split; [now rewrite Hrun|reflexivity].
Defined.

Lemma delete_of_missing_file_is_silent_witness :
  let w := with_answers [Some "Delete"] Sample.world in
  existsSync (fullPath Sample.gone) w = false
  /\ hd None (answers w) = Some "Delete"
  /\ result (deleteSessionEntry Sample.gone w) = Ok tt
  /\ disk (final (deleteSessionEntry Sample.gone w)) = disk Sample.world.
Proof.
  cbv zeta. split; [reflexivity|]. split; [reflexivity|].
  destruct (delete_of_missing_file_is_silent Sample.gone
              (with_answers [Some "Delete"] Sample.world) eq_refl eq_refl)
    as (Hr & _ & _ & Hd).
  split; [exact Hr|exact Hd].
Defined.

(** * Further properties: settings and cursor tracking *)

(** X1.  Where [updateConfigValue] writes.  The target
    [getConfigurationTarget] picks is the most specific scope that defines
    the key already: the workspace folder when it has a value, otherwise
    the workspace when that has one, otherwise the user settings, which
    are also the target when no scope has a value or the key cannot be
    inspected.  Written there, the value is the one [get] answers
    afterwards: no more specific scope hides it; and the other scopes keep
    what they had. *)
Theorem written_setting_is_the_effective_one {T} (value : T) (i : Inspect T) :
  let target := getConfigurationTarget (Some i) in
  (target = ConfigurationTarget.WorkspaceFolder <-> workspaceFolderValue i <> None)
  /\ (target = ConfigurationTarget.Workspace <->
      workspaceFolderValue i = None /\ workspaceValue i <> None)
  /\ (target = ConfigurationTarget.Global <->
      workspaceFolderValue i = None /\ workspaceValue i = None)
  /\ config_get (updateConfigValue_scoped value i) = Some value
  /\ scopeValue target (updateConfigValue_scoped value i) = Some value
  /\ (forall other, other <> target ->
        scopeValue other (updateConfigValue_scoped value i) = scopeValue other i)
  /\ getConfigurationTarget (@None (Inspect T)) = ConfigurationTarget.Global.
Proof.
  destruct i as [d [g|] [ws|] [wf|]]; cbn;
    (split; [split; [intros; congruence|intros; try reflexivity; tauto]|]);
    (split; [split; [intros; split; congruence|intros []; try reflexivity; congruence]|]);
    (split; [split; [intros; split; congruence|intros []; try reflexivity; congruence]|]);
    repeat split; try reflexivity;
    intros [] H; try reflexivity; now elim H.
Qed.

Lemma snapshot_with_cursors m w :
  tabs (createSessionSnapshot (with_cursors m w)) =
  map (fun d => with_cursor (m !! uri d) d) (tabs (createSessionSnapshot w)).
Proof.
  unfold createSessionSnapshot. cbn [tabs]. rewrite map_map. reflexivity.
Qed.

Lemma seeded_lookup key (editors : list TextEditor) : forall positions,
  fold_left (fun positions editor => setCursorOf editor positions) editors positions !! key =
  match last (List.filter (fun e => String.eqb (vscode.toString (document e)) key) editors) with
  | Some e => Some (selection_active e)
  | None => positions !! key
  end.
Proof.
  induction editors as [|e l IH]; intros positions; [reflexivity|].
  cbn [fold_left List.filter]. rewrite IH.
  destruct (String.eqb_spec (vscode.toString (document e)) key) as [Hk|Hk].
  - destruct (List.filter _ l) as [|e' l'] eqn:Hf.
    + cbn. unfold setCursorOf. rewrite Hk, lookup_insert_eq. now rewrite cursor_eta.
    + rewrite (last_cons e (e' :: l')), (last_cons e' l').
      now destruct (last l').
  - destruct (last _); [reflexivity|].
    unfold setCursorOf. now rewrite lookup_insert_ne.
Qed.

Lemma with_cursor_same d : with_cursor (cursor d) d = d.
Proof. now destruct d. Qed.

Lemma snapshot_cursor w d :
  In d (tabs (createSessionSnapshot w)) ->
  cursor d = lastKnownCursorPositions w !! uri d.
Proof.
  unfold createSessionSnapshot. cbn [tabs]. now intros [c [<- _]]%in_map_iff.
Qed.

(** X2.  The cursor tracking and the snapshot.  An event of the editor
    changes nothing but the map of cursor positions, so the snapshot
    taken after it has the same descriptors at the same places, but for
    their cursors: after a change of selection the descriptors of that
    editor's document carry its position; after the closing of a document
    its descriptors carry no cursor; after a change of the visible editors
    (and after the seeding at activation) a descriptor carries the
    position of the last visible editor that shows its document; every
    other descriptor is as it was. *)
Theorem tracked_cursor_is_saved (w : World) (k : nat) (d : SavedTabState) :
  nth_error (tabs (createSessionSnapshot w)) k = Some d ->
  let after event :=
    nth_error (tabs (createSessionSnapshot (final (cursorTracking event w)))) k in
  let shows (e : TextEditor) := String.eqb (vscode.toString (document e)) (uri d) in
  (forall textEditor,
     after (DidChangeTextEditorSelection textEditor)
     = Some (if shows textEditor
             then with_cursor (Some (selection_active textEditor)) d else d))
  /\ (forall doc,
        after (DidCloseTextDocument doc)
        = Some (if String.eqb (vscode.toString doc) (uri d)
                then with_cursor None d else d))
  /\ (forall visibleTextEditors,
        after (DidChangeVisibleTextEditors visibleTextEditors)
        = Some (match last (List.filter shows visibleTextEditors) with
                | Some e => with_cursor (Some (selection_active e)) d
                | None => d
                end)
        /\ initializeCursorTracking visibleTextEditors w
           = cursorTracking (DidChangeVisibleTextEditors visibleTextEditors) w)
  /\ (forall event,
        result (cursorTracking event w) = Ok tt
        /\ effects (cursorTracking event w) = []
        /\ disk (final (cursorTracking event w)) = disk w).
Proof.
  intros Hd. cbv zeta.
  assert (Hcur : cursor d = lastKnownCursorPositions w !! uri d).
  { apply snapshot_cursor. eapply nth_error_In, Hd. }
  assert (Hafter : forall m,
             nth_error (tabs (createSessionSnapshot (with_cursors m w))) k
             = Some (with_cursor (m !! uri d) d)).
  { intros m. now rewrite snapshot_with_cursors, nth_error_map, Hd. }
  split; [|split; [|split]].
  - intros e. cbn [cursorTracking selectionListener final fst snd].
    rewrite Hafter. unfold setCursorOf.
    destruct (String.eqb_spec (vscode.toString (document e)) (uri d)) as [Hk|Hk].
    + now rewrite Hk, lookup_insert_eq, cursor_eta.
    + now rewrite lookup_insert_ne, <- Hcur, with_cursor_same.
  - intros doc. cbn [cursorTracking closeDocListener final fst snd].
    rewrite Hafter.
    destruct (String.eqb_spec (vscode.toString doc) (uri d)) as [Hk|Hk].
    + now rewrite Hk, lookup_delete_eq.
    + now rewrite lookup_delete_ne, <- Hcur, with_cursor_same.
  - intros shown. split; [|reflexivity].
    cbn [cursorTracking visibleEditorsListener seedVisibleEditors final fst snd].
    rewrite Hafter, seeded_lookup.
    destruct (last _); [reflexivity|]. now rewrite <- Hcur, with_cursor_same.
  - intros [e|shown|doc]; repeat split.
Qed.

Lemma tracked_cursor_is_saved_witness :
  let moved := {| document := Sample.file_uri "/p/a.ts";
                  selection_active := {| line := 12; character := 4 |} |} in
  let first := {| uri := "file:///p/a.ts"; groupIndex := 0; tabIndex := 0;
                  viewColumn := Some 1; isGroupActive := false; isGlobalActive := false;
                  cursor := None |} in
  nth_error (tabs (createSessionSnapshot Sample.world)) 0 = Some first
  /\ nth_error
       (tabs (createSessionSnapshot
                (final (cursorTracking (DidChangeTextEditorSelection moved) Sample.world))))
       0
     = Some (with_cursor (Some {| line := 12; character := 4 |}) first).
Proof.
  cbv zeta. split; [reflexivity|].
  exact (proj1 (tracked_cursor_is_saved Sample.world 0 _ eq_refl) _).
Defined.

(** * Further properties: the replay order and the session file *)

Lemma sort_of_sorted {A} (compareFn : A -> A -> Z) l :
  StronglySorted (JsArray.before compareFn) l -> JsArray.sort compareFn l = l.
Proof.
  induction 1 as [|x l Hl IH Hx]; [reflexivity|]. simpl. rewrite IH.
  destruct l as [|y l']; [reflexivity|]. simpl.
  inversion Hx as [|? ? Hxy _]; subst. unfold JsArray.before in Hxy.
  destruct (Z.leb_spec (compareFn x y) 0); [reflexivity|lia].
Qed.

(** X3.  Sorting the descriptors for the replay changes nothing when
    done twice, and nothing at all for a list that is in replay order
    already. *)
Theorem sortedTabs_idempotent (sessionTabs : list SavedTabState) :
  sortedTabs (sortedTabs sessionTabs) = sortedTabs sessionTabs
  /\ (StronglySorted replays_before sessionTabs -> sortedTabs sessionTabs = sessionTabs).
Proof.
  assert (H : forall l, StronglySorted replays_before l -> sortedTabs l = l).
  { intros l Hl. apply sort_of_sorted.
    apply (StronglySorted_impl replays_before); [|exact Hl].
    intros x y. apply compareTabs_before. }
  split; [|apply H]. apply H, sortedTabs_sorted.
Qed.

(** X4.  A session file whose [tabs] array is empty: the restore shows
    one warning that names the session and does nothing else; no tab is
    closed, no document opened, the world is as it was. *)
Theorem restore_of_empty_session_only_warns (entry : SessionFileRecord) (w : World)
        (props : list (string * json)) :
  disk_lookup (fullPath entry) (disk w) = Some (File (JsonText (JObj props))) ->
  prop_lookup "tabs" props = Some (JArr []) ->
  restoreSessionFromEntry entry w =
  (Ok tt, w,
   [ShowWarningMessage ("Session " +:+ quoted (name entry) +:+ " does not contain any tabs.")]).
Proof.
  intros Hfile Htabs.
  unfold restoreSessionFromEntry, readSessionFile, bind, try_catch, readFile, JSON_parse,
    tabs_array, ret, showWarningMessage, emit.
  rewrite Hfile. cbn [get_prop]. rewrite Htabs. reflexivity.
Qed.

(** * Further properties: the whole trace of a restore *)

Lemma warnings_app a b : warnings (a ++ b) = warnings a ++ warnings b.
Proof. apply flat_map_app. Qed.

Lemma warnings_closing entry outside :
  warnings (flat_map (promptedAndClosed entry) outside) = [].
Proof. induction outside as [|c l IH]; simpl; [reflexivity|exact IH]. Qed.

Lemma warnings_shownAs w preserveFocus t : warnings (shownAs w preserveFocus t) = [].
Proof.
  unfold shownAs. destruct (documentOf t); [|reflexivity].
  destruct (cannot_open w t); [reflexivity|].
  destruct (cursor t); [|reflexivity]. now destruct (illegal_cursor t).
Qed.

Lemma warnings_replayed w l :
  warnings (flat_map (replayed w) l) = map failedToOpen (List.filter (fails_to_show w) l).
Proof.
  induction l as [|t l IH]; [reflexivity|].
  cbn [flat_map List.filter]. rewrite warnings_app, IH. unfold replayed.
  rewrite warnings_app, warnings_shownAs.
  now destruct (fails_to_show w t).
Qed.

Lemma warnings_focusedAs w ga : warnings (focusedAs w ga) = [].
Proof.
  destruct ga as [t|]; [|reflexivity]. unfold focusedAs.
  rewrite warnings_app, warnings_shownAs. now destruct (fails_to_show w t).
Qed.

Lemma ConsoleError_shownAs w preserveFocus t : ~ In ConsoleError (shownAs w preserveFocus t).
Proof.
  unfold shownAs. destruct (documentOf t); [|intros []].
  destruct (cannot_open w t).
  - intros [H|[]]; discriminate.
  - destruct (cursor t); [destruct (illegal_cursor t)|]; cbn; intuition discriminate.
Qed.

Lemma ConsoleError_replayed w l : ~ In ConsoleError (flat_map (replayed w) l).
Proof.
  intros [t [_ Ht]]%in_flat_map. unfold replayed in Ht.
  apply in_app_or in Ht as [Ht|Ht]; [now apply ConsoleError_shownAs in Ht|].
  destruct (fails_to_show w t); [|destruct Ht].
  destruct Ht as [Ht|[]]. discriminate.
Qed.

Lemma ConsoleError_closing entry outside :
  ~ In ConsoleError (flat_map (promptedAndClosed entry) outside).
Proof. intros [c [H|H]]%In_closing; discriminate. Qed.

Lemma Restored_shownAs w preserveFocus t m :
  ~ In (ShowInformationMessage m) (shownAs w preserveFocus t).
Proof.
  unfold shownAs. destruct (documentOf t); [|intros []].
  destruct (cannot_open w t).
  - intros [H|[]]; discriminate.
  - destruct (cursor t); [destruct (illegal_cursor t)|]; cbn; intuition discriminate.
Qed.

Lemma Restored_replayed w l m : ~ In (ShowInformationMessage m) (flat_map (replayed w) l).
Proof.
  intros [t [_ Ht]]%in_flat_map. unfold replayed in Ht.
  apply in_app_or in Ht as [Ht|Ht]; [now apply Restored_shownAs in Ht|].
  destruct (fails_to_show w t); [|destruct Ht].
  destruct Ht as [Ht|[]]. discriminate.
Qed.

(** X5.  What stops a restore and what does not.  With the session on
    the disk and every prompt about a tab outside it answered
    [Close Tab]: when [Uri.parse] takes the [uri] of every descriptor, the
    restore never rejects; it shows one warning [Failed to open file:
    <path>] for each descriptor, in replay order, whose document the host
    rejects or whose cursor is no position (a negative line or
    character), and none else; it shows every document the host opens in
    its column without taking the focus; it logs an error (and shows no
    warning) exactly when the step that gives the focus fails; and it ends
    with the message that the session is restored.  When [Uri.parse]
    rejects a [uri], the restore rejects: the editors are closed by then,
    the descriptors before the first such one have been replayed, and
    neither the focus step nor the completion message follows.  The disk
    is untouched either way. *)
Theorem restore_goes_on_when_a_document_fails (entry : SessionFileRecord)
        (sd : SessionFileContent SavedTabState) (w : World) :
  stores w (fullPath entry) sd ->
  tabs sd <> [] ->
  (let outside := tabsOutsideSession (list_to_set (map uri (tabs sd))) (collectTextTabs w) in
   firstn (length outside) (answers w) = repeat (Some "Close Tab") (length outside)) ->
  let run := restoreSessionFromEntry entry w in
  let order := sortedTabs (tabs sd) in
  let restored :=
    ShowInformationMessage ("Restored session " +:+ quoted (name entry) +:+ ".") in
  (forallb parses (tabs sd) = true ->
   result run = Ok tt
   /\ warnings (effects run) = map failedToOpen (List.filter (fails_to_show w) order)
   /\ (forall t u, In t order -> documentOf t = Some u -> cannot_open w t = false ->
         In (ShowTextDocument u (viewColumn t) true) (effects run))
   /\ (In ConsoleError (effects run) <->
       exists t, last_global_active order = Some t /\ fails_to_show w t = true)
   /\ last (effects run) = Some restored)
  /\ (forallb parses (tabs sd) = false ->
      result run = Threw "UriError"
      /\ In (ExecuteCommand "workbench.action.closeAllEditors") (effects run)
      /\ warnings (effects run)
         = map failedToOpen (List.filter (fails_to_show w) (replayable order))
      /\ focused_documents (effects run) = []
      /\ ~ In ConsoleError (effects run)
      /\ ~ In restored (effects run))
  /\ disk (final run) = disk w.
Proof.
  intros Hs Hne Hall. cbv zeta.
  rewrite (restoreSessionFromEntry_stored entry sd w Hs Hne).
  rewrite (restoreTabs_trace entry (tabs sd) w Hall), sortedTabs_parses.
  unfold result, effects, final. cbn [fst snd].
  split; [|split; [|reflexivity]].
  - intros Hp. rewrite Hp.
    rewrite replayable_all by now rewrite sortedTabs_parses.
    split; [reflexivity|]. split; [|split; [|split]].
    + rewrite warnings_app, warnings_closing. cbn [app].
      change (warnings (?e :: ?l)) with (warnings [e] ++ warnings l).
      cbn [warnings flat_map app].
      fold (warnings (flat_map (replayed w) (sortedTabs (tabs sd))
                      ++ focusedAs w (last_global_active (sortedTabs (tabs sd)))
                      ++ [ShowInformationMessage
                            ("Restored session " +:+ quoted (name entry) +:+ ".")])).
      rewrite !warnings_app, warnings_replayed, warnings_focusedAs. cbn.
      now rewrite app_nil_r.
    + intros t u Ht Hu Hopen. apply in_or_app. right. right. apply in_or_app. left.
      apply in_flat_map. exists t. split; [exact Ht|].
      unfold replayed, shownAs. rewrite Hu, Hopen. cbn. right. now left.
    + split.
      * intros [H|H]%in_app_or; [now apply ConsoleError_closing in H|].
        destruct H as [H|H]; [discriminate|].
        apply in_app_or in H as [H|H]; [now apply ConsoleError_replayed in H|].
        apply in_app_or in H as [H|H].
        -- destruct (last_global_active (sortedTabs (tabs sd))) as [t|]; [|destruct H].
           exists t. split; [reflexivity|]. unfold focusedAs in H.
           apply in_app_or in H as [H|H]; [now apply ConsoleError_shownAs in H|].
           now destruct (fails_to_show w t).
        -- destruct H as [H|[]]. discriminate.
      * intros (t & Ht & Hfails). apply in_or_app. right. right.
        apply in_or_app. right. apply in_or_app. left.
        rewrite Ht. unfold focusedAs. apply in_or_app. right. rewrite Hfails. now left.
    + rewrite app_comm_cons, !app_assoc. apply last_snoc_effect.
  - intros Hp. rewrite Hp. rewrite app_nil_r.
    split; [reflexivity|]. split; [|split; [|split; [|split]]].
    + apply in_or_app. right. now left.
    + rewrite warnings_app, warnings_closing. cbn [app].
      change (warnings (?e :: ?l)) with (warnings [e] ++ warnings l).
      cbn [warnings flat_map app].
      fold (warnings (flat_map (replayed w) (replayable (sortedTabs (tabs sd))))).
      apply warnings_replayed.
    + rewrite focused_documents_app, focused_documents_closing. cbn [app].
      change (focused_documents (?e :: ?l))
        with (focused_documents [e] ++ focused_documents l).
      cbn [focused_documents flat_map app].
      fold (focused_documents (flat_map (replayed w) (replayable (sortedTabs (tabs sd))))).
      apply focused_replay.
    + intros [H|H]%in_app_or; [now apply ConsoleError_closing in H|].
      destruct H as [H|H]; [discriminate|]. now apply ConsoleError_replayed in H.
    + intros [H|H]%in_app_or.
      * apply In_closing in H. destruct H as [c' [H|H]]; discriminate.
      * destruct H as [H|H]; [discriminate|]. now apply Restored_replayed in H.
Qed.

(** * Further properties: the snapshot *)

Lemma forEach_push_In {A B} (f : A -> nat -> list B) l : forall i y,
  In y (forEach_push f i l) <->
  exists k x, nth_error l k = Some x /\ In y (f x (i + k)%nat).
Proof.
  induction l as [|a l IH]; intros i y; cbn [forEach_push].
  - split; [intros []|]. intros (k & x & H & _). now destruct k.
  - rewrite in_app_iff, IH. split.
    + intros [H|(k & x & Hk & H)].
      * exists 0%nat, a. rewrite Nat.add_0_r. now split.
      * exists (S k), x. rewrite Nat.add_succ_r. now split.
    + intros ([|k] & x & Hk & H).
      * injection Hk as <-. rewrite Nat.add_0_r in H. now left.
      * right. exists k, x. rewrite Nat.add_succ_r in H. now split.
Qed.

Lemma collectTextTabs_In w c :
  In c (collectTextTabs w) <->
  exists g t group tab u,
    tab_at w g t group tab u /\ vscode.scheme u = "file"
    /\ c = {| Collected.tab := tab; Collected.uri := u; Collected.group := group;
              Collected.groupIndex := g; Collected.tabIndex := t |}.
Proof.
  unfold collectTextTabs, tab_at. rewrite forEach_push_In. split.
  - intros (g & group & Hg & H). apply forEach_push_In in H as (t & tab & Ht & H).
    unfold pushTextTabs in H. destruct (getTabUri tab) as [u|] eqn:Hu; [|destruct H].
    destruct (String.eqb_spec (vscode.scheme u) "file") as [Hs|_]; [|destruct H].
    destruct H as [<-|[]]. now exists g, t, group, tab, u.
  - intros (g & t & group & tab & u & (Hg & Ht & Hu) & Hs & ->).
    exists g, group. split; [exact Hg|]. apply forEach_push_In.
    exists t, tab. split; [exact Ht|]. unfold pushTextTabs.
    rewrite Hu, Hs. now left.
Qed.

Lemma StronglySorted_app {A} (R : A -> A -> Prop) a b :
  StronglySorted R a -> StronglySorted R b ->
  (forall x y, In x a -> In y b -> R x y) ->
  StronglySorted R (a ++ b).
Proof.
  intros Ha Hb Hab. induction Ha as [|x a Ha IH Hx]; [exact Hb|].
  cbn. constructor.
  - apply IH. intros x' y Hx' Hy. apply Hab; [now right|exact Hy].
  - apply Forall_app. split; [exact Hx|].
    apply List.Forall_forall. intros y Hy. apply Hab; [now left|exact Hy].
Qed.

Lemma group_tabs_sorted group g tabs : forall i,
  StronglySorted collected_before (forEach_push (pushTextTabs group g) i tabs).
Proof.
  induction tabs as [|tab rest IH]; intros i; cbn [forEach_push]; [constructor|].
  apply StronglySorted_app.
  - unfold pushTextTabs. destruct (getTabUri tab); [|constructor].
    destruct (String.eqb _ _); repeat constructor.
  - apply IH.
  - intros x y [Hxg Hxt]%pushTextTabs_place [Hyg Hyt]%group_tabs_place.
    right. lia.
Qed.

Lemma groups_sorted (groups : list vscode.TabGroup) : forall j,
  StronglySorted collected_before
    (forEach_push (fun group g => forEach_push (pushTextTabs group g) 0%nat
                                               (vscode.tabs group)) j groups).
Proof.
  induction groups as [|group rest IH]; intros j; cbn [forEach_push]; [constructor|].
  apply StronglySorted_app.
  - apply group_tabs_sorted.
  - apply IH.
  - intros x y [Hxg _]%group_tabs_place Hy%groups_place. left. lia.
Qed.

Lemma StronglySorted_map {A B} (R : A -> A -> Prop) (S : B -> B -> Prop) (f : A -> B) l :
  (forall x y, R x y -> S (f x) (f y)) ->
  StronglySorted R l -> StronglySorted S (map f l).
Proof.
  intros Hf H. induction H as [|x l Hl IH Hx]; cbn; constructor; [exact IH|].
  apply List.Forall_forall. intros y [x' [<- Hx']]%in_map_iff.
  apply Hf. rewrite List.Forall_forall in Hx. now apply Hx.
Qed.

Lemma make_validated s p (H : vscode.validateUri s p = true) :
  vscode.make s p = Some {| vscode.scheme := s; vscode.fsPath := p; vscode.validated := H |}.
Proof.
  unfold vscode.make. generalize (eq_refl (vscode.validateUri s p)).
  generalize (vscode.validateUri s p) at 2 3. intros b e.
  destruct b; [|congruence]. cbn. do 2 f_equal.
  apply Eqdep_dec.UIP_dec, Bool.bool_dec.
Qed.

Lemma scheme_char_plain c :
  vscode.scheme_char c = true ->
  Ascii.eqb c ":" = false
  /\ (Ascii.eqb c "/" || Ascii.eqb c "?" || Ascii.eqb c "#") = false.
Proof.
  destruct c as [[] [] [] [] [] [] [] []]; vm_compute; intuition congruence.
Qed.

Lemma split_scheme_legal s rest :
  vscode.all_chars vscode.scheme_char s = true ->
  vscode.split_scheme (s +:+ String ":" rest) = Some (s, rest).
Proof.
  induction s as [|c s IH]; [reflexivity|]. cbn [vscode.all_chars].
  intros [Hc Hs]%andb_prop. rewrite append_String. cbn [vscode.split_scheme].
  destruct (scheme_char_plain c Hc) as [-> ->]. now rewrite IH.
Qed.

(** What [toString] writes, [Uri.parse] reads back. *)
Lemma parse_toString u : vscode.parse (vscode.toString u) = Some u.
Proof.
  destruct u as [s p H]. unfold vscode.parse, vscode.toString.
  cbn [vscode.scheme vscode.fsPath].
  assert (Hlegal : vscode.legal_scheme s = true)
    by (unfold vscode.validateUri in H; now apply andb_prop in H as [Hl _]).
  destruct s as [|c s]; [discriminate|].
  assert (Hall : vscode.all_chars vscode.scheme_char (String c s) = true).
  { cbn in *. apply andb_prop in Hlegal as [Hc Hs]. rewrite Hs, andb_true_r.
    unfold vscode.scheme_char. now rewrite Hc. }
  change ("://" +:+ p) with (String ":" (String "/" (String "/" p))).
  rewrite (split_scheme_legal (String c s) _ Hall).
  apply make_validated.
Qed.

Lemma isActiveTabOfActiveGroup_place w c :
  isActiveTabOfActiveGroup w c
  = bool_decide (activeTabPlace w = Some (Collected.groupIndex c, Collected.tabIndex c)).
Proof.
  unfold isActiveTabOfActiveGroup. destruct (activeTabPlace w) as [[g t]|].
  - destruct (Nat.eqb_spec g (Collected.groupIndex c)) as [->|Hg];
      [destruct (Nat.eqb_spec t (Collected.tabIndex c)) as [->|Ht]|]; cbn.
    + now rewrite bool_decide_eq_true_2.
    + rewrite bool_decide_eq_false_2; [reflexivity|congruence].
    + rewrite bool_decide_eq_false_2; [reflexivity|congruence].
  - now rewrite bool_decide_eq_false_2.
Qed.

Lemma focused_shownAs_focus w t u :
  documentOf t = Some u -> vscode.toString u ∉ unopenable w ->
  focused_documents (shownAs w false t) = [(u, viewColumn t)].
Proof.
  intros Hu Hopen. unfold shownAs, cannot_open. rewrite Hu.
  rewrite bool_decide_eq_false_2 by exact Hopen.
  destruct (cursor t); [|reflexivity]. now destruct (illegal_cursor t).
Qed.

Lemma at_most_one {A} (l : list A) x : (length l <= 1)%nat -> In x l -> l = [x].
Proof.
  destruct l as [|y [|z l]]; cbn; [intros _ []|now intros _ [->|[]]|lia].
Qed.

(** C7.  A snapshot marks at most one descriptor [isGlobalActive]; the
    marked ones are exactly the descriptors of the tab that is the active
    tab of the active group, and when that tab holds a file document its
    descriptor is there and is the one marked.  When the file of a session
    marks several, the restore that is not cancelled and gets through the
    replay ([Uri.parse] takes every [uri]) gives the focus to one document
    only: that of the last marked descriptor in replay order, when the
    host opens it. *)
Theorem one_global_active_last_wins (w : World) :
  (length (List.filter isGlobalActive (tabs (createSessionSnapshot w))) <= 1)%nat
  /\ (forall d, In d (tabs (createSessionSnapshot w)) ->
        (isGlobalActive d = true <->
         exists g t, activeTabPlace w = Some (g, t)
                     /\ groupIndex d = Z.of_nat g /\ tabIndex d = Z.of_nat t))
  /\ (forall g t group tab u,
        activeTabPlace w = Some (g, t) ->
        tab_at w g t group tab u ->
        vscode.scheme u = "file" ->
        List.filter isGlobalActive (tabs (createSessionSnapshot w))
        = [{| uri := vscode.toString u;
              groupIndex := Z.of_nat g; tabIndex := Z.of_nat t;
              viewColumn := Some (vscode.viewColumn group);
              isGroupActive := vscode.isActive tab;
              isGlobalActive := true;
              cursor := lastKnownCursorPositions w !! vscode.toString u |}])
  /\ (activeTabPlace w = None ->
      List.filter isGlobalActive (tabs (createSessionSnapshot w)) = [])
  /\ (forall entry sd t u,
        stores w (fullPath entry) sd ->
        tabs sd <> [] ->
        (let outside := tabsOutsideSession (list_to_set (map uri (tabs sd)))
                                           (collectTextTabs w) in
         firstn (length outside) (answers w)
         = repeat (Some "Close Tab") (length outside)) ->
        forallb parses (tabs sd) = true ->
        last_global_active (sortedTabs (tabs sd)) = Some t ->
        documentOf t = Some u ->
        vscode.toString u ∉ unopenable w ->
        focused_documents (effects (restoreSessionFromEntry entry w))
        = [(u, viewColumn t)]).
Proof.
  assert (Hone : (length (List.filter isGlobalActive (tabs (createSessionSnapshot w)))
                  <= 1)%nat).
  { unfold createSessionSnapshot. simpl tabs. rewrite filter_map_length. simpl.
    unfold isActiveTabOfActiveGroup.
    destruct (activeTabPlace w) as [[g t]|].
    + apply collectTextTabs_once.
    + rewrite filter_nothing; [simpl; lia|reflexivity]. }
  split; [exact Hone|]. split; [|split; [|split]].
  - unfold createSessionSnapshot. simpl tabs. intros d [c [<- Hc]]%in_map_iff. simpl.
    unfold isActiveTabOfActiveGroup.
    destruct (activeTabPlace w) as [[g t]|].
    + rewrite andb_true_iff, !Nat.eqb_eq. split.
      * intros [-> ->]. now exists (Collected.groupIndex c), (Collected.tabIndex c).
      * intros (g' & t' & [= -> ->] & Hg & Ht). lia.
    + split; [discriminate|]. now intros (g & t & H & _).
  - intros g t group tab u Hplace Hat Hscheme.
    apply at_most_one; [exact Hone|]. apply filter_In. split; [|reflexivity].
    unfold createSessionSnapshot. cbn [tabs]. apply in_map_iff.
    exists {| Collected.tab := tab; Collected.uri := u; Collected.group := group;
              Collected.groupIndex := g; Collected.tabIndex := t |}.
    split.
    + cbn. rewrite isActiveTabOfActiveGroup_place. cbn.
      now rewrite bool_decide_eq_true_2.
    + apply collectTextTabs_In. now exists g, t, group, tab, u.
  - intros Hnone. apply filter_nothing.
    unfold createSessionSnapshot. cbn [tabs]. intros d [c [<- _]]%in_map_iff. cbn.
    unfold isActiveTabOfActiveGroup. now rewrite Hnone.
  - intros entry sd t u Hs Hne Hall Hparses Hlast Hu Hopen.
    rewrite (restoreSessionFromEntry_stored entry sd w Hs Hne).
    rewrite (restoreTabs_trace entry (tabs sd) w Hall), sortedTabs_parses, Hparses, Hlast.
    unfold effects. cbn [snd].
    rewrite focused_documents_app, focused_documents_closing. cbn [app].
    change (focused_documents (?e :: ?l)) with (focused_documents [e] ++ focused_documents l).
    cbn [focused_documents flat_map app].
    fold (focused_documents
            (flat_map (replayed w) (replayable (sortedTabs (tabs sd)))
             ++ focusedAs w (Some t)
             ++ [ShowInformationMessage
                   ("Restored session " +:+ quoted (name entry) +:+ ".")])).
    rewrite !focused_documents_app, focused_replay. unfold focusedAs.
    rewrite focused_documents_app, (focused_shownAs_focus w t u Hu Hopen).
    now destruct (fails_to_show w t).
Qed.

Lemma one_global_active_last_wins_witness :
  let w := with_answers [Some "Close Tab"] Sample.world in
  stores w (fullPath Sample.gamma) {| version := 2; tabs := Sample.three |}
  /\ Sample.three <> []
  /\ forallb parses Sample.three = true
  /\ length (List.filter isGlobalActive Sample.three) = 2%nat
  /\ focused_documents (effects (restoreSessionFromEntry Sample.gamma w))
     = [(Sample.file_uri "/p/d.ts", Some 1)].
Proof.
  cbv zeta. split; [reflexivity|]. split; [discriminate|]. split; [reflexivity|].
  split; [reflexivity|].
  apply (proj2 (proj2 (proj2 (proj2 (one_global_active_last_wins
                         (with_answers [Some "Close Tab"] Sample.world)))))
           Sample.gamma {| version := 2; tabs := Sample.three |}
           {| uri := "file:///p/d.ts"; groupIndex := 0; tabIndex := 0;
              viewColumn := Some 1; isGroupActive := true; isGlobalActive := true;
              cursor := None |});
    [reflexivity|discriminate|reflexivity|reflexivity|reflexivity|reflexivity
    |apply not_elem_of_empty].
Defined.

(** X6.  What a snapshot holds.  It has the current format version, and
    one descriptor for each tab of the arrangement in which [getTabUri]
    finds a document of the [file] scheme (the text of a text tab, the
    modified side of a diff, the destination of a merge), and no other:
    the descriptor has the document's URI, the indexes of the group and of
    the tab in the arrangement (tabs that are left out keep their index),
    the column of the group, the tab's own activity, the mark of the
    active tab of the active group and the tracked cursor.  The
    descriptors come in the order of their places, so no two have the same
    place, and the URI of each reads back as the document it was made
    of. *)
Theorem snapshot_describes_the_file_tabs (w : World) :
  let snapshot := createSessionSnapshot w in
  version snapshot = 2
  /\ (forall d, In d (tabs snapshot) <->
        exists g t group tab u,
          tab_at w g t group tab u /\ vscode.scheme u = "file"
          /\ d = {| uri := vscode.toString u;
                    groupIndex := Z.of_nat g; tabIndex := Z.of_nat t;
                    viewColumn := Some (vscode.viewColumn group);
                    isGroupActive := vscode.isActive tab;
                    isGlobalActive := bool_decide (activeTabPlace w = Some (g, t));
                    cursor := lastKnownCursorPositions w !! vscode.toString u |})
  /\ StronglySorted place_before (tabs snapshot)
  /\ map documentOf (tabs snapshot)
     = map (fun c => Some (Collected.uri c)) (collectTextTabs w).
Proof.
  cbv zeta. split; [reflexivity|]. split; [|split].
  - intros d. unfold createSessionSnapshot. cbn [tabs]. rewrite in_map_iff. split.
    + intros (c & <- & Hc). apply collectTextTabs_In in Hc
        as (g & t & group & tab & u & Hat & Hs & ->).
      exists g, t, group, tab, u. split; [exact Hat|]. split; [exact Hs|].
      now rewrite isActiveTabOfActiveGroup_place.
    + intros (g & t & group & tab & u & Hat & Hs & ->).
      exists {| Collected.tab := tab; Collected.uri := u; Collected.group := group;
                Collected.groupIndex := g; Collected.tabIndex := t |}.
      split; [now rewrite isActiveTabOfActiveGroup_place|].
      apply collectTextTabs_In. now exists g, t, group, tab, u.
  - unfold createSessionSnapshot. cbn [tabs].
    apply (StronglySorted_map collected_before); [|apply groups_sorted].
    intros x y [H|[Hg Ht]]; [left|right]; cbn; lia.
  - unfold createSessionSnapshot. cbn [tabs]. rewrite map_map.
    apply map_ext. intros c. unfold documentOf. cbn [uri].
    apply parse_toString.
Qed.

Lemma own_snapshot_inside w0 :
  tabsOutsideSession (list_to_set (map uri (tabs (createSessionSnapshot w0))))
                     (collectTextTabs w0) = [].
Proof.
  unfold tabsOutsideSession. apply filter_nothing. intros c Hc.
  rewrite negb_false_iff, bool_decide_eq_true, elem_of_list_to_set, list_elem_of_In.
  unfold createSessionSnapshot. cbn [tabs]. rewrite map_map. cbn [uri].
  apply in_map_iff. now exists c.
Qed.

Lemma shownAs_leaves_tabs_alone w preserveFocus t :
  Forall (fun e => leaves_tabs_alone e = true) (shownAs w preserveFocus t).
Proof.
  unfold shownAs. destruct (documentOf t); [|constructor].
  destruct (cannot_open w t); [repeat constructor|].
  destruct (cursor t); [destruct (illegal_cursor t)|]; repeat constructor.
Qed.

Lemma replayed_leaves_tabs_alone w l :
  Forall (fun e => leaves_tabs_alone e = true) (flat_map (replayed w) l).
Proof.
  apply List.Forall_flat_map, List.Forall_forall. intros t _. unfold replayed.
  apply Forall_app. split; [apply shownAs_leaves_tabs_alone|].
  destruct (fails_to_show w t); repeat constructor.
Qed.

Lemma focusedAs_leaves_tabs_alone w ga :
  Forall (fun e => leaves_tabs_alone e = true) (focusedAs w ga).
Proof.
  destruct ga as [t|]; [|constructor]. unfold focusedAs.
  apply Forall_app. split; [apply shownAs_leaves_tabs_alone|].
  destruct (fails_to_show w t); repeat constructor.
Qed.

Lemma own_snapshot_parses w0 : forallb parses (tabs (createSessionSnapshot w0)) = true.
Proof.
  apply forallb_forall. intros d Hd. unfold createSessionSnapshot in Hd. cbn [tabs] in Hd.
  apply in_map_iff in Hd as (c & <- & _). unfold parses, documentOf. cbn [uri].
  now rewrite parse_toString.
Qed.

(** X7.  Restoring a session that is the snapshot of the tabs now open
    asks about no tab and closes none by itself: every open file tab is
    part of the session.  The restore goes straight to closing all editors
    and replaying the descriptors, and leaves the answers of the user
    untouched. *)
Theorem restore_of_own_snapshot_closes_nothing (entry : SessionFileRecord) (w0 w : World) :
  stores w (fullPath entry) (createSessionSnapshot w0) ->
  tabGroups w = tabGroups w0 ->
  tabs (createSessionSnapshot w0) <> [] ->
  let run := restoreSessionFromEntry entry w in
  let order := sortedTabs (tabs (createSessionSnapshot w0)) in
  tabsOutsideSession (list_to_set (map uri (tabs (createSessionSnapshot w0))))
                     (collectTextTabs w) = []
  /\ result run = Ok tt
  /\ effects run
     = ExecuteCommand "workbench.action.closeAllEditors"
       :: flat_map (replayed w) order
       ++ focusedAs w (last_global_active order)
       ++ [ShowInformationMessage ("Restored session " +:+ quoted (name entry) +:+ ".")]
  /\ Forall (fun e => leaves_tabs_alone e = true) (effects run)
  /\ answers (final run) = answers w.
Proof.
  intros Hs Hg Hne. cbv zeta.
  assert (Hout : tabsOutsideSession
                   (list_to_set (map uri (tabs (createSessionSnapshot w0))))
                   (collectTextTabs w) = []).
  { unfold collectTextTabs. rewrite Hg. apply own_snapshot_inside. }
  split; [exact Hout|].
  rewrite (restoreSessionFromEntry_stored entry _ w Hs Hne).
  rewrite (restoreTabs_trace entry (tabs (createSessionSnapshot w0)) w)
    by (cbv zeta; now rewrite Hout).
  rewrite sortedTabs_parses, own_snapshot_parses, Hout.
  rewrite replayable_all by (rewrite sortedTabs_parses; apply own_snapshot_parses).
  unfold result, effects, final. cbn [fst snd flat_map app].
  split; [reflexivity|]. split; [reflexivity|]. split; [|reflexivity].
  constructor; [reflexivity|].
  apply Forall_app. split; [apply replayed_leaves_tabs_alone|].
  apply Forall_app. split; [apply focusedAs_leaves_tabs_alone|].
  repeat constructor.
Qed.

(** * Further properties: the session directory *)

Lemma resolveWorkspaceBase_cases promptUser showWarning w :
  let stored := workspaceFolder (configuration w) in
  resolveWorkspaceBase promptUser showWarning w =
  if negb (String.eqb stored "") && existsSync stored w then (Ok (Some stored), w, [])
  else
    match workspaceFolders w with
    | [] =>
        (Ok None, w,
         if showWarning
         then [ShowWarningMessage
                 "No workspace folder is open. Please open a workspace or change the storage location."]
         else [])
    | first :: others =>
        if (length others =? 0)%nat || negb promptUser
        then (Ok (Some first), final (updateConfigValue "workspaceFolder" first w), [])
        else
          let w1 := with_answers (tl (answers w)) w in
          let ask := ShowWorkspaceFolderPick
                       "Select a workspace folder to store Session Saver files" in
          match hd None (answers w) with
          | Some picked =>
              (Ok (Some picked), final (updateConfigValue "workspaceFolder" picked w1), [ask])
          | None => (Ok None, w1, [ask])
          end
    end.
Proof.
  cbv zeta. unfold resolveWorkspaceBase, bind, get_world. cbv beta iota zeta.
  destruct (negb _ && existsSync _ w); [reflexivity|].
  destruct (workspaceFolders w) as [|first others]; [now destruct showWarning|].
  destruct ((length others =? 0)%nat || negb promptUser); [reflexivity|].
  unfold prompt_user. cbv beta iota zeta.
  now destruct (hd None (answers w)).
Qed.

Lemma resolveCustomBase_cases promptUser showWarning w :
  let stored := customFolder (configuration w) in
  resolveCustomBase promptUser showWarning w =
  if negb (String.eqb stored "") && existsSync stored w then (Ok (Some stored), w, [])
  else if negb promptUser then
    (Ok None, w,
     if showWarning
     then [ShowWarningMessage
             "Custom session folder is not configured. Please set it via the Session Saver settings or command."]
     else [])
  else
    let w1 := with_answers (tl (answers w)) w in
    let ask := ShowOpenDialog "Select a folder to store Session Saver files" "Use Folder" in
    match hd None (answers w) with
    | Some selected =>
        if String.eqb selected "" then (Ok None, w1, [ask])
        else (Ok (Some selected), final (updateConfigValue "customFolder" selected w1), [ask])
    | None => (Ok None, w1, [ask])
    end.
Proof.
  cbv zeta. unfold resolveCustomBase, bind, get_world. cbv beta iota zeta.
  destruct (negb _ && existsSync _ w); [reflexivity|].
  destruct promptUser; cbn [negb]; [|now destruct showWarning].
  unfold selectFolderDialog, prompt_user. cbv beta iota zeta.
  destruct (hd None (answers w)) as [selected|]; [|reflexivity].
  cbn [truthy]. now destruct (String.eqb selected "").
Qed.

Lemma resolveWorkspaceBase_stored f w :
  workspaceFolder (configuration w) = f -> f <> "" -> existsSync f w = true ->
  forall p s, resolveWorkspaceBase p s w = (Ok (Some f), w, []).
Proof.
  intros Hst Hf Hex p s. rewrite resolveWorkspaceBase_cases. cbv zeta.
  rewrite Hst, Hex. apply String.eqb_neq in Hf. now rewrite Hf.
Qed.

Lemma resolveCustomBase_stored f w :
  customFolder (configuration w) = f -> f <> "" -> existsSync f w = true ->
  forall p s, resolveCustomBase p s w = (Ok (Some f), w, []).
Proof.
  intros Hst Hf Hex p s. rewrite resolveCustomBase_cases. cbv zeta.
  rewrite Hst, Hex. apply String.eqb_neq in Hf. now rewrite Hf.
Qed.

(** What resolving a base folder may change: the stored folder and the
    answers still to come, nothing else. *)
Lemma resolveWorkspaceBase_inv p s w :
  exists r w1 t1,
    resolveWorkspaceBase p s w = (Ok r, w1, t1)
    /\ disk w1 = disk w
    /\ fileLocation (configuration w1) = fileLocation (configuration w)
    /\ globalStoragePath w1 = globalStoragePath w
    /\ Forall (fun e => writes_disk e = false /\ e <> RefreshTree) t1
    /\ (forall f, r = Some f -> workspaceFolder (configuration w1) = f).
Proof.
  rewrite resolveWorkspaceBase_cases. cbv zeta.
  destruct (negb _ && existsSync _ w).
  { eexists _, _, _. split; [reflexivity|]. repeat split; [constructor|now intros f [= <-]]. }
  destruct (workspaceFolders w) as [|first others].
  { eexists _, _, _. split; [reflexivity|]. repeat split; [|discriminate].
    destruct s; repeat constructor; discriminate. }
  destruct ((length others =? 0)%nat || negb p).
  { eexists _, _, _. split; [reflexivity|]. repeat split; [constructor|now intros f [= <-]]. }
  destruct (hd None (answers w)) as [picked|]; eexists _, _, _; (split; [reflexivity|]);
    repeat split; try (repeat constructor; discriminate); try discriminate.
  now intros f [= <-].
Qed.

Lemma resolveCustomBase_inv p s w :
  exists r w1 t1,
    resolveCustomBase p s w = (Ok r, w1, t1)
    /\ disk w1 = disk w
    /\ fileLocation (configuration w1) = fileLocation (configuration w)
    /\ globalStoragePath w1 = globalStoragePath w
    /\ Forall (fun e => writes_disk e = false /\ e <> RefreshTree) t1
    /\ (forall f, r = Some f -> customFolder (configuration w1) = f).
Proof.
  rewrite resolveCustomBase_cases. cbv zeta.
  destruct (negb _ && existsSync _ w).
  { eexists _, _, _. split; [reflexivity|]. repeat split; [constructor|now intros f [= <-]]. }
  destruct (negb p).
  { eexists _, _, _. split; [reflexivity|]. repeat split; [|discriminate].
    destruct s; repeat constructor; discriminate. }
  destruct (hd None (answers w)) as [selected|];
    [destruct (String.eqb selected "")|]; eexists _, _, _; (split; [reflexivity|]);
    repeat split; try (repeat constructor; discriminate); try discriminate.
  now intros f [= <-].
Qed.

(** X8.  A base folder, once resolved, is remembered.  When
    [resolveWorkspaceBase] answers a folder that is on the disk (the stored
    one, the only or first workspace folder, or the one the user picked),
    the setting [workspaceFolder] holds it afterwards, and every later call
    answers the same folder at once: no prompt, no warning, no change.
    The same holds for [resolveCustomBase] and the setting
    [customFolder]. *)
Theorem resolved_folder_is_remembered (promptUser showWarning : bool) (w : World)
        (f : string) :
  f <> "" ->
  existsSync f w = true ->
  (result (resolveWorkspaceBase promptUser showWarning w) = Ok (Some f) ->
   let w1 := final (resolveWorkspaceBase promptUser showWarning w) in
   workspaceFolder (configuration w1) = f
   /\ forall p s, resolveWorkspaceBase p s w1 = (Ok (Some f), w1, []))
  /\ (result (resolveCustomBase promptUser showWarning w) = Ok (Some f) ->
      let w1 := final (resolveCustomBase promptUser showWarning w) in
      customFolder (configuration w1) = f
      /\ forall p s, resolveCustomBase p s w1 = (Ok (Some f), w1, [])).
Proof.
  intros Hf Hex. split.
  - destruct (resolveWorkspaceBase_inv promptUser showWarning w)
      as (r & w1 & t1 & -> & Hd & _ & _ & _ & Hst).
    unfold result, final. cbn [fst snd]. intros [= ->].
    split; [now apply Hst|]. apply resolveWorkspaceBase_stored; [now apply Hst|exact Hf|].
    unfold existsSync in *. now rewrite Hd.
  - destruct (resolveCustomBase_inv promptUser showWarning w)
      as (r & w1 & t1 & -> & Hd & _ & _ & _ & Hst).
    unfold result, final. cbn [fst snd]. intros [= ->].
    split; [now apply Hst|]. apply resolveCustomBase_stored; [now apply Hst|exact Hf|].
    unfold existsSync in *. now rewrite Hd.
Qed.

Lemma resolveSessionDirectory_quiet options w :
  promptUser options = Some false ->
  ensureExists options <> Some true ->
  exists base evs w1,
    resolveSessionDirectory options w =
      (Ok (if truthy base
           then match base with
                | Some b =>
                    Some (match getFileLocationSetting w with
                          | workspace => path_join (path_join b ".vscode") "sessions"
                          | _ => path_join b "sessions"
                          end)
                | None => None
                end
           else None), w1, evs)
    /\ disk w1 = disk w /\ answers w1 = answers w
    /\ (evs = [] \/ (base = None /\ showWarning options <> Some false
                     /\ exists m, evs = [ShowWarningMessage m])).
Proof.
  intros Hp He. unfold resolveSessionDirectory. rewrite Hp. cbn [default].
  assert (Hens : default false (ensureExists options) = false).
  { destruct (ensureExists options) as [[]|]; [now elim He|reflexivity|reflexivity]. }
  rewrite Hens. unfold bind at 1, get_world. cbv beta iota zeta.
  unfold bind at 1.
  destruct (getFileLocationSetting w) eqn:Hloc.
  - rewrite resolveWorkspaceBase_cases. cbv zeta.
    destruct (negb _ && existsSync _ w).
    + exists (Some (workspaceFolder (configuration w))), [], w.
      split; [|repeat split; now left].
      destruct (truthy _); cbn; unfold bind, ret; reflexivity.
    + destruct (workspaceFolders w) as [|first others].
      * exists None, (if default true (showWarning options)
                      then [ShowWarningMessage
                              "No workspace folder is open. Please open a workspace or change the storage location."]
                      else []), w.
        split; [cbn; now rewrite app_nil_r|]. repeat split.
        destruct (showWarning options) as [[]|]; cbn; [right|now left|right];
          (split; [reflexivity|split; [discriminate|eauto]]).
      * rewrite orb_true_r.
        exists (Some first), [], (final (updateConfigValue "workspaceFolder" first w)).
        split; [|repeat split; now left].
        destruct (truthy _); cbn; unfold bind, ret; reflexivity.
  - exists (Some (globalStoragePath w)), [], w.
    split; [|repeat split; now left].
    unfold ret. cbv beta iota zeta.
    destruct (truthy _); cbn; unfold bind, ret; reflexivity.
  - rewrite resolveCustomBase_cases. cbv zeta.
    destruct (negb _ && existsSync _ w).
    + exists (Some (customFolder (configuration w))), [], w.
      split; [|repeat split; now left].
      destruct (truthy _); cbn; unfold bind, ret; reflexivity.
    + cbn [negb].
      exists None, (if default true (showWarning options)
                    then [ShowWarningMessage
                            "Custom session folder is not configured. Please set it via the Session Saver settings or command."]
                    else []), w.
      split; [cbn; now rewrite app_nil_r|]. repeat split.
      destruct (showWarning options) as [[]|]; cbn; [right|now left|right];
        (split; [reflexivity|split; [discriminate|eauto]]).
Qed.

(** X9.  Looking up the session directory without permission to prompt
    (as every listing, the picker, the tree view and [deleteAllSessions]
    do) asks the user nothing and, unless told to create the directory,
    leaves the disk alone and never rejects.  It shows at most one
    warning, and only when no base folder is known; none at all when
    warnings are off.  A directory it answers is [sessions] under a base
    folder with a name, below [.vscode] exactly for the workspace
    location. *)
Theorem resolving_without_prompt_is_silent (options : ResolveOptions) (w : World) :
  promptUser options = Some false ->
  ensureExists options <> Some true ->
  let run := resolveSessionDirectory options w in
  (exists r, result run = Ok r)
  /\ disk (final run) = disk w
  /\ answers (final run) = answers w
  /\ Forall (fun e => is_prompt e = false) (effects run)
  /\ (length (effects run) <= 1)%nat
  /\ (showWarning options = Some false -> effects run = [])
  /\ (forall f, result run = Ok (Some f) ->
        effects run = []
        /\ exists base,
             base <> ""
             /\ f = match getFileLocationSetting w with
                    | workspace => path_join (path_join base ".vscode") SESSION_FOLDER_NAME
                    | _ => path_join base SESSION_FOLDER_NAME
                    end).
Proof.
  intros Hp He. cbv zeta.
  destruct (resolveSessionDirectory_quiet options w Hp He)
    as (base & evs & w1 & -> & Hd & Ha & Hevs).
  unfold result, final, effects. cbn [fst snd].
  split; [eauto|]. split; [exact Hd|]. split; [exact Ha|].
  split; [|split; [|split]].
  - destruct Hevs as [->|(_ & _ & m & ->)]; repeat constructor.
  - destruct Hevs as [->|(_ & _ & m & ->)]; cbn; lia.
  - intros Hs. destruct Hevs as [->|(_ & Hw & _)]; [reflexivity|now elim Hw].
  - intros f Hres.
    destruct Hevs as [->|(-> & _)]; [|discriminate]. split; [reflexivity|].
    destruct base as [b|]; [|discriminate]. cbn [truthy] in Hres.
    destruct (String.eqb_spec b "") as [->|Hb]; [discriminate|].
    cbn [negb] in Hres. injection Hres as <-. now exists b.
Qed.

Lemma resolving_without_prompt_is_silent_witness :
  let options := {| promptUser := Some false; showWarning := Some true;
                    ensureExists := None |} in
  promptUser options = Some false
  /\ ensureExists options <> Some true
  /\ resolveSessionDirectory options Sample.world = (Ok (Some "/g/sessions"), Sample.world, [])
  /\ disk (final (resolveSessionDirectory options Sample.world)) = disk Sample.world.
Proof.
  cbv zeta. split; [reflexivity|]. split; [discriminate|]. split; [reflexivity|].
  exact (proj1 (proj2 (resolving_without_prompt_is_silent
                         {| promptUser := Some false; showWarning := Some true;
                            ensureExists := None |}
                         Sample.world eq_refl ltac:(discriminate)))).
Defined.

Lemma endsWith_append a b ext : endsWith b ext = true -> endsWith (a +:+ b) ext = true.
Proof.
  unfold endsWith. intros Hb. induction a as [|c a IH].
  - now rewrite append_Empty.
  - rewrite append_String, strip_suffix_unfold.
    destruct (String.eqb _ ext); [reflexivity|].
    now destruct (strip_suffix ext (a +:+ b)).
Qed.

Lemma endsWith_self ext : endsWith ext ext = true.
Proof. unfold endsWith. rewrite strip_suffix_unfold. now rewrite String.eqb_refl. Qed.

(** X10.  [entryFromArgument] never rejects, never prompts and never
    touches the disk.  An entry it answers names a path that is on the
    disk: the record it was given, as it is; for a name, the name itself
    (with [.json] added unless it ends with it) or else that file in the
    session directory, under the name [basename] gives.  When it answers
    nothing it has shown one warning, or none if no argument (or the empty
    string) was given. *)
Theorem entryFromArgument_answers_a_file_on_disk
        (arg : option (SessionFileRecord + string)) (w : World) :
  let run := entryFromArgument arg w in
  disk (final run) = disk w
  /\ answers (final run) = answers w
  /\ ((exists e,
         result run = Ok (Some e) /\ effects run = []
         /\ existsSync (fullPath e) w = true
         /\ match arg with
            | Some (inl record) => e = record
            | Some (inr text) =>
                endsWith (fullPath e) ".json" = true
                /\ name e = path_basename (fullPath e) ".json"
                /\ let normalized := if endsWith text ".json" then text
                                     else text +:+ ".json" in
                   fullPath e = normalized
                   \/ (existsSync normalized w = false
                       /\ exists folder,
                            result (resolveSessionDirectory
                                      {| promptUser := Some false;
                                         showWarning := Some false;
                                         ensureExists := None |} w)
                            = Ok (Some folder)
                            /\ fullPath e = path_join folder normalized)
            | None => False
            end)
      \/ (result run = Ok None
          /\ effects run =
             match arg with
             | Some (inl record) =>
                 [ShowWarningMessage ("Session file not found: " +:+ fullPath record)]
             | Some (inr text) =>
                 if String.eqb text "" then []
                 else [ShowWarningMessage "Session file not found."]
             | None => []
             end)).
Proof.
  cbv zeta. destruct (entryFromArgument arg w) as [[r w'] evs] eqn:Hrun.
  unfold result, final, effects. cbn [fst snd].
  unfold entryFromArgument, bind at 1, get_world in Hrun. cbv beta iota zeta in Hrun.
  destruct arg as [[record|text]|]; cbv beta iota zeta in Hrun.
  - destruct (existsSync (fullPath record) w) eqn:Hex; cbn in Hrun;
      injection Hrun as <- <- <-; repeat split.
    + left. exists record. now repeat split.
    + now right.
  - destruct (String.eqb text "") eqn:Hempty.
    { cbn in Hrun. injection Hrun as <- <- <-. repeat split. now right. }
    set (normalized := if endsWith text ".json" then text else text +:+ ".json") in *.
    assert (Hends : endsWith normalized ".json" = true).
    { unfold normalized. destruct (endsWith text ".json") eqn:Ht; [exact Ht|].
      apply endsWith_append, endsWith_self. }
    destruct (existsSync normalized w) eqn:Hex.
    + cbn in Hrun. injection Hrun as <- <- <-. repeat split. left. eexists.
      repeat split; [exact Hex|exact Hends|now left].
    + destruct (resolveSessionDirectory_quiet
                  {| promptUser := Some false; showWarning := Some false;
                     ensureExists := None |} w eq_refl ltac:(discriminate))
        as (base & evs0 & w1 & Hres & Hd & Ha & Hevs).
      assert (Hnil : evs0 = []).
      { destruct Hevs as [->|(_ & Hw & _)]; [reflexivity|now elim Hw]. }
      subst evs0. unfold bind at 1 in Hrun. rewrite Hres in Hrun.
      cbv beta iota zeta in Hrun.
      unfold bind at 1, get_world in Hrun. cbv beta iota zeta in Hrun.
      set (folder := if truthy base then _ else None) in *.
      assert (Hsame : existsSync (path_join (default "" folder) normalized) w1
                      = existsSync (path_join (default "" folder) normalized) w).
      { unfold existsSync. now rewrite Hd. }
      rewrite Hsame in Hrun.
      destruct (truthy folder && existsSync (path_join (default "" folder) normalized) w)
        eqn:Hcand; cbn in Hrun; injection Hrun as <- <- <-.
      * apply andb_prop in Hcand as [Hsome Hcand]. clearbody folder.
        destruct folder as [f|]; [|discriminate]. cbn [default] in *.
        split; [exact Hd|]. split; [exact Ha|]. left. eexists.
        repeat split;
          [exact Hcand|unfold path_join; now do 2 apply endsWith_append|].
        right. split; [reflexivity|]. exists f. now rewrite Hres.
      * split; [exact Hd|]. split; [exact Ha|]. now right.
  - cbn in Hrun. injection Hrun as <- <- <-. repeat split. now right.
Qed.

(** * Further properties: choosing a session *)

Lemma pickSessionEntry_run localeCompare placeHolder w listing w1 t1 :
  listSessions localeCompare
    {| promptUser := Some false; showWarning := Some true; ensureExists := None |} w
  = (Ok listing, w1, t1) ->
  pickSessionEntry localeCompare placeHolder w =
  if (length (entries listing) =? 0)%nat
  then (Ok None, w1, t1 ++ [ShowWarningMessage "No sessions found."])
  else (Ok (match hd None (answers w1) with
            | Some picked =>
                List.find (fun entry => String.eqb (name entry) picked) (entries listing)
            | None => None
            end),
        with_answers (tl (answers w1)) w1,
        t1 ++ [ShowQuickPick (map name (entries listing)) placeHolder]).
Proof.
  intros Hlist. unfold pickSessionEntry, bind at 1. rewrite Hlist. cbv beta iota zeta.
  destruct (length (entries listing) =? 0)%nat; reflexivity.
Qed.

Lemma chooseEntry_none localeCompare placeHolder w :
  chooseEntry localeCompare None placeHolder w = pickSessionEntry localeCompare placeHolder w.
Proof.
  unfold chooseEntry, entryFromArgument, bind at 1 2, get_world, ret.
  cbv beta iota zeta.
  now destruct (pickSessionEntry localeCompare placeHolder w) as [[r w'] evs].
Qed.

(** X11.  Without a chosen session no command does anything.  When the
    listing is empty the picker shows the warning [No sessions found.] and
    no list; when the user dismisses the list, nothing more is shown.  In
    both cases [restoreSession], and [restoreNamedSession],
    [deleteSession] and [overwriteSession] called without an argument, end
    there: nothing is restored, deleted or written.  A name picked from the
    list is that of a listed session, and [restoreSession] goes on to
    restore the first listed session of that name. *)
Theorem without_a_chosen_session_nothing_happens
        (localeCompare : string -> string -> Z) (w : World)
        (listing : Listing) (w1 : World) (t1 : list Effect) :
  listSessions localeCompare
    {| promptUser := Some false; showWarning := Some true; ensureExists := None |} w
  = (Ok listing, w1, t1) ->
  let ask placeHolder := ShowQuickPick (map name (entries listing)) placeHolder in
  let w2 := with_answers (tl (answers w1)) w1 in
  (entries listing = [] ->
     let nothing := (Ok tt, w1, t1 ++ [ShowWarningMessage "No sessions found."]) in
     restoreSession localeCompare w = nothing
     /\ restoreNamedSession localeCompare None w = nothing
     /\ deleteSession localeCompare None w = nothing
     /\ overwriteSession localeCompare None w = nothing)
  /\ (entries listing <> [] -> hd None (answers w1) = None ->
      restoreSession localeCompare w
      = (Ok tt, w2, t1 ++ [ask "Select a session to restore"])
      /\ restoreNamedSession localeCompare None w
         = (Ok tt, w2, t1 ++ [ask "Select a session to restore"])
      /\ deleteSession localeCompare None w
         = (Ok tt, w2, t1 ++ [ask "Select a session to delete"])
      /\ overwriteSession localeCompare None w
         = (Ok tt, w2, t1 ++ [ask "Select a session to overwrite"]))
  /\ (forall picked,
        entries listing <> [] -> hd None (answers w1) = Some picked ->
        In picked (map name (entries listing)) ->
        exists e,
          List.find (fun entry => String.eqb (name entry) picked) (entries listing) = Some e
          /\ In e (entries listing) /\ name e = picked
          /\ restoreSession localeCompare w
             = let '(r, w3, t3) := restoreSessionFromEntry e w2 in
               (r, w3, t1 ++ ask "Select a session to restore" :: t3)).
Proof.
  intros Hlist. cbv zeta.
  assert (Hpick := fun placeHolder =>
            pickSessionEntry_run localeCompare placeHolder w listing w1 t1 Hlist).
  split; [|split].
  - intros Hnone. rewrite Hnone in Hpick. cbn in Hpick.
    unfold restoreSession, restoreNamedSession, deleteSession, overwriteSession, bind.
    rewrite !chooseEntry_none, !Hpick. cbn. now rewrite !app_nil_r.
  - intros Hsome Hdismissed.
    assert (Hlen : (length (entries listing) =? 0)%nat = false).
    { destruct (entries listing); [contradiction|reflexivity]. }
    rewrite Hlen, Hdismissed in Hpick.
    unfold restoreSession, restoreNamedSession, deleteSession, overwriteSession, bind.
    rewrite !chooseEntry_none, !Hpick. cbn. now rewrite !app_nil_r.
  - intros picked Hsome Hpicked Hin.
    assert (Hlen : (length (entries listing) =? 0)%nat = false).
    { destruct (entries listing); [contradiction|reflexivity]. }
    rewrite Hlen, Hpicked in Hpick.
    destruct (List.find (fun entry => String.eqb (name entry) picked) (entries listing))
      as [e|] eqn:Hfind.
    + exists e. split; [reflexivity|].
      destruct (find_some _ _ Hfind) as [He Hname]. apply String.eqb_eq in Hname.
      split; [exact He|]. split; [exact Hname|].
      unfold restoreSession, bind. rewrite Hpick.
      destruct (restoreSessionFromEntry e _) as [[r w3] t3].
      now rewrite <- app_assoc.
    + exfalso. apply in_map_iff in Hin as (e & Hname & He).
      apply (find_none _ _ Hfind) in He. rewrite Hname, String.eqb_refl in He.
      discriminate.
Qed.

(** * Further properties: deleting all sessions *)

Lemma with_disk_same w : with_disk (disk w) w = w.
Proof. now destruct w. Qed.

Lemma unlink_run p w :
  unlink p w =
  (match disk_lookup p (disk w) with
   | Some (File _) => Ok tt
   | Some Directory => Threw "EISDIR"
   | None => Threw "ENOENT"
   end, with_disk (unlinked p (disk w)) w, [Unlink p]).
Proof.
  unfold unlink, unlinked, is_file.
  destruct (disk_lookup p (disk w)) as [[text|]|]; now rewrite ?with_disk_same.
Qed.

Lemma is_file_unlinked p q d :
  is_file (unlinked p d) q = if String.eqb q p then false else is_file d q.
Proof.
  unfold unlinked. destruct (is_file d p) eqn:Hp.
  - unfold is_file. rewrite disk_lookup_remove. now destruct (String.eqb q p).
  - destruct (String.eqb_spec q p) as [->|_]; [exact Hp|reflexivity].
Qed.

Lemma disk_lookup_unlinked p q d :
  disk_lookup q (unlinked p d) =
  if String.eqb q p && is_file d p then None else disk_lookup q d.
Proof.
  unfold unlinked. destruct (is_file d p).
  - rewrite disk_lookup_remove. now destruct (String.eqb q p).
  - now rewrite andb_false_r.
Qed.

Lemma unlink_all_run paths : forall w,
  exists r,
    Promise_all (map unlink paths) w =
      (r, with_disk (fold_left (fun d p => unlinked p d) paths (disk w)) w, map Unlink paths)
    /\ (List.NoDup paths -> (r = Ok tt <-> forall p, In p paths -> is_file (disk w) p = true)).
Proof.
  induction paths as [|p rest IH]; intros w.
  - exists (Ok tt). cbn. rewrite with_disk_same. split; [reflexivity|].
    intros _. split; [intros _ p []|reflexivity].
  - destruct (IH (with_disk (unlinked p (disk w)) w)) as (r & Hrun & Hok).
    cbn [map Promise_all]. rewrite unlink_run, Hrun.
    eexists. split; [reflexivity|].
    intros Hnodup. inversion Hnodup as [|? ? Hp Hrest]; subst.
    specialize (Hok Hrest). cbn [disk with_disk] in Hok.
    change (disk (with_disk ?d _)) with d in Hok.
    assert (Hothers : (forall q, In q rest -> is_file (unlinked p (disk w)) q = true)
                      <-> (forall q, In q rest -> is_file (disk w) q = true)).
    { assert (Hsame : forall q, In q rest ->
                        is_file (unlinked p (disk w)) q = is_file (disk w) q).
      { intros q Hq. rewrite is_file_unlinked.
        destruct (String.eqb_spec q p) as [Heq|_]; [|reflexivity].
        subst q. contradiction. }
      split; intros H q Hq; [rewrite <- Hsame|rewrite Hsame]; auto. }
    destruct (disk_lookup p (disk w)) as [[text|]|] eqn:Hlook.
    + rewrite Hok, Hothers. split.
      * intros H q [<-|Hq]; [unfold is_file; now rewrite Hlook|now apply H].
      * intros H q Hq. apply H. now right.
    + split; [discriminate|]. intros H. specialize (H p (or_introl eq_refl)).
      unfold is_file in H. rewrite Hlook in H. discriminate.
    + split; [discriminate|]. intros H. specialize (H p (or_introl eq_refl)).
      unfold is_file in H. rewrite Hlook in H. discriminate.
Qed.

Lemma disk_lookup_unlinked_all q paths : forall d,
  disk_lookup q (fold_left (fun d p => unlinked p d) paths d) =
  if existsb (String.eqb q) paths && is_file d q then None else disk_lookup q d.
Proof.
  induction paths as [|p rest IH]; intros d; [reflexivity|].
  cbn [fold_left existsb]. rewrite IH, is_file_unlinked, disk_lookup_unlinked.
  destruct (String.eqb_spec q p) as [->|Hne]; cbn [orb andb].
  - rewrite andb_false_r. reflexivity.
  - reflexivity.
Qed.

Lemma In_unlinked_all q node paths : forall d,
  In (q, node) (fold_left (fun d p => unlinked p d) paths d) ->
  In (q, node) d /\ (In q paths -> is_file d q = false).
Proof.
  induction paths as [|p rest IH]; intros d H; [split; [exact H|intros []]|].
  cbn [fold_left] in H. apply IH in H as [Hin Hrest].
  rewrite is_file_unlinked in Hrest.
  assert (Hd : In (q, node) d /\ (q = p -> is_file d p = false)).
  { unfold unlinked in Hin. destruct (is_file d p) eqn:Hp.
    - apply disk_remove_In in Hin as [Hin Hne]. split; [exact Hin|]. now intros ->.
    - now split. }
  destruct Hd as [Hind Hqp]. split; [exact Hind|].
  intros [<-|Hq]; [now apply Hqp|].
  destruct (String.eqb_spec q p) as [->|_]; [now apply Hqp|now apply Hrest].
Qed.

Lemma path_join_nonempty dir file : path_join dir file <> "".
Proof. unfold path_join. destruct dir; discriminate. Qed.

Lemma resolved_quietly options w f :
  promptUser options = Some false ->
  ensureExists options <> Some true ->
  result (resolveSessionDirectory options w) = Ok (Some f) ->
  exists w1,
    resolveSessionDirectory options w = (Ok (Some f), w1, [])
    /\ disk w1 = disk w /\ answers w1 = answers w /\ f <> "".
Proof.
  intros Hp He Hres.
  destruct (resolveSessionDirectory_quiet options w Hp He)
    as (base & evs & w1 & Hrun & Hd & Ha & Hevs).
  rewrite Hrun in Hres. unfold result in Hres. cbn [fst] in Hres.
  destruct base as [b|]; [|discriminate].
  destruct Hevs as [->|(Hb & _)]; [|discriminate].
  exists w1. rewrite Hrun.
  destruct (truthy (Some b)); [|discriminate]. injection Hres as <-.
  repeat split; try assumption.
  destruct (getFileLocationSetting w); apply path_join_nonempty.
Qed.

Lemma deleteAllSessions_confirmed w f :
  result (resolveSessionDirectory
            {| promptUser := Some false; showWarning := Some true; ensureExists := None |} w)
  = Ok (Some f) ->
  disk_lookup f (disk w) = Some Directory ->
  sessionFiles f w <> [] ->
  hd None (answers w) = Some "Delete All" ->
  exists w1 r,
    disk w1 = disk w
    /\ Promise_all (map unlink (map (path_join f) (sessionFiles f w))) w1
       = (r, with_disk (fold_left (fun d p => unlinked p d)
                                  (map (path_join f) (sessionFiles f w)) (disk w)) w1,
          map Unlink (map (path_join f) (sessionFiles f w)))
    /\ (List.NoDup (map (path_join f) (sessionFiles f w)) ->
        (r = Ok tt <->
         forall p, In p (map (path_join f) (sessionFiles f w)) -> is_file (disk w) p = true))
    /\ deleteAllSessions w =
       let ask := ShowModalWarning (deleteAllQuestion (sessionFiles f w) f) ["Delete All"] in
       let gone := with_disk (fold_left (fun d p => unlinked p d)
                                        (map (path_join f) (sessionFiles f w)) (disk w)) w1 in
       let calls := map Unlink (map (path_join f) (sessionFiles f w)) in
       match r with
       | Ok _ =>
           (Ok tt, gone,
            ask :: calls
            ++ [ShowInformationMessage
                  ("Deleted " +:+ show_nat (length (sessionFiles f w)) +:+ " session(s).");
                RefreshTree])
       | Threw code => (Threw code, gone, ask :: calls)
       end.
Proof.
  intros Hres Hdir Hfiles Hans.
  destruct (resolved_quietly
              {| promptUser := Some false; showWarning := Some true; ensureExists := None |}
              w f eq_refl ltac:(discriminate) Hres)
    as (w0 & Hrun & Hd & Ha & Hf).
  set (w1 := with_answers (tl (answers w0)) w0).
  destruct (unlink_all_run (map (path_join f) (sessionFiles f w)) w1) as (r & Hall & Hok).
  change (disk w1) with (disk w0) in Hall, Hok. rewrite Hd in Hall, Hok.
  exists w1, r. split; [exact Hd|]. split; [exact Hall|]. split; [exact Hok|].
  unfold deleteAllSessions, bind at 1. rewrite Hrun. cbv beta iota zeta.
  unfold bind at 1, get_world. cbv beta iota zeta.
  unfold truthy, existsSync. rewrite Hd, Hdir.
  destruct (String.eqb_spec f "") as [->|_]; [contradiction|]. cbn [negb orb].
  unfold bind at 1, readdir. rewrite Hd, Hdir. cbv beta iota zeta.
  fold (sessionFiles f w).
  destruct (sessionFiles f w) as [|file files] eqn:Hsf; [contradiction|].
  change ((length (file :: files) =? 0)%nat) with false. cbv beta iota zeta.
  rewrite <- Hsf in *.
  unfold bind at 1, showModalWarning, prompt_user. cbv beta iota zeta.
  rewrite <- Ha in Hans. rewrite Hans.
  change (is_choice (Some "Delete All") "Delete All") with true. cbn [negb].
  fold w1. unfold bind at 1. rewrite <- map_map, Hall.
  destruct r as [[]|code]; cbn; rewrite ?app_nil_r; reflexivity.
Qed.

Lemma NoDup_path_join f files : List.NoDup files -> List.NoDup (map (path_join f) files).
Proof.
  induction 1 as [|file files Hfile _ IH]; cbn; constructor; [|exact IH].
  intros [file' [Heq Hin]]%in_map_iff. apply path_join_inj in Heq. now subst.
Qed.

Lemma existsb_eqb_In q paths : existsb (String.eqb q) paths = true <-> In q paths.
Proof.
  rewrite existsb_exists. split.
  - intros (p & Hp & ->%String.eqb_eq). exact Hp.
  - intros H. exists q. split; [exact H|apply String.eqb_refl].
Qed.

(** X12.  [deleteAllSessions], confirmed, in a directory whose [.json]
    entries are all regular files: it calls [unlink] once on each of
    them and on nothing else, reports their number and refreshes the
    tree.  Afterwards the directory lists no session; every other path
    of the disk, the entries of the directory without the [.json] ending
    included, is as it was. *)
Theorem deleteAllSessions_empties_the_listing
        (localeCompare : string -> string -> Z) (w : World) (f : string) :
  result (resolveSessionDirectory
            {| promptUser := Some false; showWarning := Some true; ensureExists := None |} w)
  = Ok (Some f) ->
  disk_lookup f (disk w) = Some Directory ->
  List.NoDup (disk_names f (disk w)) ->
  sessionFiles f w <> [] ->
  (forall file, In file (sessionFiles f w) -> is_file (disk w) (path_join f file) = true) ->
  hd None (answers w) = Some "Delete All" ->
  let run := deleteAllSessions w in
  let files := sessionFiles f w in
  result run = Ok tt
  /\ effects run
     = ShowModalWarning (deleteAllQuestion files f) ["Delete All"]
       :: map (fun file => Unlink (path_join f file)) files
       ++ [ShowInformationMessage
             ("Deleted " +:+ show_nat (length files) +:+ " session(s).");
           RefreshTree]
  /\ listed localeCompare f (final run) = []
  /\ (forall file, In file files ->
        disk_lookup (path_join f file) (disk (final run)) = None)
  /\ (forall p, (forall file, In file files -> p <> path_join f file) ->
        disk_lookup p (disk (final run)) = disk_lookup p (disk w)).
Proof.
  intros Hres Hdir Hnodup Hsome Hfiles Hans. cbv zeta.
  destruct (deleteAllSessions_confirmed w f Hres Hdir Hsome Hans)
    as (w1 & r & Hd & _ & Hok & Hrun).
  assert (Hr : r = Ok tt).
  { apply Hok.
    - apply NoDup_path_join, List.NoDup_filter, Hnodup.
    - intros p [file [<- Hin]]%in_map_iff. now apply Hfiles. }
  subst r. rewrite Hrun. cbv zeta. unfold result, effects, final. cbn [fst snd].
  change (disk (with_disk ?d _)) with d.
  split; [reflexivity|]. split; [now rewrite map_map|].
  split; [|split].
  - destruct (listed localeCompare f _) as [|e l] eqn:Hl; [reflexivity|]. exfalso.
    assert (He : In e (e :: l)) by now left. rewrite <- Hl in He.
    apply sessionEntries_In in He as (file & Hin & Hends & _).
    change (disk (with_disk ?d _)) with d in Hin.
    apply disk_names_In in Hin as [Hslash [node Hnode]].
    apply In_unlinked_all in Hnode as [Hnode Hkept].
    assert (Hfile : In file (sessionFiles f w)).
    { apply filter_In. split; [|exact Hends]. apply disk_names_In. eauto. }
    rewrite Hfiles in Hkept by exact Hfile.
    discriminate Hkept. apply in_map_iff. now exists file.
  - intros file Hin. rewrite disk_lookup_unlinked_all.
    rewrite (proj2 (existsb_eqb_In _ _)) by (apply in_map_iff; now exists file).
    now rewrite Hfiles.
  - intros p Hp. rewrite disk_lookup_unlinked_all.
    destruct (existsb (String.eqb p) _) eqn:Hin; [|reflexivity].
    apply existsb_eqb_In, in_map_iff in Hin as (file & <- & Hin).
    now elim (Hp file Hin).
Qed.

(** X13.  [deleteAllSessions] when an entry of the directory that ends
    in [.json] is not a regular file (a directory of that name): the
    [unlink] of that entry is rejected, so the [await] of all the calls
    is, and the command with it.  It shows no message that anything was
    deleted and does not refresh the tree; yet every call was made, and
    the session files that are regular files are gone, while all the rest
    of the disk is as it was. *)
Theorem deleteAllSessions_rejects_for_a_directory (w : World) (f : string) (dir : string) :
  result (resolveSessionDirectory
            {| promptUser := Some false; showWarning := Some true; ensureExists := None |} w)
  = Ok (Some f) ->
  disk_lookup f (disk w) = Some Directory ->
  List.NoDup (disk_names f (disk w)) ->
  In dir (sessionFiles f w) ->
  is_file (disk w) (path_join f dir) = false ->
  hd None (answers w) = Some "Delete All" ->
  let run := deleteAllSessions w in
  let files := sessionFiles f w in
  (exists code, result run = Threw code)
  /\ effects run
     = ShowModalWarning (deleteAllQuestion files f) ["Delete All"]
       :: map (fun file => Unlink (path_join f file)) files
  /\ (forall file, In file files -> is_file (disk w) (path_join f file) = true ->
        disk_lookup (path_join f file) (disk (final run)) = None)
  /\ (forall p, is_file (disk w) p = false ->
        disk_lookup p (disk (final run)) = disk_lookup p (disk w))
  /\ (forall p, (forall file, In file files -> p <> path_join f file) ->
        disk_lookup p (disk (final run)) = disk_lookup p (disk w)).
Proof.
  intros Hres Hdir Hnodup Hin Hnot Hans. cbv zeta.
  assert (Hsome : sessionFiles f w <> []) by (intros H; now rewrite H in Hin).
  destruct (deleteAllSessions_confirmed w f Hres Hdir Hsome Hans)
    as (w1 & r & Hd & _ & Hok & Hrun).
  assert (Hr : exists code, r = Threw code).
  { destruct r as [[]|code]; [|eauto]. exfalso.
    assert (Hall := proj1 (Hok (NoDup_path_join f _ (List.NoDup_filter _ Hnodup))) eq_refl).
    rewrite Hall in Hnot; [discriminate|]. apply in_map_iff. now exists dir. }
  destruct Hr as [code ->]. rewrite Hrun. cbv zeta.
  unfold result, effects, final. cbn [fst snd].
  change (disk (with_disk ?d _)) with d.
  split; [eauto|]. split; [now rewrite map_map|]. split; [|split].
  - intros file Hfile Hisfile. rewrite disk_lookup_unlinked_all.
    rewrite (proj2 (existsb_eqb_In _ _)) by (apply in_map_iff; now exists file).
    now rewrite Hisfile.
  - intros p Hp. rewrite disk_lookup_unlinked_all, Hp. now rewrite andb_false_r.
  - intros p Hp. rewrite disk_lookup_unlinked_all.
    destruct (existsb (String.eqb p) _) eqn:Hex; [|reflexivity].
    apply existsb_eqb_In, in_map_iff in Hex as (file & <- & Hfile).
    now elim (Hp file Hfile).
Qed.

(** X14.  [deleteAllSessions] deletes nothing unless the user answers
    [Delete All]: whatever the storage looks like, with any other answer
    (or none) the disk is left as it was and no [fs] call that writes is
    made.  What the command then says, if anything, is that there is no
    folder or no session. *)
Theorem deleteAllSessions_needs_the_confirmation (w : World) :
  hd None (answers w) <> Some "Delete All" ->
  let run := deleteAllSessions w in
  disk (final run) = disk w
  /\ Forall (fun e => writes_disk e = false) (effects run)
  /\ (forall m, In (ShowInformationMessage m) (effects run) ->
        m = "No session folder found." \/ m = "No sessions to delete.").
Proof.
  intros Hans. cbv zeta.
  destruct (resolveSessionDirectory_quiet
              {| promptUser := Some false; showWarning := Some true; ensureExists := None |}
              w eq_refl ltac:(discriminate))
    as (base & evs & w1 & Hres & Hd & Ha & Hevs).
  assert (Hq : Forall (fun e => writes_disk e = false) evs
               /\ forall m, ~ In (ShowInformationMessage m) evs).
  { destruct Hevs as [->|(_ & _ & m & ->)]; split; repeat constructor;
      intros m' H; inversion H; try discriminate; contradiction. }
  destruct Hq as [Hquiet Hnoinfo].
  destruct (deleteAllSessions w) as [[r w'] t] eqn:Hrun.
  unfold deleteAllSessions, bind at 1 in Hrun. rewrite Hres in Hrun.
  cbv beta iota zeta in Hrun. unfold bind at 1, get_world in Hrun.
  cbv beta iota zeta in Hrun.
  set (folder := if truthy base then _ else None) in *. clearbody folder.
  unfold final, effects. cbn [fst snd].
  assert (Hinfo : forall m,
             (r, w', t) = (let '(r0, w2, t2) := showInformationMessage m w1 in
                           (r0, w2, evs ++ [] ++ t2)) ->
             (m = "No session folder found." \/ m = "No sessions to delete.") ->
             disk w' = disk w
             /\ Forall (fun e => writes_disk e = false) t
             /\ (forall m', In (ShowInformationMessage m') t ->
                   m' = "No session folder found." \/ m' = "No sessions to delete.")).
  { intros m [= -> -> ->] Hm. split; [exact Hd|]. split.
    - apply Forall_app. split; [exact Hquiet|]. repeat constructor.
    - intros m' [H|H]%in_app_or; [now apply Hnoinfo in H|].
      destruct H as [[= <-]|[]]. exact Hm. }
  destruct folder as [f|]; [|apply (Hinfo _ (eq_sym Hrun)); now left].
  destruct (negb (truthy (Some f)) || negb (existsSync f w1)) eqn:Hex;
    [apply (Hinfo _ (eq_sym Hrun)); now left|].
  unfold bind at 1, readdir in Hrun.
  destruct (disk_lookup f (disk w1)) as [[text|]|].
  - injection Hrun as <- <- <-. rewrite !app_nil_r. repeat split; try assumption.
    intros m H. now apply Hnoinfo in H.
  - cbv beta iota zeta in Hrun.
    destruct (length _ =? 0)%nat.
    + revert Hrun. cbn [app]. intros Hrun.
      assert (Hrun' : (r, w', t) =
                      (let '(r0, w2, t2) :=
                         showInformationMessage "No sessions to delete." w1 in
                       (r0, w2, evs ++ [] ++ t2))).
      { rewrite <- Hrun. cbn. reflexivity. }
      apply (Hinfo _ Hrun'). now right.
    + unfold bind at 1, showModalWarning, prompt_user in Hrun.
      cbv beta iota zeta in Hrun. rewrite Ha in Hrun.
      destruct (is_choice (hd None (answers w)) "Delete All") eqn:Hch.
      { apply is_choice_Some in Hch. contradiction. }
      cbn in Hrun. injection Hrun as <- <- <-.
      split; [exact Hd|]. split.
      * apply Forall_app. split; [exact Hquiet|]. repeat constructor.
      * intros m [H|H]%in_app_or; [now apply Hnoinfo in H|].
        destruct H as [H|[]]. discriminate.
  - injection Hrun as <- <- <-. rewrite !app_nil_r. repeat split; try assumption.
    intros m H. now apply Hnoinfo in H.
Qed.

(** * Further properties: changing the storage location *)

Lemma changeFileLocation_run w :
  changeFileLocation w =
  let w0 := with_answers (tl (answers w)) w in
  match selectedOption (hd None (answers w)) with
  | None => (Ok tt, w0, [locationPick])
  | Some opt =>
      match LocationOption.value opt with
      | global =>
          (Ok tt, final (updateConfigValue_fileLocation global w0),
           [locationPick; ShowInformationMessage "Session storage set to global storage.";
            RefreshTree])
      | workspace =>
          let '(r, w1, t1) := resolveWorkspaceBase true true w0 in
          match r with
          | Ok (Some f) =>
              if String.eqb f "" then (Ok tt, w1, locationPick :: t1)
              else (Ok tt, final (updateConfigValue_fileLocation workspace w1),
                    locationPick :: t1
                    ++ [ShowInformationMessage
                          ("Session storage set to workspace folder: " +:+ f);
                        RefreshTree])
          | Ok None => (Ok tt, w1, locationPick :: t1)
          | Threw code => (Threw code, w1, locationPick :: t1)
          end
      | custom =>
          let '(r, w1, t1) := resolveCustomBase true true w0 in
          match r with
          | Ok (Some f) =>
              if String.eqb f "" then (Ok tt, w1, locationPick :: t1)
              else (Ok tt, final (updateConfigValue_fileLocation custom w1),
                    locationPick :: t1
                    ++ [ShowInformationMessage
                          ("Session storage set to custom folder: " +:+ f);
                        RefreshTree])
          | Ok None => (Ok tt, w1, locationPick :: t1)
          | Threw code => (Threw code, w1, locationPick :: t1)
          end
      end
  end.
Proof.
  unfold changeFileLocation, bind at 1, showQuickPick, prompt_user. cbv beta iota zeta.
  fold locationPick.
  destruct (selectedOption (hd None (answers w))) as [opt|]; [|reflexivity].
  unfold bind at 1.
  destruct (LocationOption.value opt).
  - unfold bind at 1.
    destruct (resolveWorkspaceBase true true _) as [[[[f|]|code] w1] t1]; cbn;
      rewrite ?app_nil_r; try reflexivity.
    destruct (String.eqb f ""); cbn; rewrite ?app_nil_r, <- ?app_assoc; reflexivity.
  - reflexivity.
  - unfold bind at 1.
    destruct (resolveCustomBase true true _) as [[[[f|]|code] w1] t1]; cbn;
      rewrite ?app_nil_r; try reflexivity.
    destruct (String.eqb f ""); cbn; rewrite ?app_nil_r, <- ?app_assoc; reflexivity.
Qed.

(** X15.  [changeFileLocation] changes settings only.  It never rejects
    and makes no [fs] call: the disk is as it was, so the sessions stored
    at the old location stay where they are.  The setting [fileLocation]
    changes only in a run that ends with the refresh of the tree, and then
    to the location of the item the user picked; a run in which the list is
    dismissed, or no base folder is found or chosen, leaves it as it
    was. *)
Theorem changeFileLocation_changes_settings_only (w : World) :
  let run := changeFileLocation w in
  result run = Ok tt
  /\ disk (final run) = disk w
  /\ Forall (fun e => writes_disk e = false) (effects run)
  /\ (~ In RefreshTree (effects run) ->
      fileLocation (configuration (final run)) = fileLocation (configuration w))
  /\ (In RefreshTree (effects run) ->
      exists opt,
        In opt locationOptions
        /\ hd None (answers w) = Some (LocationOption.label opt)
        /\ fileLocation (configuration (final run)) = LocationOption.value opt
        /\ last (effects run) = Some RefreshTree).
Proof.
  cbv zeta. rewrite changeFileLocation_run. cbv zeta.
  set (w0 := with_answers (tl (answers w)) w).
  destruct (selectedOption (hd None (answers w))) as [opt|] eqn:Hsel.
  2:{ unfold result, final, effects. cbn [fst snd]. repeat split.
      - repeat constructor.
      - intros [H|[]]. discriminate. }
  assert (Hopt : In opt locationOptions
                 /\ hd None (answers w) = Some (LocationOption.label opt)).
  { unfold selectedOption in Hsel. destruct (hd None (answers w)) as [picked|]; [|discriminate].
    apply find_some in Hsel as [Hin Heq]. apply String.eqb_eq in Heq. now subst. }
  destruct Hopt as [Hin Hlabel].
  assert (Hbase : forall (location : SessionLocationSetting) r w1 t1 (message : string -> string),
             disk w1 = disk w0 ->
             fileLocation (configuration w1) = fileLocation (configuration w0) ->
             Forall (fun e => writes_disk e = false /\ e <> RefreshTree) t1 ->
             LocationOption.value opt = location ->
             let run :=
               match r with
               | Some f =>
                   if String.eqb f "" then (Ok tt, w1, locationPick :: t1)
                   else (Ok tt, final (updateConfigValue_fileLocation location w1),
                         locationPick :: t1
                         ++ [ShowInformationMessage (message f); RefreshTree])
               | None => (Ok tt, w1, locationPick :: t1)
               end in
             result run = Ok tt
             /\ disk (final run) = disk w
             /\ Forall (fun e => writes_disk e = false) (effects run)
             /\ (~ In RefreshTree (effects run) ->
                 fileLocation (configuration (final run)) = fileLocation (configuration w))
             /\ (In RefreshTree (effects run) ->
                 exists opt,
                   In opt locationOptions
                   /\ hd None (answers w) = Some (LocationOption.label opt)
                   /\ fileLocation (configuration (final run)) = LocationOption.value opt
                   /\ last (effects run) = Some RefreshTree)).
  { intros location r w1 t1 message Hd Hloc Hquiet Hvalue. cbv zeta.
    assert (Hw : Forall (fun e => writes_disk e = false) t1).
    { eapply List.Forall_impl; [|exact Hquiet]. now intros e [H _]. }
    assert (Hno : ~ In RefreshTree (locationPick :: t1)).
    { intros [H|H]; [discriminate|]. rewrite List.Forall_forall in Hquiet.
      now destruct (Hquiet _ H). }
    assert (Hstay : forall (o : Result unit * World * list Effect),
               o = (Ok tt, w1, locationPick :: t1) ->
               result o = Ok tt
               /\ disk (final o) = disk w
               /\ Forall (fun e => writes_disk e = false) (effects o)
               /\ (~ In RefreshTree (effects o) ->
                   fileLocation (configuration (final o)) = fileLocation (configuration w))
               /\ (In RefreshTree (effects o) ->
                   exists opt,
                     In opt locationOptions
                     /\ hd None (answers w) = Some (LocationOption.label opt)
                     /\ fileLocation (configuration (final o)) = LocationOption.value opt
                     /\ last (effects o) = Some RefreshTree)).
    { intros o ->. unfold result, final, effects. cbn [fst snd].
      split; [reflexivity|]. split; [exact Hd|]. split; [now constructor|].
      split; [intros _; exact Hloc|]. intros H. contradiction. }
    destruct r as [f|]; [|now apply Hstay].
    destruct (String.eqb f ""); [now apply Hstay|].
    unfold result, final, effects. cbn [fst snd].
    split; [reflexivity|]. split; [exact Hd|]. split.
    { constructor; [reflexivity|]. apply Forall_app. split; [exact Hw|repeat constructor]. }
    split.
    { intros H. exfalso. apply H. right. apply in_or_app. right. right. now left. }
    intros _. exists opt. repeat split; try assumption.
    - cbn. now rewrite Hvalue.
    - rewrite app_comm_cons.
      change [ShowInformationMessage (message f); RefreshTree]
        with ([ShowInformationMessage (message f)] ++ [RefreshTree]).
      rewrite app_assoc. apply last_snoc_effect. }
  destruct (LocationOption.value opt) eqn:Hvalue.
  - destruct (resolveWorkspaceBase_inv true true w0)
      as (r & w1 & t1 & -> & Hd & Hloc & _ & Hquiet & _).
    exact (Hbase workspace r w1 t1
             (fun f => "Session storage set to workspace folder: " +:+ f)
             Hd Hloc Hquiet eq_refl).
  - unfold result, final, effects. cbn [fst snd].
    split; [reflexivity|]. split; [reflexivity|]. split; [repeat constructor|].
    split.
    { intros H. exfalso. apply H. right. right. now left. }
    intros _. exists opt. now repeat split.
  - destruct (resolveCustomBase_inv true true w0)
      as (r & w1 & t1 & -> & Hd & Hloc & _ & Hquiet & _).
    exact (Hbase custom r w1 t1
             (fun f => "Session storage set to custom folder: " +:+ f)
             Hd Hloc Hquiet eq_refl).
Qed.

Lemma resolveSessionDirectory_known options w base :
  ensureExists options <> Some true ->
  base <> "" ->
  match getFileLocationSetting w with
  | workspace => workspaceFolder (configuration w) = base /\ existsSync base w = true
  | global => globalStoragePath w = base
  | custom => customFolder (configuration w) = base /\ existsSync base w = true
  end ->
  resolveSessionDirectory options w
  = (Ok (Some (sessionFolderUnder (getFileLocationSetting w) base)), w, []).
Proof.
  intros He Hb Hknown. unfold resolveSessionDirectory.
  assert (Hens : default false (ensureExists options) = false).
  { destruct (ensureExists options) as [[]|]; [now elim He|reflexivity|reflexivity]. }
  rewrite Hens. unfold bind at 1, get_world. cbv beta iota zeta.
  unfold bind at 1. apply String.eqb_neq in Hb.
  destruct (getFileLocationSetting w).
  - destruct Hknown as [Hst Hex].
    rewrite (resolveWorkspaceBase_stored base w Hst) by (try apply String.eqb_neq; assumption).
    cbn [truthy]. rewrite Hb. reflexivity.
  - rewrite <- Hknown in *. unfold ret at 1. cbv beta iota zeta.
    cbn [truthy]. rewrite Hb. reflexivity.
  - destruct Hknown as [Hst Hex].
    rewrite (resolveCustomBase_stored base w Hst) by (try apply String.eqb_neq; assumption).
    cbn [truthy]. rewrite Hb. reflexivity.
Qed.

(** X16.  The location chosen with [changeFileLocation] is the one in
    use afterwards.  When the user picks an item of the list and a base
    folder is there (the global storage path; for the workspace and the
    custom location the folder that resolves, which is on the disk), the
    setting holds the location of that item afterwards, and every later
    look-up of the session directory that does not have to create it
    answers [sessions] under that base at once, below [.vscode] for the
    workspace location: no prompt, no warning, no change. *)
Theorem chosen_location_is_used_afterwards (w : World) (opt : LocationOption.t)
        (base : string) (options : ResolveOptions) :
  In opt locationOptions ->
  hd None (answers w) = Some (LocationOption.label opt) ->
  match LocationOption.value opt with
  | workspace =>
      result (resolveWorkspaceBase true true (with_answers (tl (answers w)) w))
      = Ok (Some base)
      /\ existsSync base w = true
  | global => globalStoragePath w = base
  | custom =>
      result (resolveCustomBase true true (with_answers (tl (answers w)) w))
      = Ok (Some base)
      /\ existsSync base w = true
  end ->
  base <> "" ->
  ensureExists options <> Some true ->
  let run := changeFileLocation w in
  getFileLocationSetting (final run) = LocationOption.value opt
  /\ last (effects run) = Some RefreshTree
  /\ resolveSessionDirectory options (final run)
     = (Ok (Some (sessionFolderUnder (LocationOption.value opt) base)), final run, []).
Proof.
  intros Hin Hlabel Hbase Hb He. cbv zeta.
  assert (Hsel : selectedOption (hd None (answers w)) = Some opt).
  { rewrite Hlabel. destruct Hin as [<-|[<-|[<-|[]]]]; reflexivity. }
  rewrite changeFileLocation_run. cbv zeta. rewrite Hsel.
  assert (Hneb : String.eqb base "" = false) by now apply String.eqb_neq.
  destruct (LocationOption.value opt) eqn:Hvalue.
  - destruct Hbase as [Hres Hex].
    destruct (resolveWorkspaceBase_inv true true (with_answers (tl (answers w)) w))
      as (r & w1 & t1 & Hrun & Hd & _ & _ & _ & Hst).
    rewrite Hrun in *. unfold result in Hres. cbn [fst] in Hres. injection Hres as ->.
    rewrite Hneb. unfold final, effects. cbn [fst snd].
    split; [reflexivity|]. split.
    { rewrite app_comm_cons.
      change [ShowInformationMessage ?m; RefreshTree]
        with ([ShowInformationMessage m] ++ [RefreshTree]).
      rewrite app_assoc. apply last_snoc_effect. }
    apply (resolveSessionDirectory_known options
             (final (updateConfigValue_fileLocation workspace w1)) base He Hb).
    cbn. split; [now apply Hst|]. unfold existsSync in *. cbn. now rewrite Hd.
  - unfold final, effects. cbn [fst snd].
    split; [reflexivity|]. split; [reflexivity|].
    apply (resolveSessionDirectory_known options
             (final (updateConfigValue_fileLocation global
                       (with_answers (tl (answers w)) w))) base He Hb).
    exact Hbase.
  - destruct Hbase as [Hres Hex].
    destruct (resolveCustomBase_inv true true (with_answers (tl (answers w)) w))
      as (r & w1 & t1 & Hrun & Hd & _ & _ & _ & Hst).
    rewrite Hrun in *. unfold result in Hres. cbn [fst] in Hres. injection Hres as ->.
    rewrite Hneb. unfold final, effects. cbn [fst snd].
    split; [reflexivity|]. split.
    { rewrite app_comm_cons.
      change [ShowInformationMessage ?m; RefreshTree]
        with ([ShowInformationMessage m] ++ [RefreshTree]).
      rewrite app_assoc. apply last_snoc_effect. }
    apply (resolveSessionDirectory_known options
             (final (updateConfigValue_fileLocation custom w1)) base He Hb).
    cbn. split; [now apply Hst|]. unfold existsSync in *. cbn. now rewrite Hd.
Qed.

(** * Further properties: the sidebar *)

Lemma listSessions_quiet localeCompare options w :
  promptUser options = Some false ->
  ensureExists options <> Some true ->
  exists r w1 evs,
    listSessions localeCompare options w = (r, w1, evs)
    /\ disk w1 = disk w /\ answers w1 = answers w
    /\ Forall (fun e => is_prompt e = false /\ writes_disk e = false) evs
    /\ (showWarning options = Some false -> evs = [])
    /\ (forall listing, r = Ok listing ->
          match folder listing with
          | Some f =>
              entries listing = [] \/ entries listing = listed localeCompare f w
          | None => entries listing = []
          end).
Proof.
  intros Hp He.
  destruct (resolveSessionDirectory_quiet options w Hp He)
    as (base & evs & w1 & Hres & Hd & Ha & Hevs).
  set (fo := if truthy base then _ else None) in Hres. clearbody fo.
  assert (Hq : Forall (fun e => is_prompt e = false /\ writes_disk e = false) evs
               /\ (showWarning options = Some false -> evs = [])).
  { destruct Hevs as [->|(_ & Hw & m & ->)]; split; repeat constructor; try reflexivity.
    intros H. now elim Hw. }
  destruct Hq as [Hquiet Hoff].
  unfold listSessions, bind at 1. rewrite Hres. cbv beta iota zeta.
  unfold bind at 1, get_world. cbv beta iota zeta.
  destruct fo as [f|].
  2:{ eexists _, _, _. split; [reflexivity|]. rewrite !app_nil_r.
      repeat split; try assumption. now intros listing [= <-]. }
  destruct (negb (truthy (Some f)) || negb (existsSync f w1)).
  { eexists _, _, _. split; [reflexivity|]. rewrite !app_nil_r.
    repeat split; try assumption. intros listing [= <-]. now left. }
  unfold bind at 1, readdir.
  destruct (disk_lookup f (disk w1)) as [[text|]|];
    eexists _, _, _; (split; [reflexivity|]); rewrite !app_nil_r;
    repeat split; try assumption; try discriminate.
  intros listing [= <-]. right. cbn. unfold listed. now rewrite Hd.
Qed.

Lemma getChildren_root localeCompare w :
  getChildren localeCompare None w =
  match listSessions localeCompare
          {| promptUser := Some false; showWarning := Some false; ensureExists := None |} w
  with
  | (Ok listing, w1, t1) =>
      (Ok ([saveItem; changeLocationItem; deleteAllItem; locationItem w1 listing]
           ++ (if (0 <? length (entries listing))%nat then [headerItem] else [])
           ++ map sessionItem (entries listing)), w1, t1)
  | (Threw code, w1, t1) => (Threw code, w1, t1)
  end.
Proof.
  unfold getChildren, bind, get_world, ret.
  destruct (listSessions _ _ w) as [[[listing|code] w1] t1]; [|reflexivity].
  now rewrite !app_nil_r.
Qed.

Lemma sessionsShown_app a b : sessionsShown (a ++ b) = sessionsShown a ++ sessionsShown b.
Proof. apply flat_map_app. Qed.

Lemma sessionsShown_sessionItems l : sessionsShown (map sessionItem l) = l.
Proof. induction l as [|e l IH]; [reflexivity|]. cbn. now f_equal. Qed.

(** X17.  The root of the tree view.  Listing the sessions for the tree
    asks nothing, warns about nothing and leaves the disk alone, whatever
    the world.  When the listing succeeds, the root shows the three
    commands and the storage line, then the header when there is a
    session, then the sessions: one item for each listed session and no
    other, in the order of the listing, labelled with the name of the
    session and carrying its record.  Choosing one of the three commands
    runs [saveSession], [changeFileLocation] or [deleteAllSessions]. *)
Theorem tree_root_shows_the_listing (localeCompare : string -> string -> Z) (w : World) :
  let run := getChildren localeCompare None w in
  let options := {| promptUser := Some false; showWarning := Some false;
                    ensureExists := None |} in
  effects run = []
  /\ disk (final run) = disk w
  /\ answers (final run) = answers w
  /\ (forall code, result run = Threw code <->
                   result (listSessions localeCompare options w) = Threw code)
  /\ (forall listing,
        result (listSessions localeCompare options w) = Ok listing ->
        exists storage,
          result run
          = Ok ([saveItem; changeLocationItem; deleteAllItem; storage]
                ++ (if (0 <? length (entries listing))%nat then [headerItem] else [])
                ++ map sessionItem (entries listing))
          /\ SessionItem.entry storage = None
          /\ SessionItem.command storage = None
          /\ SessionItem.tooltip storage
             = Some (default "Storage directory is not available." (folder listing))
          /\ (forall items, result run = Ok items ->
                sessionsShown items = entries listing
                /\ (forall item e, In item items -> SessionItem.entry item = Some e ->
                      item = sessionItem e /\ SessionItem.label item = name e)))
  /\ runTreeItem localeCompare saveItem = Some saveSession
  /\ runTreeItem localeCompare changeLocationItem = Some changeFileLocation
  /\ runTreeItem localeCompare deleteAllItem = Some deleteAllSessions.
Proof.
  cbv zeta.
  destruct (listSessions_quiet localeCompare
              {| promptUser := Some false; showWarning := Some false; ensureExists := None |}
              w eq_refl ltac:(discriminate))
    as (r & w1 & evs & Hlist & Hd & Ha & _ & Hoff & _).
  rewrite (Hoff eq_refl) in Hlist. clear Hoff evs.
  rewrite getChildren_root, Hlist. unfold result, final, effects.
  destruct r as [listing|code]; cbn [fst snd].
  - split; [reflexivity|]. split; [exact Hd|]. split; [exact Ha|].
    split; [split; discriminate|].
    split; [|now repeat split].
    intros listing' [= <-]. exists (locationItem w1 listing).
    split; [reflexivity|]. split; [reflexivity|]. split; [reflexivity|].
    split; [reflexivity|].
    intros items [= <-]. split.
    + change (sessionsShown ((if (0 <? length (entries listing))%nat
                              then [headerItem] else [])
                             ++ map sessionItem (entries listing)) = entries listing).
      rewrite sessionsShown_app, sessionsShown_sessionItems.
      now destruct (0 <? _)%nat.
    + intros item e Hin He.
      cbn [app] in Hin. destruct Hin as [<-|[<-|[<-|[<-|Hin]]]]; try discriminate He.
      apply in_app_or in Hin as [Hin|Hin].
      * destruct (0 <? _)%nat; [|destruct Hin]. destruct Hin as [<-|[]]. discriminate He.
      * apply in_map_iff in Hin as (e' & <- & _). cbn in He. injection He as <-.
        now split.
  - split; [reflexivity|]. split; [exact Hd|]. split; [exact Ha|].
    split; [intros c; split; intros [= ->]; reflexivity|]. split; [discriminate|].
    now repeat split.
Qed.

Lemma chooseEntry_missing localeCompare record placeHolder w :
  existsSync (fullPath record) w = false ->
  chooseEntry localeCompare (Some (inl record)) placeHolder w =
  let '(r, w', evs) := pickSessionEntry localeCompare placeHolder w in
  (r, w', ShowWarningMessage ("Session file not found: " +:+ fullPath record) :: evs).
Proof.
  intros Hex. unfold chooseEntry, entryFromArgument, bind at 1 2, get_world.
  cbv beta iota zeta. rewrite Hex. cbn.
  now destruct (pickSessionEntry localeCompare placeHolder w) as [[r w'] evs].
Qed.

(** X18.  The children of a session in the tree view, and what they
    run.  A session item has four children: restore, overwrite, delete and
    the list of its files; none of them has children that are commands of
    their own (the first three are leaves).  Choosing one of the first
    three runs the command [activate] registered under that name with the
    record of the very session as its argument.  When the file of the
    session is on the disk the command then acts on that session without
    asking which one; when the file is gone (the tree is out of date) it
    warns that the file was not found and falls back to the picker. *)
Theorem session_actions_run_on_their_session
        (localeCompare : string -> string -> Z)
        (item : SessionItem.t) (e : SessionFileRecord) (w : World) :
  SessionItem.kind item = SessionItemKind.session ->
  SessionItem.entry item = Some e ->
  getChildren localeCompare (Some item) w
  = (Ok [restoreItem e; overwriteItem e; deleteItem e; filesRootItem e], w, [])
  /\ getChildren localeCompare (Some (sessionItem e)) w
     = getChildren localeCompare (Some item) w
  /\ (forall child, In child [restoreItem e; overwriteItem e; deleteItem e] ->
        getChildren localeCompare (Some child) w = (Ok [], w, []))
  /\ runTreeItem localeCompare (restoreItem e)
     = Some (restoreNamedSession localeCompare (Some (inl e)))
  /\ runTreeItem localeCompare (overwriteItem e)
     = Some (overwriteSession localeCompare (Some (inl e)))
  /\ runTreeItem localeCompare (deleteItem e)
     = Some (deleteSession localeCompare (Some (inl e)))
  /\ runTreeItem localeCompare (filesRootItem e) = None
  /\ (existsSync (fullPath e) w = true ->
      deleteSession localeCompare (Some (inl e)) w = deleteSessionEntry e w
      /\ overwriteSession localeCompare (Some (inl e)) w = overwriteSessionEntry e w)
  /\ (existsSync (fullPath e) w = false ->
      forall placeHolder,
        chooseEntry localeCompare (Some (inl e)) placeHolder w
        = let '(r, w', evs) := pickSessionEntry localeCompare placeHolder w in
          (r, w', ShowWarningMessage ("Session file not found: " +:+ fullPath e) :: evs)).
Proof.
  intros Hkind Hentry.
  split; [unfold getChildren; now rewrite Hkind, Hentry|].
  split; [unfold getChildren; now rewrite Hkind, Hentry|].
  split; [intros child [<-|[<-|[<-|[]]]]; reflexivity|].
  split; [reflexivity|]. split; [reflexivity|]. split; [reflexivity|].
  split; [reflexivity|]. split.
  - intros Hex. split; [now apply deleteSession_record|now apply overwriteSession_record].
  - intros Hex placeHolder. now apply chooseEntry_missing.
Qed.

Lemma fileItem_run e t w :
  fileItem e t w =
  match documentOf t with
  | Some u => (Ok (fileItemFor e t u), w, [])
  | None => (Threw "UriError", w, [])
  end.
Proof.
  unfold fileItem, Uri_parse, documentOf, bind.
  now destruct (vscode.parse (uri t)).
Qed.

Lemma Array_map_fileItem e tabStates w :
  Array_map (fileItem e) tabStates w =
  (if forallb parses tabStates then Ok (fileItems e tabStates) else Threw "UriError", w, []).
Proof.
  induction tabStates as [|t l IH]; [reflexivity|].
  cbn [Array_map forallb]. unfold fileItems. cbn [flat_map]. fold (fileItems e l).
  unfold bind at 1. rewrite fileItem_run. unfold parses at 1.
  destruct (documentOf t) as [u|]; [|reflexivity].
  unfold bind at 1. rewrite IH.
  now destruct (forallb parses l).
Qed.

Lemma getChildren_filesRoot localeCompare item e w :
  SessionItem.kind item = SessionItemKind.filesRoot ->
  SessionItem.entry item = Some e ->
  getChildren localeCompare (Some item) w =
  match readSessionFile (fullPath e) w with
  | (Ok (Some data), w1, t1) =>
      match tabs_of_json (tabs data) with
      | Some tabStates =>
          (if forallb parses tabStates then Ok (fileItems e tabStates)
           else Threw "UriError", w1, t1)
      | None => (Threw "not a SavedTabState", w1, t1)
      end
  | (Ok None, w1, t1) => (Ok [], w1, t1)
  | (Threw code, w1, t1) => (Threw code, w1, t1)
  end.
Proof.
  intros Hkind Hentry. unfold getChildren. rewrite Hkind, Hentry. unfold bind.
  destruct (readSessionFile (fullPath e) w) as [[[[data|]|code] w1] t1];
    try (cbn; rewrite ?app_nil_r; reflexivity).
  destruct (tabs_of_json (tabs data)) as [tabStates|]; [|cbn; now rewrite app_nil_r].
  rewrite Array_map_fileItem. now rewrite app_nil_r.
Qed.

Lemma fileItems_nth e tabStates : forall k t,
  forallb parses tabStates = true ->
  nth_error tabStates k = Some t ->
  exists u, documentOf t = Some u
            /\ nth_error (fileItems e tabStates) k = Some (fileItemFor e t u).
Proof.
  induction tabStates as [|t0 l IH]; intros k t; [now destruct k|].
  cbn [forallb]. intros [H0 Hl]%andb_prop.
  apply parses_documentOf in H0 as [u0 Hu0].
  unfold fileItems. cbn [flat_map]. rewrite Hu0. fold (fileItems e l).
  destruct k as [|k]; cbn [nth_error app].
  - intros [= <-]. now exists u0.
  - intros Hk. now apply IH.
Qed.

Lemma fileItems_snapshot e (f : Collected.t -> SavedTabState) cs :
  (forall c, uri (f c) = vscode.toString (Collected.uri c)) ->
  fileItems e (map f cs) = map (fun c => fileItemFor e (f c) (Collected.uri c)) cs.
Proof.
  intros Hf. induction cs as [|c cs IH]; [reflexivity|].
  unfold fileItems. cbn [map flat_map]. fold (fileItems e (map f cs)).
  unfold documentOf. now rewrite Hf, parse_toString, IH.
Qed.

(** X19.  The files of a session in the tree view.  For a session file
    as a save writes it, [View Files] reads the file and changes nothing.
    When [Uri.parse] takes the [uri] of every descriptor it has one item
    for each descriptor, in the order of the file (not the replay order);
    the item is labelled with the last component of the document's path,
    says [Group g, Tab t] with the stored indexes counted from one,
    carries the path, and opens the document when chosen.  When
    [Uri.parse] rejects one of them, [getChildren] rejects and the tree
    shows no file at all.  For the snapshot of an arrangement the items
    are there, with the paths and documents of its file tabs.  When the
    file cannot be read as a session, [View Files] is empty and what the
    user sees is the warning of [readSessionFile]. *)
Theorem view_files_shows_the_saved_tabs
        (localeCompare : string -> string -> Z)
        (item : SessionItem.t) (e : SessionFileRecord) (w : World) :
  SessionItem.kind item = SessionItemKind.filesRoot ->
  SessionItem.entry item = Some e ->
  let run := getChildren localeCompare (Some item) w in
  (forall sd,
     stores w (fullPath e) sd ->
     final run = w
     /\ effects run = []
     /\ (forallb parses (tabs sd) = false -> result run = Threw "UriError")
     /\ (forallb parses (tabs sd) = true ->
         exists items,
           result run = Ok items
           /\ length items = length (tabs sd)
           /\ forall k t,
                nth_error (tabs sd) k = Some t ->
                exists shown u,
                  nth_error items k = Some shown
                  /\ documentOf t = Some u
                  /\ SessionItem.label shown = path_basename_only (vscode.fsPath u)
                  /\ SessionItem.description shown
                     = Some ("Group " +:+ show_Z (groupIndex t + 1)
                             +:+ ", Tab " +:+ show_Z (tabIndex t + 1))
                  /\ SessionItem.fileEntryPath shown = Some (vscode.fsPath u)
                  /\ SessionItem.command shown
                     = Some {| Command.command := "vscode.open";
                               Command.title := "Open File";
                               Command.arguments := [UriArgument u] |}
                  /\ SessionItem.entry shown = Some e
                  /\ getChildren localeCompare (Some shown) w = (Ok [], w, [])))
  /\ (forall w0,
        stores w (fullPath e) (createSessionSnapshot w0) ->
        exists items,
          run = (Ok items, w, [])
          /\ map SessionItem.fileEntryPath items
             = map (fun c => Some (vscode.fsPath (Collected.uri c))) (collectTextTabs w0)
          /\ map SessionItem.command items
             = map (fun c => Some {| Command.command := "vscode.open";
                                     Command.title := "Open File";
                                     Command.arguments := [UriArgument (Collected.uri c)] |})
                   (collectTextTabs w0))
  /\ (result (readSessionFile (fullPath e) w) = Ok None ->
      result run = Ok []
      /\ effects run = effects (readSessionFile (fullPath e) w)
      /\ final run = final (readSessionFile (fullPath e) w)).
Proof.
  intros Hkind Hentry. cbv zeta.
  rewrite (getChildren_filesRoot localeCompare item e w Hkind Hentry).
  split; [|split].
  - intros sd Hs. rewrite (readSessionFile_stored w _ sd Hs). cbn [tabs].
    rewrite tabs_of_json_of_tabs. unfold final, effects, result. cbn [fst snd].
    split; [reflexivity|]. split; [reflexivity|]. split; [now intros ->|].
    intros Hp. rewrite Hp. exists (fileItems e (tabs sd)). split; [reflexivity|]. split.
    + clear Hs. induction (tabs sd) as [|t l IH]; [reflexivity|].
      cbn [forallb] in Hp. apply andb_prop in Hp as [Ht Hl].
      apply parses_documentOf in Ht as [u Hu].
      unfold fileItems. cbn [flat_map]. rewrite Hu. fold (fileItems e l).
      cbn. now rewrite IH.
    + intros k t Hk. destruct (fileItems_nth e (tabs sd) k t Hp Hk) as (u & Hu & Hnth).
      exists (fileItemFor e t u), u. now repeat split.
  - intros w0 Hs. rewrite (readSessionFile_stored w _ _ Hs). cbn [tabs].
    rewrite tabs_of_json_of_tabs, own_snapshot_parses. eexists. split; [reflexivity|].
    unfold createSessionSnapshot. cbn [tabs].
    rewrite fileItems_snapshot by reflexivity. rewrite !map_map. now split.
  - intros Hnone.
    destruct (readSessionFile (fullPath e) w) as [[[[data|]|code] w1] t1];
      try discriminate Hnone. now repeat split.
Qed.

(** * Further properties: what a save leaves on the disk *)

Lemma disk_lookup_write_same p n d : disk_lookup p (disk_write p n d) = Some n.
Proof.
  induction d as [|[q m] d IH]; cbn; [now rewrite String.eqb_refl|].
  destruct (String.eqb_spec q p) as [->|Hne]; cbn.
  - now rewrite String.eqb_refl.
  - destruct (String.eqb_spec q p); [contradiction|exact IH].
Qed.

Lemma disk_lookup_write_other p q n d :
  q <> p -> disk_lookup q (disk_write p n d) = disk_lookup q d.
Proof.
  intros Hne. induction d as [|[r m] d IH]; cbn.
  - destruct (String.eqb_spec p q); [now subst|reflexivity].
  - destruct (String.eqb_spec r p) as [->|Hrp]; cbn.
    + destruct (String.eqb_spec p q); [now subst|reflexivity].
    + now rewrite IH.
Qed.

Lemma disk_lookup_app q d extra :
  disk_lookup q (d ++ extra) =
  match disk_lookup q d with
  | Some n => Some n
  | None => disk_lookup q extra
  end.
Proof.
  induction d as [|[r m] d IH]; cbn; [reflexivity|].
  now destruct (String.eqb r q).
Qed.

(** [mkdir] with [recursive] only adds directories, at the end of the
    disk, on the way to the path it makes. *)
Lemma add_directories chain : forall d,
  exists extra,
    fold_left add_directory chain d = d ++ extra
    /\ Forall (fun entry => snd entry = Directory /\ In (fst entry) chain) extra.
Proof.
  induction chain as [|p chain IH]; intros d.
  - exists []. cbn. now rewrite app_nil_r.
  - cbn [fold_left]. destruct (IH (add_directory d p)) as (extra & -> & Hextra).
    assert (Hmore : Forall (fun entry => snd entry = Directory /\ In (fst entry) (p :: chain))
                           extra).
    { eapply List.Forall_impl; [|exact Hextra]. intros [q n] [Hn Hq]. split; [exact Hn|].
      now right. }
    unfold add_directory. destruct (disk_lookup p d).
    + now exists extra.
    + exists ((p, Directory) :: extra). rewrite <- app_assoc. split; [reflexivity|].
      constructor; [|exact Hmore]. split; [reflexivity|now left].
Qed.

Lemma mkdir_recursive_run dirPath w :
  exists extra,
    Forall (fun entry => snd entry = Directory /\ In (fst entry) (dir_chain "" dirPath)) extra
    /\ ((exists code, mkdir_recursive dirPath w = (Threw code, w, [Mkdir dirPath]))
        \/ mkdir_recursive dirPath w
           = (Ok tt, with_disk (disk w ++ extra) w, [Mkdir dirPath])).
Proof.
  unfold mkdir_recursive.
  destruct (add_directories (dir_chain "" dirPath) (disk w)) as (extra & Heq & Hextra).
  exists extra. split; [exact Hextra|].
  destruct (is_file (disk w) dirPath); [left; eauto|].
  destruct (existsb _ _); [left; eauto|right]. now rewrite Heq.
Qed.

Lemma disk_lookup_extra q extra (chain : list string) n :
  Forall (fun entry => snd entry = Directory /\ In (fst entry) chain) extra ->
  disk_lookup q extra = Some n -> n = Directory /\ In q chain.
Proof.
  induction 1 as [|[p m] extra [Hm Hp] _ IH]; cbn; [discriminate|].
  destruct (String.eqb_spec p q) as [->|_]; [|exact IH].
  cbn in Hm, Hp. intros [= <-]. now split.
Qed.

Lemma writeFile_run filePath text w :
  writeFile filePath text w = (Threw "EISDIR", w, [WriteFile filePath])
  \/ writeFile filePath text w = (Threw "ENOENT", w, [WriteFile filePath])
  \/ writeFile filePath text w
     = (Ok tt, with_disk (disk_write filePath (File text) (disk w)) w, [WriteFile filePath]).
Proof.
  unfold writeFile.
  destruct (disk_lookup filePath (disk w)) as [[t|]|];
    try destruct (parent_exists filePath (disk w)); auto.
Qed.

Lemma overwriteSessionEntry_confirmed entry w :
  hd None (answers w) = Some "Overwrite" ->
  unsavedDocs w = [] ->
  tabs (createSessionSnapshot w) <> [] ->
  overwriteSessionEntry entry w =
  let w0 := with_answers (tl (answers w)) w in
  let snapshot := createSessionSnapshot w in
  let ask := ShowModalWarning
               ("Overwrite session " +:+ quoted (name entry)
                +:+ " with currently open files?") ["Overwrite"] in
  let '(r1, w1, t1) := mkdir_recursive (path_dirname (fullPath entry)) w0 in
  match r1 with
  | Threw code => (Threw code, w1, ask :: t1)
  | Ok _ =>
      let '(r2, w2, t2) := writeFile (fullPath entry) (JSON_stringify snapshot) w1 in
      match r2 with
      | Threw code => (Threw code, w2, ask :: t1 ++ t2)
      | Ok _ =>
          (Ok tt, w2,
           ask :: t1 ++ t2
           ++ [ShowInformationMessage
                 ("Session " +:+ quoted (name entry) +:+ " overwritten with "
                  +:+ show_nat (length (tabs snapshot)) +:+ " tabs.");
               RefreshTree])
      end
  end.
Proof.
  intros Hans Hdocs Hsome. cbv zeta.
  unfold overwriteSessionEntry, bind at 1, showModalWarning, prompt_user.
  cbv beta iota zeta. rewrite Hans.
  change (is_choice (Some "Overwrite") "Overwrite") with true. cbn [negb].
  unfold bind at 1.
  destruct (confirmUnsaved_cases (with_answers (tl (answers w)) w)) as [[_ ->]|[H _]];
    [|now elim H].
  cbv beta iota zeta. cbn [negb]. unfold bind at 1, get_world. cbv beta iota zeta.
  rewrite snapshot_with_answers.
  destruct (tabs (createSessionSnapshot w)) as [|t ts] eqn:Htabs; [contradiction|].
  change ((length (t :: ts) =? 0)%nat) with false. cbv beta iota. rewrite <- Htabs.
  unfold bind at 1, ensureDirectory.
  destruct (mkdir_recursive _ _) as [[[[]|code] w1] t1]; [|reflexivity].
  unfold bind at 1.
  destruct (writeFile _ _ w1) as [[[[]|code] w2] t2]; cbn; rewrite ?app_nil_r; reflexivity.
Qed.

(** X20.  What [overwriteSession] leaves on the disk, and that it reads
    back.  When the user confirms, no document is unsaved, there is a tab
    to save and the command succeeds, the file of the session holds the
    snapshot of the tabs, whatever it held: [readSessionFile] answers it
    without a warning, with the current format version and an array that
    reads back as the very descriptors of the snapshot.  Every other path
    of the disk keeps what it had; the only new paths are directories on
    the way to the file. *)
Theorem overwritten_session_reads_back (entry : SessionFileRecord) (w : World) :
  hd None (answers w) = Some "Overwrite" ->
  unsavedDocs w = [] ->
  tabs (createSessionSnapshot w) <> [] ->
  result (overwriteSessionEntry entry w) = Ok tt ->
  let run := overwriteSessionEntry entry w in
  let snapshot := createSessionSnapshot w in
  stores (final run) (fullPath entry) snapshot
  /\ readSessionFile (fullPath entry) (final run)
     = (Ok (Some {| version := SESSION_FILE_VERSION;
                    tabs := map json_of_tab (tabs snapshot) |}), final run, [])
  /\ tabs_of_json (map json_of_tab (tabs snapshot)) = Some (tabs snapshot)
  /\ (forall p, p <> fullPath entry ->
        disk_lookup p (disk (final run)) = disk_lookup p (disk w)
        \/ (disk_lookup p (disk w) = None
            /\ disk_lookup p (disk (final run)) = Some Directory
            /\ In p (dir_chain "" (path_dirname (fullPath entry)))))
  /\ last (effects run) = Some RefreshTree
  /\ In (WriteFile (fullPath entry)) (effects run).
Proof.
  intros Hans Hdocs Hsome Hok. cbv zeta.
  rewrite (overwriteSessionEntry_confirmed entry w Hans Hdocs Hsome) in *.
  cbv zeta in *.
  destruct (mkdir_recursive_run (path_dirname (fullPath entry))
              (with_answers (tl (answers w)) w)) as (extra & Hextra & [[code Hmk]|Hmk]);
    rewrite Hmk in *; [discriminate Hok|].
  set (w1 := with_disk _ _) in *.
  destruct (writeFile_run (fullPath entry) (JSON_stringify (createSessionSnapshot w)) w1)
    as [Hwr|[Hwr|Hwr]]; rewrite Hwr in *; try discriminate Hok.
  unfold final, effects. cbn [fst snd].
  assert (Hstored : stores (with_disk (disk_write (fullPath entry)
                                         (File (JSON_stringify (createSessionSnapshot w)))
                                         (disk w1)) w1)
                           (fullPath entry) (createSessionSnapshot w)).
  { unfold stores. cbn [disk with_disk]. apply disk_lookup_write_same. }
  split; [exact Hstored|].
  split; [now rewrite (readSessionFile_stored _ _ _ Hstored)|].
  split; [apply tabs_of_json_of_tabs|].
  split; [|split].
  - intros p Hp. cbn [disk with_disk].
    rewrite disk_lookup_write_other by exact Hp.
    unfold w1. cbn [disk with_disk with_answers]. rewrite disk_lookup_app.
    destruct (disk_lookup p (disk w)) as [n|]; [now left|].
    destruct (disk_lookup p extra) as [n|] eqn:Hp'; [|now left].
    right. destruct (disk_lookup_extra _ _ _ _ Hextra Hp') as [-> Hin]. now repeat split.
  - reflexivity.
  - right. right. now left.
Qed.

Lemma length_append (a b : string) :
  String.length (a +:+ b) = (String.length a + String.length b)%nat.
Proof. induction a as [|c a IH]; [reflexivity|]. rewrite append_String. cbn. now rewrite IH. Qed.

Lemma append_cancel_r (a b c : string) : a +:+ c = b +:+ c -> a = b.
Proof.
  revert b. induction a as [|x a IH]; intros [|y b] H.
  - reflexivity.
  - apply (f_equal String.length) in H. rewrite append_Empty, length_append in H.
    cbn in H. lia.
  - apply (f_equal String.length) in H. rewrite append_Empty, length_append in H.
    cbn in H. lia.
  - rewrite !append_String in H. injection H as -> H. f_equal. now apply IH.
Qed.

Lemma dir_chain_length rest : forall seen p,
  In p (dir_chain seen rest) ->
  (String.length p <= String.length seen + String.length rest)%nat.
Proof.
  induction rest as [|c rest IH]; intros seen p; cbn [dir_chain].
  - destruct (String.eqb seen ""); [intros []|]. intros [<-|[]]. lia.
  - intros [H|H]%in_app_or.
    + destruct (Ascii.eqb c "/" && negb (String.eqb seen "")); [|destruct H].
      destruct H as [<-|[]]. cbn. lia.
    + apply IH in H. rewrite length_append in H. cbn in *. lia.
Qed.

Lemma entry_name_above folder p :
  In p (dir_chain "" folder) -> entry_name folder p = [].
Proof.
  intros Hp%dir_chain_length. unfold entry_name.
  destruct (path_split p) as [[dir b]|] eqn:Hs; [|reflexivity].
  destruct (String.eqb_spec dir folder) as [->|_]; [|reflexivity].
  apply path_split_inv in Hs as [-> _]. unfold path_join in Hp.
  rewrite !length_append in Hp. cbn in Hp. lia.
Qed.

Lemma disk_names_extra folder d extra :
  Forall (fun entry => snd entry = Directory /\ In (fst entry) (dir_chain "" folder)) extra ->
  disk_names folder (d ++ extra) = disk_names folder d.
Proof.
  intros Hextra. unfold disk_names. rewrite flat_map_app.
  rewrite <- (app_nil_r (flat_map _ d)) at 2. f_equal.
  induction Hextra as [|[p n] extra [_ Hp] _ IH]; [reflexivity|].
  cbn [flat_map]. cbn in Hp. now rewrite (entry_name_above _ _ Hp), IH.
Qed.

Lemma In_disk_write p n d : In (p, n) (disk_write p n d).
Proof.
  induction d as [|[q m] d IH]; cbn; [now left|].
  destruct (String.eqb_spec q p) as [->|_]; [now left|now right].
Qed.

Lemma In_disk_write_other p n d q m :
  q <> p -> (In (q, m) (disk_write p n d) <-> In (q, m) d).
Proof.
  intros Hne. induction d as [|[r k] d IH]; cbn.
  - split; [intros [[= -> _]|[]]; now elim Hne|intros []].
  - destruct (String.eqb_spec r p) as [->|_]; cbn.
    + split; (intros [[= <- <-]|H]; [now elim Hne|now right]).
    + now rewrite IH.
Qed.

Lemma In_disk_write_at p n d m : In (p, m) (disk_write p n d) -> m = n \/ In (p, m) d.
Proof.
  induction d as [|[r k] d IH]; cbn.
  - intros [[= <-]|[]]. now left.
  - destruct (String.eqb_spec r p) as [->|_]; cbn.
    + intros [[= <-]|H]; [now left|right; now right].
    + intros [[= -> ->]|H]; [right; now left|].
      destruct (IH H) as [->|H']; [now left|right; now right].
Qed.

Lemma resolveSessionDirectory_grows options w f w1 t1 :
  resolveSessionDirectory options w = (Ok (Some f), w1, t1) ->
  f <> ""
  /\ exists extra,
       disk w1 = disk w ++ extra
       /\ Forall (fun entry => snd entry = Directory /\ In (fst entry) (dir_chain "" f)) extra.
Proof.
  unfold resolveSessionDirectory, bind at 1, get_world. cbv beta iota zeta.
  unfold bind at 1.
  assert (Hbase : exists r wb tb,
             match getFileLocationSetting w with
             | workspace =>
                 resolveWorkspaceBase (default true (promptUser options))
                                      (default true (showWarning options))
             | global => ret (Some (globalStoragePath w))
             | custom =>
                 resolveCustomBase (default true (promptUser options))
                                   (default true (showWarning options))
             end w = (Ok r, wb, tb) /\ disk wb = disk w).
  { destruct (getFileLocationSetting w).
    - destruct (resolveWorkspaceBase_inv (default true (promptUser options))
                  (default true (showWarning options)) w)
        as (r & wb & tb & H & Hd & _). now exists r, wb, tb.
    - now exists (Some (globalStoragePath w)), w, [].
    - destruct (resolveCustomBase_inv (default true (promptUser options))
                  (default true (showWarning options)) w)
        as (r & wb & tb & H & Hd & _). now exists r, wb, tb. }
  destruct Hbase as (r & wb & tb & -> & Hd). cbv beta iota zeta.
  destruct r as [base|]; [|cbn; discriminate].
  destruct (truthy (Some base)); [|cbn; discriminate]. cbn [negb].
  set (sessionFolder := match getFileLocationSetting w with
                        | workspace => _
                        | _ => _
                        end).
  assert (Hne : sessionFolder <> "").
  { unfold sessionFolder. destruct (getFileLocationSetting w); apply path_join_nonempty. }
  unfold bind at 1.
  destruct (default false (ensureExists options)).
  - unfold ensureDirectory.
    destruct (mkdir_recursive_run sessionFolder wb) as (extra & Hextra & [[code ->]| ->]);
      [discriminate|].
    cbn. intros [= <- <- _]. split; [exact Hne|]. exists extra.
    cbn [disk with_disk]. now rewrite Hd.
  - cbn. intros [= <- <- _]. split; [exact Hne|]. exists []. rewrite app_nil_r.
    split; [exact Hd|constructor].
Qed.

Lemma saveSession_run w :
  tabs (createSessionSnapshot w) <> [] ->
  saveSession w =
  let w0 := with_answers (tl (answers w)) w in
  let sessionName := sessionNameOrTimestamp (hd None (answers w)) w in
  let snapshot := createSessionSnapshot w in
  let ask := ShowInputBox "Enter a name for this session"
                          "Leave empty to use a timestamped name" in
  let '(r1, w1, t1) :=
    resolveSessionDirectory {| promptUser := Some true; showWarning := Some true;
                               ensureExists := Some true |} w0 in
  match r1 with
  | Threw code => (Threw code, w1, ask :: t1)
  | Ok None => (Ok tt, w1, ask :: t1)
  | Ok (Some f) =>
      if String.eqb f "" then (Ok tt, w1, ask :: t1)
      else
        let '(r2, w2, t2) :=
          writeFile (path_join f (sessionName +:+ ".json")) (JSON_stringify snapshot) w1 in
        match r2 with
        | Threw code => (Threw code, w2, ask :: t1 ++ t2)
        | Ok _ =>
            (Ok tt, w2,
             ask :: t1 ++ t2
             ++ [ShowInformationMessage (savedMessage sessionName snapshot); RefreshTree])
        end
  end.
Proof.
  intros Hsome. cbv zeta.
  unfold saveSession, bind at 1, showInputBox, prompt_user. cbv beta iota zeta.
  unfold bind at 1, get_world. cbv beta iota zeta.
  rewrite snapshot_with_answers.
  destruct (tabs (createSessionSnapshot w)) as [|t ts] eqn:Htabs; [contradiction|].
  change ((length (t :: ts) =? 0)%nat) with false. cbv beta iota.
  change (sessionNameOrTimestamp (hd None (answers w)) (with_answers _ w))
    with (sessionNameOrTimestamp (hd None (answers w)) w).
  unfold bind at 1.
  destruct (resolveSessionDirectory _ _) as [[[[f|]|code] w1] t1];
    try (cbn; rewrite ?app_nil_r; reflexivity).
  cbn [truthy]. destruct (String.eqb f ""); cbn [negb];
    [cbn; rewrite ?app_nil_r; reflexivity|].
  unfold bind at 1.
  destruct (writeFile _ _ w1) as [[[[]|code] w2] t2]; cbn; rewrite ?app_nil_r; reflexivity.
Qed.

Lemma path_basename_of_name sessionName :
  no_slash sessionName = true ->
  path_basename (sessionName +:+ ".json") ".json" = sessionName.
Proof.
  intros Hslash. apply (append_cancel_r _ _ ".json"). apply path_basename_ext.
  - clear -Hslash. induction sessionName as [|c s IH]; [reflexivity|].
    rewrite append_String. cbn in *. apply andb_prop in Hslash as [-> Hs].
    now rewrite IH.
  - apply endsWith_append, endsWith_self.
Qed.

(** X21.  What [saveSession] leaves on the disk, that it reads back, and
    that it is listed.  When there is a tab to save, the session directory
    resolves and the command succeeds, the file [<name>.json] in that
    directory ([<name>] being what the user typed, or the timestamped
    name) holds the snapshot, whatever it held, and [readSessionFile]
    answers it without a warning.  When the name has no path separator,
    the directory then lists a session of that name with that file, and
    beside it exactly the sessions it listed before: saving under the name
    of a listed session replaces it without asking. *)
Theorem saved_session_is_listed (localeCompare : string -> string -> Z)
        (w : World) (f : string) :
  tabs (createSessionSnapshot w) <> [] ->
  result (resolveSessionDirectory {| promptUser := Some true; showWarning := Some true;
                                     ensureExists := Some true |}
                                  (with_answers (tl (answers w)) w))
  = Ok (Some f) ->
  result (saveSession w) = Ok tt ->
  let run := saveSession w in
  let snapshot := createSessionSnapshot w in
  let sessionName := sessionNameOrTimestamp (hd None (answers w)) w in
  let saved := {| name := sessionName;
                  fullPath := path_join f (sessionName +:+ ".json") |} in
  stores (final run) (fullPath saved) snapshot
  /\ readSessionFile (fullPath saved) (final run)
     = (Ok (Some {| version := SESSION_FILE_VERSION;
                    tabs := map json_of_tab (tabs snapshot) |}), final run, [])
  /\ last (effects run) = Some RefreshTree
  /\ Forall (fun e => is_prompt e = true ->
                      e = ShowInputBox "Enter a name for this session"
                                       "Leave empty to use a timestamped name"
                      \/ In e (effects (resolveSessionDirectory
                                          {| promptUser := Some true;
                                             showWarning := Some true;
                                             ensureExists := Some true |}
                                          (with_answers (tl (answers w)) w))))
            (effects run)
  /\ (no_slash sessionName = true ->
      forall e, In e (listed localeCompare f (final run)) <->
                In e (listed localeCompare f w) \/ e = saved).
Proof.
  intros Hsome Hres Hok. cbv zeta.
  rewrite (saveSession_run w Hsome) in *. cbv zeta in *.
  destruct (resolveSessionDirectory _ (with_answers (tl (answers w)) w))
    as [[r1 w1] t1] eqn:Hrun.
  unfold result in Hres. cbn [fst] in Hres. subst r1.
  destruct (resolveSessionDirectory_grows _ _ _ _ _ Hrun) as (Hf & extra & Hd & Hextra).
  apply String.eqb_neq in Hf. rewrite Hf in *.
  set (sessionName := sessionNameOrTimestamp (hd None (answers w)) w) in *.
  set (filePath := path_join f (sessionName +:+ ".json")) in *.
  destruct (writeFile_run filePath (JSON_stringify (createSessionSnapshot w)) w1)
    as [Hwr|[Hwr|Hwr]]; rewrite Hwr in *; try discriminate Hok.
  unfold final, effects. cbn [fst snd fullPath].
  assert (Hstored : stores (with_disk (disk_write filePath
                                         (File (JSON_stringify (createSessionSnapshot w)))
                                         (disk w1)) w1)
                           filePath (createSessionSnapshot w)).
  { unfold stores. cbn [disk with_disk]. apply disk_lookup_write_same. }
  split; [exact Hstored|].
  split; [now rewrite (readSessionFile_stored _ _ _ Hstored)|].
  split.
  { rewrite app_comm_cons, !app_assoc.
    change [ShowInformationMessage ?m; RefreshTree]
      with ([ShowInformationMessage m] ++ [RefreshTree]).
    rewrite !app_assoc. apply last_snoc_effect. }
  split.
  { constructor; [intros _; now left|].
    apply Forall_app. split.
    - apply List.Forall_forall. intros e He _. now right.
    - repeat constructor; discriminate. }
  intros Hslash e.
  assert (Hfile : no_slash (sessionName +:+ ".json") = true).
  { clear -Hslash. induction sessionName as [|c s IH]; [reflexivity|].
    rewrite append_String. cbn in *. apply andb_prop in Hslash as [-> Hs]. now rewrite IH. }
  assert (Hends : endsWith (sessionName +:+ ".json") ".json" = true)
    by apply endsWith_append, endsWith_self.
  assert (Hrecord : recordOf f (sessionName +:+ ".json")
                    = {| name := sessionName; fullPath := filePath |}).
  { unfold recordOf. now rewrite path_basename_of_name. }
  assert (Hbefore : disk_names f (disk w1) = disk_names f (disk w)).
  { rewrite Hd. cbn [disk with_answers]. now apply disk_names_extra. }
  unfold listed. cbn [disk with_disk]. rewrite !sessionEntries_In, <- Hbefore. split.
  - intros (file & Hin & Hfe & ->).
    apply disk_names_In in Hin as [Hfs [node Hnode]].
    destruct (String.eqb_spec file (sessionName +:+ ".json")) as [->|Hne].
    + right. exact Hrecord.
    + left. exists file. repeat split; try assumption.
      apply disk_names_In. split; [exact Hfs|]. exists node.
      apply In_disk_write_other in Hnode; [exact Hnode|].
      intros Heq. apply Hne. now apply path_join_inj in Heq.
  - intros [(file & Hin & Hfe & ->)| ->].
    + exists file. repeat split; try assumption.
      apply disk_names_In in Hin as [Hfs [node Hnode]].
      apply disk_names_In. split; [exact Hfs|].
      destruct (String.eqb_spec file (sessionName +:+ ".json")) as [->|Hne].
      * eexists. apply In_disk_write.
      * exists node. apply In_disk_write_other; [|exact Hnode].
        intros Heq. apply Hne. now apply path_join_inj in Heq.
    + exists (sessionName +:+ ".json"). split; [|split; [exact Hends|now rewrite Hrecord]].
      apply disk_names_In. split; [exact Hfile|]. eexists. apply In_disk_write.
Qed.

(** * Further properties: switching and declining *)

Lemma restoreNamedSession_chosen localeCompare record w :
  existsSync (fullPath record) w = true ->
  restoreNamedSession localeCompare (Some (inl record)) w =
  let '(r, w1, t1) :=
    (if hasOpenFiles w then
       finalChoice <-
         match getAutoSaveBehavior w with
         | yes => ret (Some "Yes — Save and Continue")
         | no => ret (Some "No — Just Switch")
         | ask' =>
             showQuickPick ["Yes — Save and Continue"; "No — Just Switch"; "Cancel"]
                           "Save current open files as a session before switching?"
         end ;;
       if is_choice finalChoice "Cancel" || negb (truthy finalChoice) then ret false
       else if is_choice finalChoice "Yes — Save and Continue" then saveBeforeSwitch
       else ret true
     else ret true) w in
  match r with
  | Ok true => let '(r2, w2, t2) := restoreSessionFromEntry record w1 in (r2, w2, t1 ++ t2)
  | Ok false => (Ok tt, w1, t1)
  | Threw code => (Threw code, w1, t1)
  end.
Proof.
  intros Hex. unfold restoreNamedSession, bind at 1.
  rewrite (chooseEntry_record _ _ _ _ Hex). cbv beta iota zeta.
  unfold bind at 1, get_world. cbv beta iota zeta. fold (hasOpenFiles w).
  unfold bind at 1.
  match goal with
  | |- context [match ?m w with _ => _ end] =>
      destruct (m w) as [[[[]|code] w1] t1]
  end; cbn; rewrite ?app_nil_r; try reflexivity.
  now destruct (restoreSessionFromEntry record w1) as [[r2 w2] t2].
Qed.

(** X22.  Switching without saving.  [restoreNamedSession], called with
    the record of a session whose file is on the disk, goes straight to
    the restore of that session, with no question about saving and
    nothing done before, when no document with a file is open or when the
    setting says [no - just switch].  When the setting says [ask], it asks
    once: the answer [No — Just Switch] leads to the same restore;
    [Cancel], or the list dismissed, ends the command there, with nothing
    restored. *)
Theorem switching_without_saving (localeCompare : string -> string -> Z)
        (record : SessionFileRecord) (w : World) :
  existsSync (fullPath record) w = true ->
  let run := restoreNamedSession localeCompare (Some (inl record)) w in
  let w0 := with_answers (tl (answers w)) w in
  (hasOpenFiles w = false \/ saveBehaviorOnRestore (configuration w) = no_just_switch ->
   run = restoreSessionFromEntry record w)
  /\ (hasOpenFiles w = true -> saveBehaviorOnRestore (configuration w) = ask ->
      (hd None (answers w) = Some "No — Just Switch" ->
       run = let '(r, w', evs) := restoreSessionFromEntry record w0 in
             (r, w', saveFirstQuestion :: evs))
      /\ (hd None (answers w) = Some "Cancel" \/ hd None (answers w) = None ->
          run = (Ok tt, w0, [saveFirstQuestion]))).
Proof.
  intros Hex. cbv zeta. rewrite (restoreNamedSession_chosen _ _ _ Hex). split.
  - intros [Hnone|Hno].
    + rewrite Hnone. cbn.
      now destruct (restoreSessionFromEntry record w) as [[r w'] evs].
    + destruct (hasOpenFiles w).
      * unfold getAutoSaveBehavior. rewrite Hno. cbn.
        now destruct (restoreSessionFromEntry record w) as [[r w'] evs].
      * cbn. now destruct (restoreSessionFromEntry record w) as [[r w'] evs].
  - intros Hopen Hask. rewrite Hopen. unfold getAutoSaveBehavior. rewrite Hask.
    unfold bind, showQuickPick, prompt_user. cbv beta iota zeta. split.
    + intros ->. cbn.
      now destruct (restoreSessionFromEntry record _) as [[r w'] evs].
    + intros [-> | ->]; reflexivity.
Qed.

(** X23.  Declining a confirmation changes nothing.  Any answer to the
    confirmation of [deleteSession] other than [Delete], and any answer to
    that of [overwriteSession] other than [Overwrite], ends the command
    with the confirmation as its only effect: no file is removed or
    written, no message shown, the tree not refreshed.  The same holds when
    the overwrite is confirmed and the user then answers [Cancel] to the
    question about unsaved files. *)
Theorem declined_confirmation_changes_nothing (entry : SessionFileRecord) (w : World) :
  let w0 := with_answers (tl (answers w)) w in
  (hd None (answers w) <> Some "Delete" ->
   deleteSessionEntry entry w
   = (Ok tt, w0,
      [ShowModalWarning ("Delete session " +:+ quoted (name entry) +:+ "?") ["Delete"]]))
  /\ (hd None (answers w) <> Some "Overwrite" ->
      overwriteSessionEntry entry w
      = (Ok tt, w0,
         [ShowModalWarning
            ("Overwrite session " +:+ quoted (name entry)
             +:+ " with currently open files?") ["Overwrite"]]))
  /\ (hd None (answers w) = Some "Overwrite" -> unsavedDocs w <> [] ->
      hd None (tl (answers w)) = Some "Cancel" ->
      overwriteSessionEntry entry w
      = (Ok tt, with_answers (tl (tl (answers w))) w,
         [ShowModalWarning
            ("Overwrite session " +:+ quoted (name entry)
             +:+ " with currently open files?") ["Overwrite"];
          unsavedQuestion w])).
Proof.
  cbv zeta. split; [|split].
  - intros Hans%is_choice_false.
    unfold deleteSessionEntry, bind, showModalWarning, prompt_user. cbv beta iota zeta.
    rewrite Hans. reflexivity.
  - intros Hans%is_choice_false.
    unfold overwriteSessionEntry, bind, showModalWarning, prompt_user. cbv beta iota zeta.
    rewrite Hans. reflexivity.
  - intros Hans Hdocs Hcancel.
    unfold overwriteSessionEntry, bind at 1, showModalWarning, prompt_user.
    cbv beta iota zeta. rewrite Hans.
    change (is_choice (Some "Overwrite") "Overwrite") with true. cbn [negb].
    unfold bind at 1.
    destruct (confirmUnsaved_cases (with_answers (tl (answers w)) w))
      as [[H _]|[_ [[Hc _]|[[_ ->]|(_ & Hc & _)]]]].
    + now elim Hdocs.
    + cbn [answers with_answers] in Hc. congruence.
    + reflexivity.
    + cbn [answers with_answers] in Hc. contradiction.
Qed.

(** * Further properties: the cursors a restore records *)

(** X24.  The cursor a restore puts back is tracked.  A step of the
    replay, and the step that gives the focus, for a descriptor whose
    [uri] parses, whose document the host opens and whose cursor is a
    position: the step completes, the selection is set at the cursor, and
    when the step ends the position tracked for the document is that
    cursor, whatever was tracked before; a snapshot taken then stores the
    cursor again for every tab of that document.  When the cursor is no
    position (a negative line or character) the document is opened and
    shown all the same, no selection is set, and the step reports the
    document as one that failed to open: a warning in the replay, a logged
    error in the focus step. *)
Theorem restored_cursors_are_tracked (t : SavedTabState) (u : vscode.Uri) (w : World) :
  documentOf t = Some u ->
  cannot_open w t = false ->
  (forall position run,
     cursor t = Some position ->
     illegal_cursor t = false ->
     run = replayTab t w \/ run = focusGlobalActive (Some t) w ->
     result run = Ok tt
     /\ In (SetSelection u position) (effects run)
     /\ lastKnownCursorPositions (final run) !! vscode.toString u = Some position
     /\ (forall d, In d (tabs (createSessionSnapshot (final run))) ->
           uri d = vscode.toString u -> cursor d = Some position))
  /\ (illegal_cursor t = true ->
      result (replayTab t w) = Ok tt
      /\ effects (replayTab t w)
         = [OpenTextDocument u; ShowTextDocument u (viewColumn t) true;
            ShowWarningMessage ("Failed to open file: " +:+ vscode.fsPath u)]
      /\ result (focusGlobalActive (Some t) w) = Ok tt
      /\ effects (focusGlobalActive (Some t) w)
         = [OpenTextDocument u; ShowTextDocument u (viewColumn t) false; ConsoleError]).
Proof.
  intros Hu Hopen.
  assert (Hparses : parses t = true) by (apply parses_documentOf; eauto).
  rewrite replayTab_run, focusGlobalActive_run, Hparses. split.
  - intros position run Hc Hlegal Hrun.
    assert (Hfails : fails_to_show w t = false)
      by (unfold fails_to_show; now rewrite Hopen, Hlegal, andb_false_r).
    assert (Hput : cursorPut w t (lastKnownCursorPositions w)
                   = <[vscode.toString u := position]> (lastKnownCursorPositions w))
      by (unfold cursorPut; now rewrite Hu, Hc, Hfails).
    assert (Hshown : forall preserveFocus,
               In (SetSelection u position) (shownAs w preserveFocus t)).
    { intros preserveFocus. unfold shownAs. rewrite Hu, Hopen, Hc, Hlegal.
      cbn. right. right. now left. }
    assert (Hfinal : final run
                     = with_cursors (<[vscode.toString u := position]>
                                       (lastKnownCursorPositions w)) w)
      by (destruct Hrun as [-> | ->]; unfold final; cbn [fst snd]; now rewrite Hput).
    split; [now destruct Hrun as [-> | ->]|].
    split.
    { destruct Hrun as [-> | ->]; unfold effects; cbn [snd].
      - unfold replayed. apply in_or_app. left. apply Hshown.
      - unfold focusedAs. apply in_or_app. left. apply Hshown. }
    rewrite Hfinal. cbn [lastKnownCursorPositions with_cursors].
    split; [apply lookup_insert_eq|].
    intros d Hd Hkey. rewrite (snapshot_cursor _ _ Hd), Hkey.
    cbn [lastKnownCursorPositions with_cursors]. apply lookup_insert_eq.
  - intros Hillegal.
    assert (Hfails : fails_to_show w t = true)
      by (unfold fails_to_show; now rewrite Hparses, Hillegal, orb_true_r).
    assert (Hput : cursorPut w t (lastKnownCursorPositions w) = lastKnownCursorPositions w).
    { unfold cursorPut. rewrite Hu, Hfails. now destruct (cursor t). }
    rewrite Hput, with_cursors_same.
    unfold replayed, focusedAs, shownAs, failedToOpen. rewrite Hu, Hopen, Hfails, Hillegal.
    unfold illegal_cursor in Hillegal.
    destruct (cursor t) as [c|]; [|discriminate]. now repeat split.
Qed.

(** * The further properties at the sample worlds *)

Lemma restore_of_empty_session_only_warns_witness :
  disk_lookup (fullPath Sample.empty) (disk Sample.world_with_empty_session)
  = Some (File (JsonText (JObj [("version", JNum 2); ("tabs", JArr [])])))
  /\ effects (restoreSessionFromEntry Sample.empty Sample.world_with_empty_session)
     = [ShowWarningMessage ("Session " +:+ quoted "empty" +:+ " does not contain any tabs.")].
Proof.
  split; [reflexivity|].
  now rewrite (restore_of_empty_session_only_warns Sample.empty
                 Sample.world_with_empty_session
                 [("version", JNum 2); ("tabs", JArr [])] eq_refl eq_refl).
Defined.

Lemma restore_goes_on_when_a_document_fails_witness :
  (stores Sample.world_without_b (fullPath Sample.gamma)
          {| version := 2; tabs := Sample.three |}
   /\ Sample.three <> []
   /\ forallb parses Sample.three = true
   /\ result (restoreSessionFromEntry Sample.gamma Sample.world_without_b) = Ok tt
   /\ warnings (effects (restoreSessionFromEntry Sample.gamma Sample.world_without_b))
      = ["Failed to open file: /p/b.ts"])
  /\ (stores Sample.world_with_edited_session (fullPath Sample.edited_session)
              {| version := 2; tabs := Sample.edited |}
      /\ forallb parses Sample.edited = false
      /\ result (restoreSessionFromEntry Sample.edited_session
                                         Sample.world_with_edited_session)
         = Threw "UriError"
      /\ warnings (effects (restoreSessionFromEntry Sample.edited_session
                                                    Sample.world_with_edited_session))
         = ["Failed to open file: /p/a.ts"]).
Proof.
  split.
  - split; [reflexivity|]. split; [discriminate|]. split; [reflexivity|].
    destruct (restore_goes_on_when_a_document_fails Sample.gamma
                {| version := 2; tabs := Sample.three |} Sample.world_without_b eq_refl)
      as (Hparses & _); [discriminate|reflexivity|].
    destruct (Hparses eq_refl) as (Hr & Hw & _).
    split; [exact Hr|]. rewrite Hw. reflexivity.
  - split; [reflexivity|]. split; [reflexivity|].
    destruct (restore_goes_on_when_a_document_fails Sample.edited_session
                {| version := 2; tabs := Sample.edited |} Sample.world_with_edited_session
                eq_refl)
      as (_ & Hrejects & _); [discriminate|reflexivity|].
    destruct (Hrejects eq_refl) as (Hr & _ & Hw & _).
    split; [exact Hr|]. rewrite Hw. reflexivity.
Defined.

Lemma restore_of_own_snapshot_closes_nothing_witness :
  stores Sample.world_with_own_snapshot (fullPath Sample.mine)
         (createSessionSnapshot Sample.world)
  /\ tabs (createSessionSnapshot Sample.world) <> []
  /\ hd_error (effects (restoreSessionFromEntry Sample.mine Sample.world_with_own_snapshot))
     = Some (ExecuteCommand "workbench.action.closeAllEditors")
  /\ answers (final (restoreSessionFromEntry Sample.mine Sample.world_with_own_snapshot))
     = [].
Proof.
  split; [reflexivity|]. split; [discriminate|].
  destruct (restore_of_own_snapshot_closes_nothing Sample.mine Sample.world
              Sample.world_with_own_snapshot eq_refl eq_refl)
    as (_ & _ & He & _ & Ha); [discriminate|].
  split; [now rewrite He|exact Ha].
Defined.

Lemma resolved_folder_is_remembered_witness :
  "/p" <> ""
  /\ existsSync "/p" Sample.world_without_text_tabs = true
  /\ result (resolveWorkspaceBase true true Sample.world_without_text_tabs) = Ok (Some "/p")
  /\ workspaceFolder
       (configuration (final (resolveWorkspaceBase true true Sample.world_without_text_tabs)))
     = "/p".
Proof.
  split; [discriminate|]. split; [reflexivity|]. split; [reflexivity|].
  exact (proj1 (proj1 (resolved_folder_is_remembered true true
                         Sample.world_without_text_tabs "/p"
                         ltac:(discriminate) eq_refl) eq_refl)).
Defined.

Lemma without_a_chosen_session_nothing_happens_witness :
  let listing := {| entries := listed Sample.localeCompare "/g/sessions" Sample.world;
                    folder := Some "/g/sessions" |} in
  listSessions Sample.localeCompare
    {| promptUser := Some false; showWarning := Some true; ensureExists := None |}
    Sample.world
  = (Ok listing, Sample.world, [])
  /\ deleteSession Sample.localeCompare None Sample.world
     = (Ok tt, Sample.world,
        [ShowQuickPick ["alpha"; "Beta"; "gamma"; "old"] "Select a session to delete"]).
Proof.
  cbv zeta.
  assert (Hlist : listSessions Sample.localeCompare
                    {| promptUser := Some false; showWarning := Some true;
                       ensureExists := None |} Sample.world
                  = (Ok {| entries := listed Sample.localeCompare "/g/sessions" Sample.world;
                           folder := Some "/g/sessions" |}, Sample.world, []))
    by reflexivity.
  split; [exact Hlist|].
  destruct (without_a_chosen_session_nothing_happens Sample.localeCompare Sample.world
              _ _ _ Hlist) as (_ & Hdismissed & _).
  destruct Hdismissed as (_ & _ & Hdelete & _); [discriminate|reflexivity|].
  exact Hdelete.
Defined.

Lemma deleteAllSessions_empties_the_listing_witness :
  let w := with_answers [Some "Delete All"] Sample.world in
  sessionFiles "/g/sessions" w = ["gamma.json"; "Beta.json"; "alpha.json"; "old.json"]
  /\ result (deleteAllSessions w) = Ok tt
  /\ listed Sample.localeCompare "/g/sessions" (final (deleteAllSessions w)) = []
  /\ disk_lookup "/g/sessions/notes.txt" (disk (final (deleteAllSessions w)))
     = Some (File (OtherText "hello")).
Proof.
  cbv zeta. split; [reflexivity|].
  destruct (deleteAllSessions_empties_the_listing Sample.localeCompare
              (with_answers [Some "Delete All"] Sample.world) "/g/sessions"
              eq_refl eq_refl)
    as (Hr & _ & Hl & _ & Hother).
  - vm_compute.
    repeat (apply List.NoDup_cons; [intros H; cbn in H; intuition discriminate|]).
    apply List.NoDup_nil.
  - discriminate.
  - intros file [<-|[<-|[<-|[<-|[]]]]]; reflexivity.
  - reflexivity.
  - split; [exact Hr|]. split; [exact Hl|].
    rewrite Hother; [reflexivity|].
    intros file [<-|[<-|[<-|[<-|[]]]]]; discriminate.
Defined.

Lemma deleteAllSessions_rejects_for_a_directory_witness :
  In "archive.json" (sessionFiles "/g/sessions" Sample.world_with_json_directory)
  /\ is_file (disk Sample.world_with_json_directory) "/g/sessions/archive.json" = false
  /\ (exists code, result (deleteAllSessions Sample.world_with_json_directory) = Threw code)
  /\ disk_lookup "/g/sessions/gamma.json"
       (disk (final (deleteAllSessions Sample.world_with_json_directory)))
     = None.
Proof.
  assert (Hin : In "archive.json" (sessionFiles "/g/sessions" Sample.world_with_json_directory)).
  { vm_compute. tauto. }
  split; [exact Hin|]. split; [reflexivity|].
  destruct (deleteAllSessions_rejects_for_a_directory Sample.world_with_json_directory
              "/g/sessions" "archive.json" eq_refl eq_refl)
    as (Hr & _ & Hgone & _).
  - vm_compute.
    repeat (apply List.NoDup_cons; [intros H; cbn in H; intuition discriminate|]).
    apply List.NoDup_nil.
  - exact Hin.
  - reflexivity.
  - reflexivity.
  - split; [exact Hr|]. apply (Hgone "gamma.json"); [vm_compute; tauto|reflexivity].
Defined.

Lemma deleteAllSessions_needs_the_confirmation_witness :
  hd None (answers Sample.world) <> Some "Delete All"
  /\ disk (final (deleteAllSessions Sample.world)) = disk Sample.world.
Proof.
  split; [discriminate|].
  exact (proj1 (deleteAllSessions_needs_the_confirmation Sample.world ltac:(discriminate))).
Defined.

Lemma chosen_location_is_used_afterwards_witness :
  let w := with_answers [Some "Global Storage"] Sample.world_without_text_tabs in
  In Sample.globalOption locationOptions
  /\ getFileLocationSetting (final (changeFileLocation w)) = global
  /\ result (resolveSessionDirectory
               {| promptUser := Some false; showWarning := Some false;
                  ensureExists := None |} (final (changeFileLocation w)))
     = Ok (Some "/g/sessions").
Proof.
  cbv zeta.
  assert (Hin : In Sample.globalOption locationOptions) by (right; now left).
  split; [exact Hin|].
  destruct (chosen_location_is_used_afterwards
              (with_answers [Some "Global Storage"] Sample.world_without_text_tabs)
              Sample.globalOption "/g"
              {| promptUser := Some false; showWarning := Some false; ensureExists := None |}
              Hin eq_refl eq_refl)
    as (Hloc & _ & Hres); [discriminate|discriminate|].
  split; [exact Hloc|]. now rewrite Hres.
Defined.

Lemma session_actions_run_on_their_session_witness :
  SessionItem.kind (sessionItem Sample.beta) = SessionItemKind.session
  /\ SessionItem.entry (sessionItem Sample.beta) = Some Sample.beta
  /\ map SessionItem.label
         (match result (getChildren Sample.localeCompare (Some (sessionItem Sample.beta))
                                    Sample.world) with
          | Ok items => items
          | Threw _ => []
          end)
     = ["📂 Restore Session"; "📝 Overwrite Session"; "❌ Delete Session"; "📄 View Files"].
Proof.
  split; [reflexivity|]. split; [reflexivity|].
  now rewrite (proj1 (session_actions_run_on_their_session Sample.localeCompare
                        (sessionItem Sample.beta) Sample.beta Sample.world
                        eq_refl eq_refl)).
Defined.

Lemma view_files_shows_the_saved_tabs_witness :
  SessionItem.kind (filesRootItem Sample.gamma) = SessionItemKind.filesRoot
  /\ SessionItem.entry (filesRootItem Sample.gamma) = Some Sample.gamma
  /\ stores Sample.world (fullPath Sample.gamma) {| version := 2; tabs := Sample.three |}
  /\ forallb parses Sample.three = true
  /\ exists items,
       result (getChildren Sample.localeCompare (Some (filesRootItem Sample.gamma))
                           Sample.world) = Ok items
       /\ length items = 3%nat
       /\ map (fun item => (SessionItem.label item, SessionItem.description item)) items
          = [("b.ts", Some "Group 1, Tab 2"); ("a.ts", Some "Group 1, Tab 1");
             ("d.ts", Some "Group 1, Tab 1")].
Proof.
  split; [reflexivity|]. split; [reflexivity|]. split; [reflexivity|].
  split; [reflexivity|].
  destruct (proj1 (view_files_shows_the_saved_tabs Sample.localeCompare
                     (filesRootItem Sample.gamma) Sample.gamma Sample.world
                     eq_refl eq_refl)
                  {| version := 2; tabs := Sample.three |} eq_refl)
    as (_ & _ & _ & Hitems).
  destruct (Hitems eq_refl) as (items & Hr & Hlen & _).
  exists items. split; [exact Hr|]. split; [exact Hlen|].
  assert (Hc : result (getChildren Sample.localeCompare (Some (filesRootItem Sample.gamma))
                                   Sample.world)
               = Ok (fileItems Sample.gamma Sample.three)) by reflexivity.
  rewrite Hr in Hc. injection Hc as ->. reflexivity.
Defined.

Lemma overwritten_session_reads_back_witness :
  let w := with_answers [Some "Overwrite"] Sample.world in
  hd None (answers w) = Some "Overwrite"
  /\ unsavedDocs w = []
  /\ tabs (createSessionSnapshot w) <> []
  /\ result (overwriteSessionEntry Sample.beta w) = Ok tt
  /\ stores (final (overwriteSessionEntry Sample.beta w)) "/g/sessions/Beta.json"
            (createSessionSnapshot Sample.world).
Proof.
  cbv zeta. split; [reflexivity|]. split; [reflexivity|]. split; [discriminate|].
  split; [reflexivity|].
  exact (proj1 (overwritten_session_reads_back Sample.beta
                  (with_answers [Some "Overwrite"] Sample.world)
                  eq_refl eq_refl ltac:(discriminate) eq_refl)).
Defined.

Lemma saved_session_is_listed_witness :
  let w := with_answers [Some "mine"] Sample.world in
  tabs (createSessionSnapshot w) <> []
  /\ result (saveSession w) = Ok tt
  /\ stores (final (saveSession w)) "/g/sessions/mine.json" (createSessionSnapshot Sample.world)
  /\ In Sample.mine (listed Sample.localeCompare "/g/sessions" (final (saveSession w))).
Proof.
  cbv zeta. split; [discriminate|]. split; [reflexivity|].
  destruct (saved_session_is_listed Sample.localeCompare
              (with_answers [Some "mine"] Sample.world) "/g/sessions"
              ltac:(discriminate) eq_refl eq_refl)
    as (Hs & _ & _ & _ & Hl).
  split; [exact Hs|]. apply Hl; [reflexivity|]. now right.
Defined.

Lemma switching_without_saving_witness :
  existsSync (fullPath Sample.gamma) Sample.world = true
  /\ hasOpenFiles Sample.world = false
  /\ restoreNamedSession Sample.localeCompare (Some (inl Sample.gamma)) Sample.world
     = restoreSessionFromEntry Sample.gamma Sample.world.
Proof.
  split; [reflexivity|]. split; [reflexivity|].
  apply (proj1 (switching_without_saving Sample.localeCompare Sample.gamma Sample.world
                  eq_refl)).
  now left.
Defined.

Lemma restored_cursors_are_tracked_witness :
  let t := {| uri := "file:///p/a.ts"; groupIndex := 0; tabIndex := 0;
              viewColumn := Some 1; isGroupActive := false; isGlobalActive := true;
              cursor := Some {| line := 4; character := 2 |} |} in
  documentOf t = Some (Sample.file_uri "/p/a.ts")
  /\ cannot_open Sample.world t = false
  /\ lastKnownCursorPositions Sample.world !! "file:///p/a.ts" = None
  /\ lastKnownCursorPositions (final (replayTab t Sample.world)) !! "file:///p/a.ts"
     = Some {| line := 4; character := 2 |}.
Proof.
  cbv zeta. split; [reflexivity|]. split; [reflexivity|]. split; [reflexivity|].
  destruct (proj1 (restored_cursors_are_tracked
                     {| uri := "file:///p/a.ts"; groupIndex := 0; tabIndex := 0;
                        viewColumn := Some 1; isGroupActive := false;
                        isGlobalActive := true;
                        cursor := Some {| line := 4; character := 2 |} |}
                     (Sample.file_uri "/p/a.ts") Sample.world eq_refl eq_refl)
                  {| line := 4; character := 2 |} _ eq_refl eq_refl (or_introl eq_refl))
    as (_ & _ & Htracked & _).
  exact Htracked.
Defined.

(** * Further properties: a session directory that is a file *)

Lemma listSessions_not_a_directory localeCompare options w f w1 t1 text :
  resolveSessionDirectory options w = (Ok (Some f), w1, t1) ->
  disk_lookup f (disk w1) = Some (File text) ->
  listSessions localeCompare options w = (Threw "ENOTDIR", w1, t1).
Proof.
  intros Hres Hfile.
  destruct (resolveSessionDirectory_grows _ _ _ _ _ Hres) as [Hf _].
  unfold listSessions, bind at 1. rewrite Hres. cbv beta iota zeta.
  unfold bind at 1, get_world. cbv beta iota zeta.
  unfold truthy, existsSync. rewrite Hfile. apply String.eqb_neq in Hf. rewrite Hf.
  cbn [negb orb]. unfold bind, readdir. rewrite Hfile. cbn. now rewrite app_nil_r.
Qed.

Lemma bind_fst {A B} (m1 m2 : M A) (k : A -> M B) w :
  fst (m1 w) = fst (m2 w) -> fst (bind m1 k w) = fst (bind m2 k w).
Proof.
  unfold bind. destruct (m1 w) as [[r1 w1] t1], (m2 w) as [[r2 w2] t2]. cbn.
  intros [= -> ->]. destruct r2 as [a|code]; [|reflexivity].
  now destruct (k a w2) as [[r w'] t].
Qed.

(** Whether it may warn changes nothing but the warnings of a look-up
    that may not prompt. *)
Lemma resolveSessionDirectory_warning_or_not s1 s2 e w :
  fst (resolveSessionDirectory
         {| promptUser := Some false; showWarning := Some s1; ensureExists := e |} w)
  = fst (resolveSessionDirectory
           {| promptUser := Some false; showWarning := Some s2; ensureExists := e |} w).
Proof.
  unfold resolveSessionDirectory. cbn [promptUser showWarning ensureExists default].
  unfold bind at 1 3, get_world. cbv beta iota zeta.
  assert (H : forall (m1 m2 : M (option string)) (k : option string -> M (option string)),
             fst (m1 w) = fst (m2 w) ->
             fst (let '(r, w2, t2) := bind m1 k w in (r, w2, [] ++ t2))
             = fst (let '(r, w2, t2) := bind m2 k w in (r, w2, [] ++ t2))).
  { intros m1 m2 k Hm. pose proof (bind_fst m1 m2 k w Hm) as Hb.
    destruct (bind m1 k w) as [[r1 w1] t1], (bind m2 k w) as [[r2 w2] t2]. exact Hb. }
  apply H. destruct (getFileLocationSetting w); [|reflexivity|].
  - rewrite !resolveWorkspaceBase_cases. cbv zeta.
    destruct (negb _ && existsSync _ w); [reflexivity|].
    now destruct (workspaceFolders w).
  - rewrite !resolveCustomBase_cases. cbv zeta.
    now destruct (negb _ && existsSync _ w).
Qed.

(** X25.  No listing is guarded against a session directory that is
    not a directory.  When the path of the session directory is taken by a
    regular file, [readdir] rejects, and so do [listSessions], the
    picker, [restoreSession], the root of the tree view and
    [deleteAllSessions], none of which handles it: they end there, having
    shown nothing and changed nothing on the disk. *)
Theorem listing_rejects_when_the_folder_is_a_file
        (localeCompare : string -> string -> Z) (w : World) (f : string) (text : FileText) :
  result (resolveSessionDirectory
            {| promptUser := Some false; showWarning := Some false; ensureExists := None |} w)
  = Ok (Some f) ->
  disk_lookup f (disk w) = Some (File text) ->
  (forall showWarning,
     result (listSessions localeCompare
               {| promptUser := Some false; showWarning := Some showWarning;
                  ensureExists := None |} w)
     = Threw "ENOTDIR")
  /\ (forall placeHolder,
        result (pickSessionEntry localeCompare placeHolder w) = Threw "ENOTDIR"
        /\ effects (pickSessionEntry localeCompare placeHolder w) = [])
  /\ result (restoreSession localeCompare w) = Threw "ENOTDIR"
  /\ result (getChildren localeCompare None w) = Threw "ENOTDIR"
  /\ result (deleteAllSessions w) = Threw "ENOTDIR"
  /\ effects (deleteAllSessions w) = []
  /\ disk (final (deleteAllSessions w)) = disk w.
Proof.
  intros Hres Hfile.
  assert (Hquiet : forall s,
             exists w1,
               resolveSessionDirectory
                 {| promptUser := Some false; showWarning := Some s;
                    ensureExists := None |} w
               = (Ok (Some f), w1, [])
               /\ disk w1 = disk w).
  { intros s.
    destruct (resolved_quietly
                {| promptUser := Some false; showWarning := Some s; ensureExists := None |}
                w f eq_refl ltac:(discriminate)) as (w1 & Hrun & Hd & _).
    - unfold result in *. now rewrite (resolveSessionDirectory_warning_or_not s false None w).
    - now exists w1. }
  assert (Hlist : forall s,
             exists w1,
               listSessions localeCompare
                 {| promptUser := Some false; showWarning := Some s;
                    ensureExists := None |} w
               = (Threw "ENOTDIR", w1, [])
               /\ disk w1 = disk w).
  { intros s. destruct (Hquiet s) as (w1 & Hrun & Hd). exists w1. split; [|exact Hd].
    apply (listSessions_not_a_directory _ _ _ _ _ _ text Hrun). now rewrite Hd. }
  split; [intros s; destruct (Hlist s) as (w1 & -> & _); reflexivity|].
  split.
  { intros placeHolder. destruct (Hlist true) as (w1 & Hrun & _).
    unfold pickSessionEntry, bind. rewrite Hrun. now split. }
  split.
  { destruct (Hlist true) as (w1 & Hrun & _).
    unfold restoreSession, pickSessionEntry, bind. now rewrite Hrun. }
  split.
  { destruct (Hlist false) as (w1 & Hrun & _). now rewrite getChildren_root, Hrun. }
  destruct (Hquiet true) as (w1 & Hrun & Hd).
  destruct (resolveSessionDirectory_grows _ _ _ _ _ Hrun) as [Hf _].
  apply String.eqb_neq in Hf.
  unfold deleteAllSessions, bind, get_world. rewrite Hrun.
  rewrite <- Hd in Hfile.
  unfold truthy, existsSync, readdir. rewrite Hfile, Hf. cbn. rewrite Hfile.
  now repeat split.
Qed.

Lemma listing_rejects_when_the_folder_is_a_file_witness :
  result (listSessions Sample.localeCompare
            {| promptUser := Some false; showWarning := Some true; ensureExists := None |}
            Sample.world_with_sessions_file)
  = Threw "ENOTDIR"
  /\ result (restoreSession Sample.localeCompare Sample.world_with_sessions_file)
     = Threw "ENOTDIR"
  /\ result (getChildren Sample.localeCompare None Sample.world_with_sessions_file)
     = Threw "ENOTDIR"
  /\ result (deleteAllSessions Sample.world_with_sessions_file) = Threw "ENOTDIR"
  /\ disk (final (deleteAllSessions Sample.world_with_sessions_file))
     = disk Sample.world_with_sessions_file.
Proof.
  destruct (listing_rejects_when_the_folder_is_a_file
              Sample.localeCompare Sample.world_with_sessions_file "/g/sessions"
              (OtherText "notes"))
    as (Hlist & _ & Hrestore & Htree & Hdel & _ & Hdisk).
  - vm_compute. reflexivity.
  - vm_compute. reflexivity.
  - exact (conj (Hlist true) (conj Hrestore (conj Htree (conj Hdel Hdisk)))).
Defined.





(** * The save that follows a dismissed name prompt *)

Lemma no_slash_append a b : no_slash (a +:+ b) = no_slash a && no_slash b.
Proof.
  induction a as [|c a IH]; [reflexivity|]. rewrite append_String. cbn.
  now rewrite IH, andb_assoc.
Qed.

Lemma no_slash_replace_colon_dot s : no_slash (replace_colon_dot s) = no_slash s.
Proof.
  induction s as [|c s IH]; [reflexivity|]. cbn. rewrite IH. f_equal.
  destruct (Ascii.eqb_spec c ":") as [->|_]; [reflexivity|].
  destruct (Ascii.eqb_spec c ".") as [->|_]; reflexivity.
Qed.

Lemma no_slash_timestamped w :
  no_slash (clock w) = true -> no_slash (timestampedName w +:+ ".json") = true.
Proof.
  intros H. unfold timestampedName.
  now rewrite !no_slash_append, no_slash_replace_colon_dot, H.
Qed.

Lemma append_empty_r (s : string) : s +:+ "" = s.
Proof. induction s as [|c s IH]; [reflexivity|]. now rewrite append_String, IH. Qed.

Lemma append_assoc_String (a : string) c (b : string) :
  (a +:+ String c "") +:+ b = a +:+ String c b.
Proof. induction a as [|x a IH]; [reflexivity|]. now rewrite !append_String, IH. Qed.

(** The path [mkdir] is called on is the last one it makes. *)
Lemma dir_chain_self rest : forall seen,
  seen +:+ rest <> "" -> In (seen +:+ rest) (dir_chain seen rest).
Proof.
  induction rest as [|c rest IH]; intros seen Hne.
  - rewrite append_empty_r in *. cbn.
    destruct (String.eqb_spec seen "") as [->|_]; [contradiction|now left].
  - cbn [dir_chain]. apply in_or_app. right.
    rewrite <- append_assoc_String. apply IH.
    rewrite append_assoc_String. destruct seen; discriminate.
Qed.

Lemma is_file_add_directory d p q : is_file (add_directory d p) q = is_file d q.
Proof.
  unfold add_directory, is_file. destruct (disk_lookup p d) eqn:Hp; [reflexivity|].
  rewrite disk_lookup_app. destruct (disk_lookup q d); [reflexivity|]. cbn.
  now destruct (String.eqb p q).
Qed.

Lemma add_directories_keep chain : forall d q,
  disk_lookup q d = Some Directory ->
  disk_lookup q (fold_left add_directory chain d) = Some Directory.
Proof.
  intros d q Hq. destruct (add_directories chain d) as (extra & -> & _).
  now rewrite disk_lookup_app, Hq.
Qed.

Lemma add_directories_made chain : forall d p,
  In p chain -> (forall q, In q chain -> is_file d q = false) ->
  disk_lookup p (fold_left add_directory chain d) = Some Directory.
Proof.
  induction chain as [|p0 chain IH]; intros d p; [intros []|].
  cbn [fold_left]. intros Hin Hfiles.
  destruct Hin as [->|Hin].
  - apply add_directories_keep. specialize (Hfiles p (or_introl eq_refl)).
    unfold add_directory, is_file in *.
    destruct (disk_lookup p d) as [[text|]|] eqn:Hp; [discriminate|exact Hp|].
    rewrite disk_lookup_app, Hp. cbn. now rewrite String.eqb_refl.
  - apply IH; [exact Hin|]. intros q Hq. rewrite is_file_add_directory.
    apply Hfiles. now right.
Qed.

(** A directory that [resolveSessionDirectory] was asked to make is there
    when it answers. *)
Lemma resolveSessionDirectory_made options w f w1 t1 :
  default false (ensureExists options) = true ->
  resolveSessionDirectory options w = (Ok (Some f), w1, t1) ->
  disk_lookup f (disk w1) = Some Directory.
Proof.
  intros Hensure.
  unfold resolveSessionDirectory, bind at 1, get_world. cbv beta iota zeta.
  unfold bind at 1.
  assert (Hbase : exists r wb tb,
             match getFileLocationSetting w with
             | workspace =>
                 resolveWorkspaceBase (default true (promptUser options))
                                      (default true (showWarning options))
             | global => ret (Some (globalStoragePath w))
             | custom =>
                 resolveCustomBase (default true (promptUser options))
                                   (default true (showWarning options))
             end w = (Ok r, wb, tb) /\ disk wb = disk w).
  { destruct (getFileLocationSetting w).
    - destruct (resolveWorkspaceBase_inv (default true (promptUser options))
                  (default true (showWarning options)) w)
        as (r & wb & tb & H & Hd & _). now exists r, wb, tb.
    - now exists (Some (globalStoragePath w)), w, [].
    - destruct (resolveCustomBase_inv (default true (promptUser options))
                  (default true (showWarning options)) w)
        as (r & wb & tb & H & Hd & _). now exists r, wb, tb. }
  destruct Hbase as (r & wb & tb & -> & Hd). cbv beta iota zeta.
  destruct r as [base|]; [|cbn; discriminate].
  destruct (truthy (Some base)); [|cbn; discriminate]. cbn [negb].
  set (sessionFolder := match getFileLocationSetting w with
                        | workspace => _
                        | _ => _
                        end).
  assert (Hne : sessionFolder <> "").
  { unfold sessionFolder. destruct (getFileLocationSetting w); apply path_join_nonempty. }
  unfold bind at 1. rewrite Hensure.
  unfold ensureDirectory, mkdir_recursive.
  destruct (is_file (disk wb) sessionFolder); [discriminate|].
  destruct (existsb _ _) eqn:Hfiles; [discriminate|].
  cbn. intros [= <- <- _]. cbn [disk with_disk].
  apply add_directories_made.
  - apply (dir_chain_self sessionFolder ""). exact Hne.
  - intros q Hq. destruct (is_file (disk wb) q) eqn:Hfile; [|reflexivity].
    rewrite <- Hfiles. symmetry. apply existsb_exists. now exists q.
Qed.

Lemma writeFile_in_made_directory options w f w1 t1 file text :
  resolveSessionDirectory options w = (Ok (Some f), w1, t1) ->
  default false (ensureExists options) = true ->
  no_slash file = true ->
  disk_lookup (path_join f file) (disk w) <> Some Directory ->
  writeFile (path_join f file) text w1
  = (Ok tt, with_disk (disk_write (path_join f file) (File text) (disk w1)) w1,
     [WriteFile (path_join f file)]).
Proof.
  intros Hres Hensure Hfile Hnode.
  pose proof (resolveSessionDirectory_made _ _ _ _ _ Hensure Hres) as Hdir.
  destruct (resolveSessionDirectory_grows _ _ _ _ _ Hres) as (Hf & extra & Hd & Hextra).
  assert (Hnode1 : disk_lookup (path_join f file) (disk w1) <> Some Directory).
  { rewrite Hd, disk_lookup_app.
    destruct (disk_lookup (path_join f file) (disk w)) as [n|] eqn:Hl; [exact Hnode|].
    intros Hin. apply (disk_lookup_extra _ _ _ _ Hextra) in Hin as [_ Hin].
    apply dir_chain_length in Hin. unfold path_join in Hin.
    rewrite !length_append in Hin. cbn in Hin. lia. }
  assert (Hparent : parent_exists (path_join f file) (disk w1) = true).
  { unfold parent_exists. rewrite (path_split_join _ _ Hfile), Hdir.
    now destruct f. }
  unfold writeFile. rewrite Hparent.
  now destruct (disk_lookup (path_join f file) (disk w1)) as [[other|]|].
Qed.

Lemma writeFile_on_directory options w f w1 t1 filePath text :
  resolveSessionDirectory options w = (Ok (Some f), w1, t1) ->
  disk_lookup filePath (disk w) = Some Directory ->
  writeFile filePath text w1 = (Threw "EISDIR", w1, [WriteFile filePath]).
Proof.
  intros Hres Hnode.
  destruct (resolveSessionDirectory_grows _ _ _ _ _ Hres) as (_ & extra & Hd & _).
  unfold writeFile. now rewrite Hd, disk_lookup_app, Hnode.
Qed.

Lemma nameAndWrite_run snapshot w :
  nameAndWrite snapshot w =
  let w0 := with_answers (tl (answers w)) w in
  let sessionName := sessionNameOrTimestamp (hd None (answers w)) w in
  let ask := ShowInputBox "Enter a name to save your current session"
                          "Leave empty to use a timestamped name" in
  let '(r1, w1, t1) :=
    resolveSessionDirectory {| promptUser := Some true; showWarning := Some true;
                               ensureExists := Some true |} w0 in
  match r1 with
  | Threw code => (Threw code, w1, ask :: t1)
  | Ok None => (Ok false, w1, ask :: t1)
  | Ok (Some f) =>
      if String.eqb f "" then (Ok false, w1, ask :: t1)
      else
        let '(r2, w2, t2) :=
          writeFile (path_join f (sessionName +:+ ".json")) (JSON_stringify snapshot) w1 in
        match r2 with
        | Threw code => (Threw code, w2, ask :: t1 ++ t2)
        | Ok _ =>
            (Ok true, w2,
             ask :: t1 ++ t2
             ++ [ShowInformationMessage (savedMessage sessionName snapshot); RefreshTree])
        end
  end.
Proof.
  rewrite nameAndWrite_answered. cbv zeta. unfold bind at 1.
  destruct (resolveSessionDirectory _ _) as [[[[f|]|code] w1] t1];
    try (cbn; rewrite ?app_nil_r; reflexivity).
  cbn [truthy]. destruct (String.eqb f ""); cbn [negb];
    [cbn; rewrite ?app_nil_r; reflexivity|].
  unfold bind at 1.
  destruct (writeFile _ _ w1) as [[[[]|code] w2] t2]; cbn; rewrite ?app_nil_r; reflexivity.
Qed.

(** C2 (as amended).  A dismissed name prompt, like an empty name, does
    not cancel the save: the command takes the timestamped name
    [session-] followed by the ISO time with colons and dots replaced by
    dashes, and goes on exactly as if the user had typed that name.  With
    a tab to save and a session directory that resolves, it calls
    [writeFile] on the file of that name in that directory; when the time
    holds no path separator and no directory stands at the path of that
    file, the call succeeds, the file holds the snapshot and the command
    reports the save; when a directory stands there, the command fails
    with [EISDIR].  The same holds for the save branch of
    [restoreNamedSession] once the prompt about unsaved files, when there
    are unsaved files, has been answered with something other than
    [Cancel]. *)
Theorem dismissed_name_prompt_saves_under_timestamp
        (w : World) (a : option string) (rest : list (option string)) :
  a = None \/ a = Some "" ->
  let options := {| promptUser := Some true; showWarning := Some true;
                    ensureExists := Some true |} in
  let snapshot := createSessionSnapshot w in
  sessionNameOrTimestamp a w = timestampedName w
  /\ saveSession (with_answers (a :: rest) w)
     = saveSession (with_answers (Some (timestampedName w) :: rest) w)
  /\ (forall f w1 t1,
        tabs snapshot <> [] ->
        resolveSessionDirectory options (with_answers rest w) = (Ok (Some f), w1, t1) ->
        let saved := path_join f (timestampedName w +:+ ".json") in
        let run := saveSession (with_answers (a :: rest) w) in
        In (WriteFile saved) (effects run)
        /\ (no_slash (clock w) = true ->
            disk_lookup saved (disk w) <> Some Directory ->
            result run = Ok tt
            /\ disk_lookup saved (disk (final run)) = Some (File (JSON_stringify snapshot))
            /\ In (ShowInformationMessage (savedMessage (timestampedName w) snapshot))
                  (effects run))
        /\ (disk_lookup saved (disk w) = Some Directory ->
            result run = Threw "EISDIR" /\ disk (final run) = disk w1))
  /\ (tabs snapshot <> [] ->
      (unsavedDocs w = [] ->
       saveBeforeSwitch (with_answers (a :: rest) w)
       = saveBeforeSwitch (with_answers (Some (timestampedName w) :: rest) w))
      /\ (forall c, unsavedDocs w <> [] -> c <> Some "Cancel" ->
          saveBeforeSwitch (with_answers (c :: a :: rest) w)
          = saveBeforeSwitch (with_answers (c :: Some (timestampedName w) :: rest) w)))
  /\ (forall start asked f w1 t1,
        confirmUnsaved start = (Ok true, with_answers (a :: rest) w, asked) ->
        tabs snapshot <> [] ->
        resolveSessionDirectory options (with_answers rest w) = (Ok (Some f), w1, t1) ->
        let saved := path_join f (timestampedName w +:+ ".json") in
        let run := saveBeforeSwitch start in
        In (WriteFile saved) (effects run)
        /\ (no_slash (clock w) = true ->
            disk_lookup saved (disk w) <> Some Directory ->
            result run = Ok true
            /\ disk_lookup saved (disk (final run)) = Some (File (JSON_stringify snapshot))
            /\ In (ShowInformationMessage (savedMessage (timestampedName w) snapshot))
                  (effects run))
        /\ (disk_lookup saved (disk w) = Some Directory ->
            result run = Threw "EISDIR" /\ disk (final run) = disk w1)).
Proof.
  intros Ha. cbv zeta. split; [now apply sessionNameOrTimestamp_default|].
  split; [|split; [|split]].
  - rewrite !saveSession_answered. cbv zeta.
    now rewrite (sessionNameOrTimestamp_default a w Ha).
  - intros f w1 t1 Hsome Hres.
    destruct (resolveSessionDirectory_grows _ _ _ _ _ Hres) as (Hf & _).
    apply String.eqb_neq in Hf.
    rewrite (saveSession_run (with_answers (a :: rest) w)) by exact Hsome. cbv zeta.
    cbn [answers with_answers hd tl]. rewrite with_answers_twice, Hres, Hf.
    rewrite snapshot_with_answers.
    change (sessionNameOrTimestamp a (with_answers (a :: rest) w))
      with (sessionNameOrTimestamp a w).
    rewrite (sessionNameOrTimestamp_default a w Ha).
    split; [|split].
    + destruct (writeFile_run (path_join f (timestampedName w +:+ ".json"))
                  (JSON_stringify (createSessionSnapshot w)) w1) as [->|[->| ->]];
        unfold effects; cbn [snd]; right; apply in_or_app; right; now left.
    + intros Hclock Hnode.
      rewrite (writeFile_in_made_directory _ _ _ _ _ _ _ Hres eq_refl
                 (no_slash_timestamped w Hclock) Hnode).
      unfold result, final, effects. cbn [fst snd disk with_disk].
      split; [reflexivity|]. split; [apply disk_lookup_write_same|].
      right. apply in_or_app. right. right. now left.
    + intros Hnode. rewrite (writeFile_on_directory _ _ _ _ _ _ _ Hres Hnode).
      now split.
  - intros Hsome.
    assert (Hlen : (length (tabs (createSessionSnapshot w)) =? 0)%nat = false).
    { destruct (tabs (createSessionSnapshot w)); [contradiction|reflexivity]. }
    split.
    + intros Hdocs.
      assert (Hc : forall l, confirmUnsaved (with_answers l w)
                             = (Ok true, with_answers l w, [])).
      { intros l. destruct (confirmUnsaved_cases (with_answers l w)) as [[_ H]|[H _]].
        - exact H.
        - now elim H. }
      rewrite (saveBeforeSwitch_confirmed _ _ _ _ (Hc (a :: rest))),
              (saveBeforeSwitch_confirmed _ _ _ _ (Hc (Some (timestampedName w) :: rest))).
      rewrite !snapshot_with_answers, Hlen.
      rewrite (nameAndWrite_default _ (with_answers (a :: rest) w)) by exact Ha.
      reflexivity.
    + intros c Hdocs Hcancel.
      destruct (confirmUnsaved_cases (with_answers (c :: a :: rest) w))
        as [[H _]|[_ [[Hc H1]|[[Hc _]|(Hs & _ & H1)]]]];
        [now elim Hdocs| |simpl in Hc; congruence|].
      * destruct (confirmUnsaved_cases
                    (with_answers (c :: Some (timestampedName w) :: rest) w))
          as [[H _]|[_ [[_ H2]|[[Hc2 _]|(Hs2 & _ & _)]]]];
          [now elim Hdocs| |simpl in Hc2; congruence|now elim Hs2].
        rewrite (saveBeforeSwitch_confirmed _ _ _ _ H1),
                (saveBeforeSwitch_confirmed _ _ _ _ H2).
        rewrite !snapshot_after_saveAll, !snapshot_with_answers, Hlen.
        rewrite (nameAndWrite_default _
                   (final (saveAll (with_answers (tl (answers (with_answers (c :: a :: rest) w)))
                                                 (with_answers (c :: a :: rest) w)))))
          by exact Ha.
        reflexivity.
      * destruct (confirmUnsaved_cases
                    (with_answers (c :: Some (timestampedName w) :: rest) w))
          as [[H _]|[_ [[Hc2 _]|[[Hc2 _]|(_ & _ & H2)]]]];
          [now elim Hdocs|now elim Hs|simpl in Hc2; congruence|].
        rewrite (saveBeforeSwitch_confirmed _ _ _ _ H1),
                (saveBeforeSwitch_confirmed _ _ _ _ H2).
        rewrite !snapshot_with_answers, Hlen.
        rewrite (nameAndWrite_default _
                   (with_answers (tl (answers (with_answers (c :: a :: rest) w)))
                                 (with_answers (c :: a :: rest) w)))
          by exact Ha.
        reflexivity.
  - intros start asked f w1 t1 Hconfirm Hsome Hres.
    destruct (resolveSessionDirectory_grows _ _ _ _ _ Hres) as (Hf & _).
    apply String.eqb_neq in Hf.
    rewrite (saveBeforeSwitch_confirmed _ _ _ _ Hconfirm).
    rewrite snapshot_with_answers.
    destruct (tabs (createSessionSnapshot w)) as [|t ts] eqn:Htabs; [contradiction|].
    change ((length (t :: ts) =? 0)%nat) with false. cbv beta iota.
    rewrite nameAndWrite_run. cbv zeta.
    cbn [answers with_answers hd tl]. rewrite with_answers_twice, Hres, Hf.
    change (sessionNameOrTimestamp a (with_answers (a :: rest) w))
      with (sessionNameOrTimestamp a w).
    rewrite (sessionNameOrTimestamp_default a w Ha).
    split; [|split].
    + destruct (writeFile_run (path_join f (timestampedName w +:+ ".json"))
                  (JSON_stringify (createSessionSnapshot w)) w1) as [->|[->| ->]];
        unfold effects; cbn [snd]; apply in_or_app; right; right; apply in_or_app;
        right; now left.
    + intros Hclock Hnode.
      rewrite (writeFile_in_made_directory _ _ _ _ _ _ _ Hres eq_refl
                 (no_slash_timestamped w Hclock) Hnode).
      unfold result, final, effects. cbn [fst snd disk with_disk].
      split; [reflexivity|]. split; [apply disk_lookup_write_same|].
      apply in_or_app. right. right. apply in_or_app. right. right. now left.
    + intros Hnode. rewrite (writeFile_on_directory _ _ _ _ _ _ _ Hres Hnode).
      now split.
Qed.

(** C2, as the specification words it, fails: with three text tabs open
    and the name prompt dismissed, [saveSession] writes the session under
    the timestamped name, and so does the save branch of
    [restoreNamedSession]. *)
Lemma dismissed_name_prompt_still_writes :
  let w := with_answers [None] Sample.world in
  let saved := "/g/sessions/session-2025-11-10T08-30-00-000Z.json" in
  hd None (answers w) = None
  /\ disk_lookup saved (disk w) = None
  /\ result (saveSession w) = Ok tt
  /\ In (WriteFile saved) (effects (saveSession w))
  /\ disk_lookup saved (disk (final (saveSession w)))
     = Some (File (JSON_stringify (createSessionSnapshot w)))
  /\ result (saveBeforeSwitch w) = Ok true
  /\ disk_lookup saved (disk (final (saveBeforeSwitch w)))
     = Some (File (JSON_stringify (createSessionSnapshot w))).
Proof. vm_compute. repeat split. tauto. Qed.

Lemma dismissed_name_prompt_saves_under_timestamp_witness :
  let w := with_textDocuments [Sample.draft] Sample.world in
  let saved := "/g/sessions/session-2025-11-10T08-30-00-000Z.json" in
  let snapshot := createSessionSnapshot w in
  (@None string = None \/ @None string = Some "")
  /\ unsavedDocs w = [Sample.draft]
  /\ timestampedName w = "session-2025-11-10T08-30-00-000Z"
  /\ saveSession (with_answers [None] w)
     = saveSession (with_answers [Some "session-2025-11-10T08-30-00-000Z"] w)
  /\ (result (saveSession (with_answers [None] w)) = Ok tt
      /\ disk_lookup saved (disk (final (saveSession (with_answers [None] w))))
         = Some (File (JSON_stringify snapshot)))
  /\ (result (saveBeforeSwitch (with_answers [Some "Continue"; None] w)) = Ok true
      /\ disk_lookup saved
           (disk (final (saveBeforeSwitch (with_answers [Some "Continue"; None] w))))
         = Some (File (JSON_stringify snapshot))).
Proof.
  cbv zeta.
  destruct (dismissed_name_prompt_saves_under_timestamp
              (with_textDocuments [Sample.draft] Sample.world) None []
              (or_introl eq_refl)) as (_ & Hsame & Hsave & _ & Hswitch).
  split; [now left|]. split; [reflexivity|]. split; [reflexivity|].
  split; [exact Hsame|]. split.
  - destruct (Hsave "/g/sessions"
                (with_answers [] (with_textDocuments [Sample.draft] Sample.world))
                [Mkdir "/g/sessions"] ltac:(discriminate) eq_refl)
      as (_ & Hwritten & _).
    destruct (Hwritten eq_refl ltac:(discriminate)) as (Hok & Hfile & _).
    split; [exact Hok|exact Hfile].
  - destruct (Hswitch
                (with_answers [Some "Continue"; None]
                              (with_textDocuments [Sample.draft] Sample.world))
                [unsavedQuestion (with_textDocuments [Sample.draft] Sample.world)]
                "/g/sessions"
                (with_answers [] (with_textDocuments [Sample.draft] Sample.world))
                [Mkdir "/g/sessions"] eq_refl ltac:(discriminate) eq_refl)
      as (_ & Hwritten & _).
    destruct (Hwritten eq_refl ltac:(discriminate)) as (Hok & Hfile & _).
    split; [exact Hok|exact Hfile].
Defined.
